(** * Hive Ad Agent: resource-governed request engine and worker dispatcher

    A shallow embedding of [ai_engine.py] (ResourceTracker, AIEngine),
    [agent_base.py] (HiveAgent), [orchestration/queen_bee.py] (QueenBee)
    and [ai/enhanced_ai_engine.py] (ConversationMemory, EnhancedAIEngine),
    followed by the properties of these programs.

    Conventions of the embedding.
    - Python [int] is [Z]; Python [float] is a binary64 primitive float.
    - A naive [datetime] is a number of microseconds; a [timedelta] is a
      difference of two of them, with the [days]/[seconds]/[microseconds]
      normalisation of the Python class written out.
    - A Python [str] is a [string]; a character stands for a code point
      below 256.
    - Methods that mutate [self], read the clock, call a provider or raise
      are computations of a state-and-exception monad [M S], where [S] is
      the heap the method can reach. The operations of the interpreter
      that can raise do so: indexing a list, [int / int], [str] of an
      [int], [json.loads]. *)

From Stdlib Require Import ZArith String Ascii List Bool Floats DecimalString Lia.
Import ListNotations.
Set Warnings "-register-all,-inexact-float".
Open Scope string_scope.
Open Scope Z_scope.

(* ================================================================== *)
(** * The Python runtime the programs rely on *)
(* ================================================================== *)

(** ** Exceptions *)

Inductive ExnClass : Type :=
| Exception
| IndexError
| JSONDecodeError
| TypeError
| KeyError
| RecursionError
| ValueError
| OverflowError
| ZeroDivisionError.

(** An exception object: its class and [str(e)]. Every class above derives
    from [Exception], so [except Exception] catches all of them. *)
Record exn : Type := mkExn { exn_class : ExnClass; exn_str : string }.

Definition ExnClass_eqb (a b : ExnClass) : bool :=
  match a, b with
  | Exception, Exception | IndexError, IndexError
  | JSONDecodeError, JSONDecodeError | TypeError, TypeError
  | KeyError, KeyError | RecursionError, RecursionError
  | ValueError, ValueError | OverflowError, OverflowError
  | ZeroDivisionError, ZeroDivisionError => true
  | _, _ => false
  end.

(** ** State and exception monad *)

Inductive Outcome (A : Type) : Type :=
| Ret (a : A)
| Raise (e : exn).
Arguments Ret {A} a.
Arguments Raise {A} e.

Definition M (S A : Type) : Type := S -> Outcome A * S.

Definition ret {S A} (a : A) : M S A := fun s => (Ret a, s).

Definition bind {S A B} (m : M S A) (k : A -> M S B) : M S B :=
  fun s => match m s with
           | (Ret a, s') => k a s'
           | (Raise e, s') => (Raise e, s')
           end.

Definition raise {S A} (e : exn) : M S A := fun s => (Raise e, s).

Definition get {S} : M S S := fun s => (Ret s, s).

Definition modify {S} (f : S -> S) : M S unit := fun s => (Ret tt, f s).

(** [try: body except Exception as e: handler e]. Mutations made by [body]
    before it raised stay in the state. *)
Definition try_except {S A} (body : M S A) (handler : exn -> M S A) : M S A :=
  fun s => match body s with
           | (Ret a, s') => (Ret a, s')
           | (Raise e, s') => handler e s'
           end.

(** [try: body except cls as e: handler e]: other classes propagate. *)
Definition try_except_class {S A} (cls : ExnClass) (body : M S A)
    (handler : exn -> M S A) : M S A :=
  fun s => match body s with
           | (Ret a, s') => (Ret a, s')
           | (Raise e, s') =>
               if ExnClass_eqb (exn_class e) cls then handler e s'
               else (Raise e, s')
           end.

Notation "x <- m ;; k" := (bind m (fun x => k))
  (at level 61, m at next level, right associativity).
Notation "m ;;; k" := (bind m (fun _ => k))
  (at level 61, right associativity).

(** A library call that returns or raises, run inside a computation. *)
Definition lift_outcome {S A} (o : Outcome A) : M S A := fun s => (o, s).

(** [xs[i]] for a non-negative index. *)
Definition getitem {S A} (xs : list A) (i : nat) : M S A :=
  match nth_error xs i with
  | Some x => ret x
  | None => raise (mkExn IndexError "list index out of range")
  end.

(** ** Numbers *)

(** The decimal digits of an [int], with its sign. *)
Definition str_int (z : Z) : string := NilZero.string_of_int (Z.to_int z).

(** [sys.get_int_max_str_digits()]: since Python 3.11 an [int] of more
    digits is not converted to text. *)
Definition int_max_str_digits : Z := 4300.

Definition printable (z : Z) : bool := Z.abs z <? 10 ^ int_max_str_digits.

Definition str_limit_error : exn :=
  mkExn ValueError
    ("Exceeds the limit (4300 digits) for integer string conversion; "
     ++ "use sys.set_int_max_str_digits() to increase the limit").

(** [str(n)] for an [int], also what an f-string does with [{n}]. *)
Definition str_int_call {S} (z : Z) : M S string :=
  if printable z then ret (str_int z) else raise str_limit_error.

(** The quotient of two [int]s rounded to the nearest float, ties to
    even. It is rounded from a quotient of at least 56 binary digits
    whose last digit tells whether the division left a remainder; a
    quotient beyond the largest float rounds to an infinity. *)
Definition truediv_spec (a b : Z) : spec_float :=
  let k := Z.max 0 (56 + Z.log2 (Z.abs b) - Z.log2 (Z.abs a)) in
  let n := Z.abs a * 2 ^ k in
  let q := n / Z.abs b in
  let sticky := if n mod Z.abs b =? 0 then 0 else 1 in
  let m := 2 * q + sticky in
  let negative := xorb (a <? 0) (b <? 0) in
  binary_normalize 53 1024 (if negative then - m else m) (- k - 1) negative.

Definition rounded_quotient (a b : Z) : float := SF2Prim (truediv_spec a b).

Definition quotient_overflows (a b : Z) : bool :=
  match truediv_spec a b with
  | S754_infinity _ => true
  | _ => false
  end.

Definition overflow_error : exn :=
  mkExn OverflowError "integer division result too large for a float".

(** [a / b] on two [int]s (true division): the rounded quotient, or
    OverflowError when it is no finite float. *)
Definition int_truediv {S} (a b : Z) : M S float :=
  if b =? 0 then raise (mkExn ZeroDivisionError "division by zero")
  else if quotient_overflows a b then raise overflow_error
  else ret (rounded_quotient a b).

Definition float_gt (a b : float) : bool := PrimFloat.ltb b a.

(** ** datetime and timedelta *)

Definition datetime : Type := Z.
Definition timedelta : Type := Z.

Definition datetime_sub (a b : datetime) : timedelta := a - b.

(** [td.days], [td.seconds]: the normalised components, with
    [0 <= seconds < 86400]. *)
Definition td_days (td : timedelta) : Z := td / 86400000000.
Definition td_seconds (td : timedelta) : Z := (td / 1000000) mod 86400.

(** [td.total_seconds()]: the microseconds divided by [10**6]; a
    [timedelta] stays below a billion days, so that the quotient is
    finite. *)
Definition td_total_seconds (td : timedelta) : float :=
  rounded_quotient td 1000000.

(** ** Strings *)

Definition nl : string := String (ascii_of_nat 10) "".

(** [c.isspace()] for a code point below 256. *)
Definition isspace (c : ascii) : bool :=
  let n := nat_of_ascii c in
  ((9 <=? n) && (n <=? 13) || (28 <=? n) && (n <=? 32)
   || (n =? 133) || (n =? 160))%nat.

Fixpoint lstrip (s : string) : string :=
  match s with
  | EmptyString => EmptyString
  | String c s' => if isspace c then lstrip s' else s
  end.

Fixpoint rstrip (s : string) : string :=
  match s with
  | EmptyString => EmptyString
  | String c s' =>
      match rstrip s' with
      | EmptyString => if isspace c then EmptyString else String c EmptyString
      | r => String c r
      end
  end.

(** [s.strip()] *)
Definition strip (s : string) : string := rstrip (lstrip s).

(** [sep in s] *)
Fixpoint contains (sep s : string) : bool :=
  prefix sep s ||
  match s with
  | EmptyString => false
  | String _ s' => contains sep s'
  end.

(** [s.split(sep)] for a non-empty [sep]: a left-to-right scan for
    non-overlapping occurrences; [skip] counts the characters of a matched
    separator still to be passed over. *)
Fixpoint split_go (sep s : string) (skip : nat) : list string :=
  match s with
  | EmptyString => [EmptyString]
  | String c s' =>
      match skip with
      | S k => split_go sep s' k
      | O =>
          if prefix sep s
          then EmptyString :: split_go sep s' (String.length sep - 1)
          else match split_go sep s' 0 with
               | seg :: rest => String c seg :: rest
               | [] => [String c EmptyString]
               end
      end
  end.

Definition split (sep s : string) : list string := split_go sep s 0.

(** ** JSON values and the pieces of the runtime left abstract *)

Inductive json : Type :=
| JNull
| JBool (b : bool)
| JInt (n : Z)
| JFloat (f : float)
| JString (s : string)
| JArray (items : list json)
| JObject (items : list (string * json)).

(** [str(x)] for a float, [json.loads], [json.dumps(_, indent=2)],
    [d.strftime('%Y%m%d%H%M%S')] and [d.isoformat()] are library code.
    [json_loads] returns the decoded value or raises: JSONDecodeError for
    a text that is not JSON, and whatever else the decoder raises
    (RecursionError for a text nested too deeply, ValueError). *)
Class PyRuntime : Type := {
  str_float : float -> string;
  json_loads : string -> Outcome json;
  json_dumps_indent2 : json -> string;
  strftime_YmdHMS : datetime -> string;
  isoformat : datetime -> string
}.

(** A [dict] with string keys is the list of its items in insertion
    order: [d.get(key)], [key in d] and [d[key] = v]. *)
Fixpoint dict_get {V} (key : string) (items : list (string * V)) : option V :=
  match items with
  | [] => None
  | (k, v) :: rest => if String.eqb k key then Some v else dict_get key rest
  end.

Definition dict_has {V} (key : string) (items : list (string * V)) : bool :=
  match dict_get key items with
  | Some _ => true
  | None => false
  end.

Fixpoint dict_set {V} (key : string) (v : V) (items : list (string * V))
    : list (string * V) :=
  match items with
  | [] => [(key, v)]
  | (k, x) :: rest =>
      if String.eqb k key then (k, v) :: rest
      else (k, x) :: dict_set key v rest
  end.

(* ================================================================== *)
(** * ai_engine.py *)
(* ================================================================== *)

Inductive AIProvider : Type := OPENAI | ANTHROPIC.

(** [provider.value] *)
Definition AIProvider_value (p : AIProvider) : string :=
  match p with OPENAI => "openai" | ANTHROPIC => "anthropic" end.

Module AIResponse.
Record t : Type := mk {
  content : string;
  model : string;
  tokens_used : Z;
  cost_usd : float;
  provider : string;
  success : bool;
  error : option string
}.
End AIResponse.

(** ** ResourceTracker *)

Record ResourceTracker : Type := mkResourceTracker {
  max_tokens_per_request : Z;
  max_requests_per_minute : Z;
  max_cost_per_hour : float;
  max_tokens_per_hour : Z;
  minute_requests : list datetime;
  hour_tokens : Z;
  hour_cost : float;
  hour_start : datetime;
  total_requests : Z;
  total_tokens : Z;
  total_cost : float
}.

(** ** The provider SDKs *)

Module OpenAI.
Record Request : Type := mkRequest {
  model : string;
  messages : list (string * string);   (* role, content *)
  max_tokens : Z;
  temperature : float
}.
Record Usage : Type := mkUsage {
  prompt_tokens : Z;
  completion_tokens : Z;
  total_tokens : Z
}.
(** [choices] lists [choice.message.content] of every choice. *)
Record Response : Type := mkResponse {
  usage : Usage;
  choices : list string
}.
(** [client.chat.completions.create]: returns or raises. *)
Definition Client : Type := Request -> Outcome Response.
End OpenAI.

Module Anthropic.
Record Request : Type := mkRequest {
  model : string;
  system : string;
  messages : list (string * string);
  max_tokens : Z;
  temperature : float
}.
Record Usage : Type := mkUsage {
  input_tokens : Z;
  output_tokens : Z
}.
(** [content] lists [block.text] of every content block. *)
Record Response : Type := mkResponse {
  usage : Usage;
  content : list string
}.
(** [client.messages.create]: returns or raises. *)
Definition Client : Type := Request -> Outcome Response.
End Anthropic.

(** What leaves the process: a request sent to a provider, a text handed
    to the JSON decoder. *)
Inductive Event : Type :=
| OpenAICall (r : OpenAI.Request)
| AnthropicCall (r : Anthropic.Request)
| JsonLoads (s : string).

(** The heap an engine reaches: the wall clock ([datetime.now()] returns
    [clock ticks] and advances [ticks]), its tracker, and the log of
    events. *)
Record World : Type := mkWorld {
  clock : nat -> datetime;
  ticks : nat;
  tracker : ResourceTracker;
  events : list Event
}.

Definition datetime_now : M World datetime :=
  fun w => (Ret (clock w (ticks w)),
            mkWorld (clock w) (S (ticks w)) (tracker w) (events w)).

Definition get_tracker : M World ResourceTracker :=
  fun w => (Ret (tracker w), w).

Definition set_tracker (tr : ResourceTracker) : M World unit :=
  fun w => (Ret tt, mkWorld (clock w) (ticks w) tr (events w)).

Definition emit (e : Event) : M World unit :=
  fun w => (Ret tt, mkWorld (clock w) (ticks w) (tracker w) (events w ++ [e])).

(** Field updates of the tracker, one per assignment of the source. *)
Definition set_minute_requests (l : list datetime) (tr : ResourceTracker) :=
  mkResourceTracker (max_tokens_per_request tr) (max_requests_per_minute tr)
    (max_cost_per_hour tr) (max_tokens_per_hour tr) l (hour_tokens tr)
    (hour_cost tr) (hour_start tr) (total_requests tr) (total_tokens tr)
    (total_cost tr).

Definition set_hour (tokens : Z) (cost : float) (start : datetime)
    (tr : ResourceTracker) :=
  mkResourceTracker (max_tokens_per_request tr) (max_requests_per_minute tr)
    (max_cost_per_hour tr) (max_tokens_per_hour tr) (minute_requests tr)
    tokens cost start (total_requests tr) (total_tokens tr) (total_cost tr).

Definition set_totals (requests tokens : Z) (cost : float)
    (tr : ResourceTracker) :=
  mkResourceTracker (max_tokens_per_request tr) (max_requests_per_minute tr)
    (max_cost_per_hour tr) (max_tokens_per_hour tr) (minute_requests tr)
    (hour_tokens tr) (hour_cost tr) (hour_start tr) requests tokens cost.

(** [ResourceTracker.__init__], the limits read from the environment being
    arguments. *)
Definition ResourceTracker_init (tokens_per_request requests_per_minute : Z)
    (cost_per_hour : float) (tokens_per_hour : Z) : M World unit :=
  now <- datetime_now ;;
  set_tracker (mkResourceTracker tokens_per_request requests_per_minute
                 cost_per_hour tokens_per_hour [] 0 0%float now 0 0 0%float).

(** The two assignments of [_reset_if_needed] at a given reading of the
    clock. *)
Definition reset_at (now : datetime) (tr : ResourceTracker) : ResourceTracker :=
  let tr1 :=
    set_minute_requests
      (filter (fun t => td_seconds (datetime_sub now t) <? 60)
              (minute_requests tr)) tr in
  if td_seconds (datetime_sub now (hour_start tr1)) >=? 3600
  then set_hour 0 0%float now tr1
  else tr1.

Definition _reset_if_needed : M World unit :=
  now <- datetime_now ;;
  tr <- get_tracker ;;
  set_tracker (reset_at now tr).

(** ** AIEngine *)

Module AIEngine.
(** The attributes of an engine other than [tracker], which lives in the
    [World]; a client that was not configured is [None]. *)
Record t : Type := mk {
  provider : AIProvider;
  model : string;
  openai_client : option OpenAI.Client;
  anthropic_client : option Anthropic.Client
}.
End AIEngine.

(** The process environment [AIEngine.__init__] reads: the variables,
    which SDKs could be imported, and the constructors of their clients.
    The four limits are the values [int(os.getenv(..))] and
    [float(os.getenv(..))] give. *)
Record Environ : Type := mkEnviron {
  AI_PROVIDER : option string;
  OPENAI_API_KEY : option string;
  ANTHROPIC_API_KEY : option string;
  OPENAI_AVAILABLE : bool;
  ANTHROPIC_AVAILABLE : bool;
  AsyncOpenAI : string -> OpenAI.Client;
  AsyncAnthropic : string -> Anthropic.Client;
  MAX_TOKENS_PER_REQUEST : Z;
  MAX_REQUESTS_PER_MINUTE : Z;
  MAX_COST_PER_HOUR : float;
  MAX_TOKENS_PER_HOUR : Z
}.

(** [c.lower()] for a code point below 256. *)
Definition lower_char (c : ascii) : ascii :=
  let n := nat_of_ascii c in
  if ((65 <=? n) && (n <=? 90)
      || (192 <=? n) && (n <=? 222) && negb (n =? 215))%nat
  then ascii_of_nat (n + 32)
  else c.

Fixpoint lower (s : string) : string :=
  match s with
  | EmptyString => EmptyString
  | String c s' => String (lower_char c) (lower s')
  end.

(** [if x:] on an optional string: [None] and the empty string are false. *)
Definition truthy (x : option string) : bool :=
  match x with
  | Some s => negb (String.eqb s "")
  | None => false
  end.

(** [x or ""] *)
Definition or_empty (x : option string) : string :=
  match x with
  | Some s => s
  | None => ""
  end.

(** [AIEngine.__init__]: the attributes of the engine; its tracker is
    built in the world. *)
Definition AIEngine_init (env : Environ) (provider : option AIProvider)
    (model : option string) : M World AIEngine.t :=
  let provider :=
    match provider with
    | Some p => p
    | None =>
        let provider_name :=
          lower (match AI_PROVIDER env with Some v => v | None => "openai" end) in
        if String.eqb provider_name "openai" then OPENAI else ANTHROPIC
    end in
  let model :=
    if truthy model then or_empty model
    else match provider with
         | OPENAI => "gpt-4o-mini"
         | ANTHROPIC => "claude-3-5-sonnet-20241022"
         end in
  let openai_client :=
    match provider with
    | OPENAI =>
        if OPENAI_AVAILABLE env && truthy (OPENAI_API_KEY env)
        then Some (AsyncOpenAI env (or_empty (OPENAI_API_KEY env)))
        else None
    | ANTHROPIC => None
    end in
  let anthropic_client :=
    match provider with
    | ANTHROPIC =>
        if ANTHROPIC_AVAILABLE env && truthy (ANTHROPIC_API_KEY env)
        then Some (AsyncAnthropic env (or_empty (ANTHROPIC_API_KEY env)))
        else None
    | OPENAI => None
    end in
  ResourceTracker_init (MAX_TOKENS_PER_REQUEST env) (MAX_REQUESTS_PER_MINUTE env)
    (MAX_COST_PER_HOUR env) (MAX_TOKENS_PER_HOUR env) ;;;
  ret (AIEngine.mk provider model openai_client anthropic_client).

Section WithRuntime.
Context {rt : PyRuntime}.

Definition check_limits (estimated_tokens : Z) : M World (bool * string) :=
  _reset_if_needed ;;;
  tr <- get_tracker ;;
  if Z.of_nat (List.length (minute_requests tr)) >=? max_requests_per_minute tr
  then
    now <- datetime_now ;;
    first <- getitem (minute_requests tr) 0 ;;
    let wait_time := 60 - td_seconds (datetime_sub now first) in
    shown <- str_int_call wait_time ;;
    ret (false, "Rate limit reached. Wait " ++ shown ++ "s")
  else if hour_tokens tr + estimated_tokens >? max_tokens_per_hour tr
  then
    shown <- str_int_call (max_tokens_per_hour tr) ;;
    ret (false, "Token limit reached (" ++ shown ++ "/hour)")
  else
    thousands <- int_truediv estimated_tokens 1000 ;;
    let estimated_cost := PrimFloat.mul thousands 0.03%float in
    if float_gt (PrimFloat.add (hour_cost tr) estimated_cost)
                (max_cost_per_hour tr)
    then
      ret (false, "Cost limit reached ($" ++ str_float (max_cost_per_hour tr)
                  ++ "/hour)")
    else ret (true, "OK").

Definition record_usage (tokens : Z) (cost : float) : M World unit :=
  now <- datetime_now ;;
  tr <- get_tracker ;;
  let tr := set_minute_requests (minute_requests tr ++ [now]) tr in
  let tr := set_hour (hour_tokens tr + tokens)
                     (PrimFloat.add (hour_cost tr) cost) (hour_start tr) tr in
  let tr := set_totals (total_requests tr + 1) (total_tokens tr + tokens)
                       (PrimFloat.add (total_cost tr) cost) tr in
  set_tracker tr.

(** The request [_openai_generate] sends. *)
Definition openai_request (self : AIEngine.t) (prompt : string)
    (system_prompt : option string) (max_tokens : Z) : OpenAI.Request :=
  let messages :=
    ((if truthy system_prompt
      then [("system", or_empty system_prompt)] else [])
     ++ [("user", prompt)])%list in
  OpenAI.mkRequest (AIEngine.model self) messages max_tokens 0.7%float.

Definition _openai_generate (self : AIEngine.t) (prompt : string)
    (system_prompt : option string) (max_tokens : Z) : M World AIResponse.t :=
  match AIEngine.openai_client self with
  | None => raise (mkExn Exception "OpenAI client not initialized")
  | Some client =>
      let request := openai_request self prompt system_prompt max_tokens in
      emit (OpenAICall request) ;;;
      response <- lift_outcome (client request) ;;
      let tokens_used := OpenAI.total_tokens (OpenAI.usage response) in
      (* GPT-4o-mini pricing *)
      input_thousands <-
        int_truediv (OpenAI.prompt_tokens (OpenAI.usage response)) 1000 ;;
      let input_cost := PrimFloat.mul input_thousands 0.00015%float in
      output_thousands <-
        int_truediv (OpenAI.completion_tokens (OpenAI.usage response)) 1000 ;;
      let output_cost := PrimFloat.mul output_thousands 0.0006%float in
      let total_cost := PrimFloat.add input_cost output_cost in
      record_usage tokens_used total_cost ;;;
      content <- getitem (OpenAI.choices response) 0 ;;
      ret (AIResponse.mk content (AIEngine.model self) tokens_used total_cost
             "openai" true None)
  end.

(** The request [_anthropic_generate] sends. *)
Definition anthropic_request (self : AIEngine.t) (prompt : string)
    (system_prompt : option string) (max_tokens : Z) : Anthropic.Request :=
  Anthropic.mkRequest (AIEngine.model self) (or_empty system_prompt)
    [("user", prompt)] max_tokens 0.7%float.

Definition anthropic_tokens (u : Anthropic.Usage) : Z :=
  Anthropic.input_tokens u + Anthropic.output_tokens u.

Definition _anthropic_generate (self : AIEngine.t) (prompt : string)
    (system_prompt : option string) (max_tokens : Z) : M World AIResponse.t :=
  match AIEngine.anthropic_client self with
  | None => raise (mkExn Exception "Anthropic client not initialized")
  | Some client =>
      let request := anthropic_request self prompt system_prompt max_tokens in
      emit (AnthropicCall request) ;;;
      response <- lift_outcome (client request) ;;
      let tokens_used := anthropic_tokens (Anthropic.usage response) in
      (* Claude Sonnet pricing *)
      input_thousands <-
        int_truediv (Anthropic.input_tokens (Anthropic.usage response)) 1000 ;;
      let input_cost := PrimFloat.mul input_thousands 0.003%float in
      output_thousands <-
        int_truediv (Anthropic.output_tokens (Anthropic.usage response)) 1000 ;;
      let output_cost := PrimFloat.mul output_thousands 0.015%float in
      let total_cost := PrimFloat.add input_cost output_cost in
      record_usage tokens_used total_cost ;;;
      content <- getitem (Anthropic.content response) 0 ;;
      ret (AIResponse.mk content (AIEngine.model self) tokens_used total_cost
             "anthropic" true None)
  end.

(** The response [generate] builds when no content was produced. *)
Definition failure_response (self : AIEngine.t) (error : string)
    : AIResponse.t :=
  AIResponse.mk "" (AIEngine.model self) 0 0%float
    (AIProvider_value (AIEngine.provider self)) false (Some error).

(** [max_tokens], defaulted to the per-request limit of the tracker. *)
Definition requested_tokens (max_tokens : option Z) (tr : ResourceTracker) : Z :=
  match max_tokens with
  | None => max_tokens_per_request tr
  | Some m => m
  end.

(** The provider call of [generate], by the provider selected. *)
Definition provider_generate (self : AIEngine.t) (prompt : string)
    (system_prompt : option string) (max_tokens : Z) : M World AIResponse.t :=
  match AIEngine.provider self with
  | OPENAI => _openai_generate self prompt system_prompt max_tokens
  | ANTHROPIC => _anthropic_generate self prompt system_prompt max_tokens
  end.

Definition generate (self : AIEngine.t) (prompt : string)
    (system_prompt : option string) (max_tokens : option Z)
    : M World AIResponse.t :=
  tr <- get_tracker ;;
  let max_tokens := requested_tokens max_tokens tr in
  limits <- check_limits max_tokens ;;
  let '(can_proceed, message) := limits in
  if negb can_proceed
  then ret (failure_response self ("Resource limit: " ++ message))
  else
    try_except
      (provider_generate self prompt system_prompt max_tokens)
      (fun e => ret (failure_response self (exn_str e))).

(** [json.loads(s)] *)
Definition json_loads_call (s : string) : M World json :=
  emit (JsonLoads s) ;;;
  lift_outcome (json_loads s).

(** The value of an optional string inside a [dict]. *)
Definition json_of_optional (x : option string) : json :=
  match x with
  | Some s => JString s
  | None => JNull
  end.

(** Lines 336-342 of [generate_json]: the text cleaned of its code fence. *)
Definition clean_content (raw : string) : M World string :=
  let content := strip raw in
  if contains "```json" content
  then
    after <- getitem (split "```json" content) 1 ;;
    getitem (split "```" after) 0
  else if contains "```" content
  then
    after <- getitem (split "```" content) 1 ;;
    getitem (split "```" after) 0
  else ret content.

(** The prompt [generate_json] sends. *)
Definition json_prompt (prompt : string) (schema : json) : string :=
  prompt ++ nl ++ nl ++ "Respond with valid JSON matching this schema:" ++ nl
  ++ json_dumps_indent2 schema ++ nl ++ nl ++ "JSON Response:".

Definition generate_json (self : AIEngine.t) (prompt : string)
    (schema : json) (system_prompt : option string) : M World json :=
  response <- generate self (json_prompt prompt schema) system_prompt None ;;
  if negb (AIResponse.success response)
  then ret (JObject [("error", json_of_optional (AIResponse.error response))])
  else
    try_except_class JSONDecodeError
      (content <- clean_content (AIResponse.content response) ;;
       json_loads_call (strip content))
      (fun e =>
         ret (JObject [("error", JString ("Invalid JSON: " ++ exn_str e));
                       ("raw", JString (AIResponse.content response))])).

(** The module-level state of [ai_engine.py]: the global [_engine], and
    the world its tracker lives in. *)
Record Process : Type := mkProcess {
  world : World;
  _engine : option AIEngine.t
}.

(** A computation on the world, run in the process. *)
Definition in_world {A} (m : M World A) : M Process A :=
  fun p => match m (world p) with
           | (o, w') => (o, mkProcess w' (_engine p))
           end.

(** [get_ai_engine], in the environment [env] of the process. *)
Definition get_ai_engine (env : Environ) : M Process AIEngine.t :=
  p <- get ;;
  match _engine p with
  | None =>
      engine <- in_world (AIEngine_init env None None) ;;
      modify (fun p => mkProcess (world p) (Some engine)) ;;;
      ret engine
  | Some engine => ret engine
  end.



End WithRuntime.

(* ================================================================== *)
(** * agent_base.py *)
(* ================================================================== *)

Inductive AgentRole : Type := QUEEN | SHOPPER_BEE | AD_BEE.
Inductive MessageType : Type := TASK | RESULT | QUERY.
Inductive AgentState : Type := IDLE | THINKING | WORKING.

Definition AgentRole_eqb (a b : AgentRole) : bool :=
  match a, b with
  | QUEEN, QUEEN | SHOPPER_BEE, SHOPPER_BEE | AD_BEE, AD_BEE => true
  | _, _ => false
  end.

Module HiveMessage.
Record t : Type := mk {
  id : string;
  sender : string;
  receiver : string;
  content : json;
  msg_type : MessageType;
  timestamp : string
}.
Definition set_sender (s : string) (m : t) : t :=
  mk (id m) s (receiver m) (content m) (msg_type m) (timestamp m).
End HiveMessage.

(** The routing callbacks a worker can hold in [on_message_send]: the
    bound method [route_message] of the queen it was registered with. *)
Inductive Callback : Type := queen_route_message.

Module HiveAgent.
(** The attributes [HiveAgent.__init__] creates. *)
Record t : Type := mk {
  agent_id : string;
  role : AgentRole;
  description : string;
  state : AgentState;
  running : bool;
  tasks_completed : Z;
  tasks_failed : Z;
  messages_sent : Z;
  messages_received : Z;
  on_message_send : option Callback
}.
Definition set_state (st : AgentState) (a : t) : t :=
  mk (agent_id a) (role a) (description a) st (running a)
     (tasks_completed a) (tasks_failed a) (messages_sent a)
     (messages_received a) (on_message_send a).
Definition set_running (b : bool) (a : t) : t :=
  mk (agent_id a) (role a) (description a) (state a) b
     (tasks_completed a) (tasks_failed a) (messages_sent a)
     (messages_received a) (on_message_send a).
Definition set_tasks (completed failed : Z) (a : t) : t :=
  mk (agent_id a) (role a) (description a) (state a) (running a)
     completed failed (messages_sent a) (messages_received a)
     (on_message_send a).
Definition set_messages_sent (n : Z) (a : t) : t :=
  mk (agent_id a) (role a) (description a) (state a) (running a)
     (tasks_completed a) (tasks_failed a) n (messages_received a)
     (on_message_send a).
Definition set_messages_received (n : Z) (a : t) : t :=
  mk (agent_id a) (role a) (description a) (state a) (running a)
     (tasks_completed a) (tasks_failed a) (messages_sent a) n
     (on_message_send a).
Definition set_on_message_send (cb : option Callback) (a : t) : t :=
  mk (agent_id a) (role a) (description a) (state a) (running a)
     (tasks_completed a) (tasks_failed a) (messages_sent a)
     (messages_received a) cb.
End HiveAgent.

(** [HiveAgent.__init__] *)
Definition HiveAgent_init (agent_id : string) (role : AgentRole)
    (description : string) : HiveAgent.t :=
  HiveAgent.mk agent_id role description IDLE false 0 0 0 0 None.

(** [HiveAgent.start] and [HiveAgent.stop] *)
Definition HiveAgent_start (a : HiveAgent.t) : HiveAgent.t :=
  HiveAgent.set_running true a.

Definition HiveAgent_stop (a : HiveAgent.t) : HiveAgent.t :=
  HiveAgent.set_running false a.

(** A concrete subclass of [HiveAgent]: its [process_message], a
    computation on the attributes of the worker itself that returns the
    optional response or raises. The identifier and the timestamp of a
    response are fields of the message returned; the readings of the clock
    and the identifiers a handler draws to build it are not counted in
    the hive. *)
Record AgentClass : Type := mkAgentClass {
  process_message : HiveMessage.t -> M HiveAgent.t (option HiveMessage.t)
}.

(** A worker object. *)
Record Bee : Type := mkBee {
  bee_class : AgentClass;
  bee_self : HiveAgent.t
}.

(* ================================================================== *)
(** * orchestration/queen_bee.py *)
(* ================================================================== *)

Module BeeInfo.
(** A value of [worker_bees]: [{"bee": bee, "role": bee.role}]. *)
Record t : Type := mk { bee : Bee; role : AgentRole }.
End BeeInfo.

Module QueenBee.
Record t : Type := mk {
  self : HiveAgent.t;
  worker_bees : list (string * BeeInfo.t);
  workflows_completed : Z;
  workflows_failed : Z
}.
End QueenBee.

(** The heap a queen reaches: herself and, through [worker_bees], the
    workers (each worker object is held by one entry of the registry);
    the wall clock; the source [uuid.uuid4()] draws from. *)
Record Hive : Type := mkHive {
  queen : QueenBee.t;
  hive_clock : nat -> datetime;
  hive_ticks : nat;
  uuid4 : nat -> string;
  uuid_count : nat
}.

Definition set_queen (q : QueenBee.t) (h : Hive) : Hive :=
  mkHive q (hive_clock h) (hive_ticks h) (uuid4 h) (uuid_count h).

Definition worker_bees (h : Hive) : list (string * BeeInfo.t) :=
  QueenBee.worker_bees (queen h).

Definition set_worker_bees (l : list (string * BeeInfo.t)) (h : Hive) : Hive :=
  set_queen (QueenBee.mk (QueenBee.self (queen h)) l
               (QueenBee.workflows_completed (queen h))
               (QueenBee.workflows_failed (queen h))) h.

Definition hive_now : M Hive datetime :=
  fun h => (Ret (hive_clock h (hive_ticks h)),
            mkHive (queen h) (hive_clock h) (S (hive_ticks h)) (uuid4 h)
                   (uuid_count h)).

Definition hive_uuid4 : M Hive string :=
  fun h => (Ret (uuid4 h (uuid_count h)),
            mkHive (queen h) (hive_clock h) (hive_ticks h) (uuid4 h)
                   (S (uuid_count h))).

(** [self.attr = f(self.attr)] on the worker registered as [bee_id]. *)
Definition update_bee (bee_id : string) (f : HiveAgent.t -> HiveAgent.t)
    : M Hive unit :=
  modify (fun h =>
    match dict_get bee_id (worker_bees h) with
    | Some info =>
        set_worker_bees
          (dict_set bee_id
             (BeeInfo.mk (mkBee (bee_class (BeeInfo.bee info))
                                (f (bee_self (BeeInfo.bee info))))
                         (BeeInfo.role info))
             (worker_bees h)) h
    | None => h
    end).

(** A method of the worker registered as [bee_id], run on its own
    attributes. *)
Definition on_bee {A} (bee_id : string) (default : A)
    (m : AgentClass -> M HiveAgent.t A) : M Hive A :=
  fun h =>
    match dict_get bee_id (worker_bees h) with
    | Some info =>
        let b := BeeInfo.bee info in
        match m (bee_class b) (bee_self b) with
        | (o, a') =>
            (o, set_worker_bees
                  (dict_set bee_id
                     (BeeInfo.mk (mkBee (bee_class b) a') (BeeInfo.role info))
                     (worker_bees h)) h)
        end
    | None => (Ret default, h)
    end.

(** [HiveAgent.send_message] of the worker registered as [bee_id], where
    [route] is what calling its callback does. *)
Definition send_message (route : HiveMessage.t -> M Hive unit)
    (bee_id : string) (message : HiveMessage.t) : M Hive unit :=
  h <- get ;;
  match dict_get bee_id (worker_bees h) with
  | None => ret tt
  | Some info =>
      let me := bee_self (BeeInfo.bee info) in
      let message := HiveMessage.set_sender (HiveAgent.agent_id me) message in
      match HiveAgent.on_message_send me with
      | Some queen_route_message => route message
      | None => ret tt
      end ;;;
      update_bee bee_id (fun a =>
        HiveAgent.set_messages_sent (HiveAgent.messages_sent a + 1) a)
  end.

(** [HiveAgent.receive_message] of the worker registered as [bee_id]. *)
Definition receive_message (route : HiveMessage.t -> M Hive unit)
    (bee_id : string) (message : HiveMessage.t) : M Hive unit :=
  update_bee bee_id (fun a =>
    HiveAgent.set_messages_received (HiveAgent.messages_received a + 1) a) ;;;
  update_bee bee_id (HiveAgent.set_state THINKING) ;;;
  response <- on_bee bee_id None (fun cls => process_message cls message) ;;
  match response with
  | Some r => send_message route bee_id r
  | None => ret tt
  end ;;;
  update_bee bee_id (HiveAgent.set_state IDLE).

(** [QueenBee.route_message]. A reply routed while a message is being
    received nests a further [receive_message]; [depth] is the number of
    nested calls the interpreter allows before it raises
    [RecursionError]. *)
Fixpoint route_message (depth : nat) (message : HiveMessage.t) : M Hive unit :=
  match depth with
  | O => raise (mkExn RecursionError "maximum recursion depth exceeded")
  | S depth' =>
      h <- get ;;
      let receiver_id := HiveMessage.receiver message in
      if dict_has receiver_id (worker_bees h)
      then receive_message (route_message depth') receiver_id message
      else ret tt
  end.

(** [QueenBee.register_bee] *)
Definition register_bee (b : Bee) : M Hive unit :=
  modify (fun h =>
    let a := bee_self b in
    set_worker_bees
      (dict_set (HiveAgent.agent_id a)
         (BeeInfo.mk
            (mkBee (bee_class b)
                   (HiveAgent.set_on_message_send (Some queen_route_message) a))
            (HiveAgent.role a))
         (worker_bees h)) h).

(** [QueenBee._find_bee_by_role] *)
Fixpoint find_role (role : AgentRole) (items : list (string * BeeInfo.t))
    : option string :=
  match items with
  | [] => None
  | (bee_id, bee_info) :: rest =>
      if AgentRole_eqb (BeeInfo.role bee_info) role then Some bee_id
      else find_role role rest
  end.

Definition _find_bee_by_role (role : AgentRole) : M Hive (option string) :=
  h <- get ;;
  ret (find_role role (worker_bees h)).

Definition add_workflows_completed : M Hive unit :=
  modify (fun h =>
    set_queen (QueenBee.mk (QueenBee.self (queen h)) (worker_bees h)
                 (QueenBee.workflows_completed (queen h) + 1)
                 (QueenBee.workflows_failed (queen h))) h).

Definition add_workflows_failed : M Hive unit :=
  modify (fun h =>
    set_queen (QueenBee.mk (QueenBee.self (queen h)) (worker_bees h)
                 (QueenBee.workflows_completed (queen h))
                 (QueenBee.workflows_failed (queen h) + 1)) h).

(** [worker_bees[bee_id]["bee"].tasks_completed] *)
Definition bee_tasks_completed (bee_id : string) : M Hive Z :=
  h <- get ;;
  match dict_get bee_id (worker_bees h) with
  | Some info => ret (HiveAgent.tasks_completed (bee_self (BeeInfo.bee info)))
  | None => raise (mkExn KeyError bee_id)
  end.

(** [await asyncio.sleep(seconds)]: the time that passes shows in the
    later readings of the clock. *)
Definition asyncio_sleep (seconds : float) : M Hive unit := ret tt.

(** [if x:] on a value of a result dict. *)
Definition json_truthy (x : option json) : bool :=
  match x with
  | None | Some JNull => false
  | Some (JBool b) => b
  | Some (JInt n) => negb (n =? 0)
  | Some (JFloat f) => negb (PrimFloat.eqb f 0%float)
  | Some (JString s) => negb (String.eqb s "")
  | Some (JArray l) => match l with [] => false | _ => true end
  | Some (JObject l) => match l with [] => false | _ => true end
  end.

(** [d.get(key)] and [d.get(key, default)] as values. *)
Definition get_or (key : string) (default : json) (d : list (string * json))
    : json :=
  match dict_get key d with
  | Some v => v
  | None => default
  end.

Section Workflows.
Context {rt : PyRuntime}.

(** [HiveMessage(sender=.., receiver=.., content=.., msg_type=..)]: the
    default factories draw the identifier, then read the clock. *)
Definition HiveMessage_new (sender receiver : string) (content : json)
    (msg_type : MessageType) : M Hive HiveMessage.t :=
  u <- hive_uuid4 ;;
  now <- hive_now ;;
  ret (HiveMessage.mk (substring 0 8 u) sender receiver content msg_type
         (isoformat now)).

Definition _full_campaign_workflow (depth : nat) (data : list (string * json))
    : M Hive (list (string * json)) :=
  let user_id := get_or "user_id" JNull data in
  shopper_bee_id <- _find_bee_by_role SHOPPER_BEE ;;
  if negb (truthy shopper_bee_id)
  then ret [("success", JBool false); ("error", JString "Shopper bee not found")]
  else
    let shopper_bee_id := or_empty shopper_bee_id in
    h <- get ;;
    shopper_message <-
      HiveMessage_new (HiveAgent.agent_id (QueenBee.self (queen h)))
        shopper_bee_id
        (JObject [("type", JString "analyze_user"); ("user_id", user_id)])
        TASK ;;
    route_message depth shopper_message ;;;
    asyncio_sleep 0.5%float ;;;
    completed <- bee_tasks_completed shopper_bee_id ;;
    if completed =? 0
    then ret [("success", JBool false);
              ("error", JString "Shopper analysis failed")]
    else
      ad_bee_id <- _find_bee_by_role AD_BEE ;;
      if negb (truthy ad_bee_id)
      then ret [("success", JBool false); ("error", JString "Ad bee not found")]
      else
        let ad_bee_id := or_empty ad_bee_id in
        ad_message <-
          HiveMessage_new (HiveAgent.agent_id (QueenBee.self (queen h)))
            ad_bee_id
            (JObject
               [("type", JString "create_campaign");
                ("shopper_analysis",
                 JObject
                   [("ai_segment",
                     JObject [("segment", JString "tech_enthusiast")]);
                    ("ai_interests",
                     JArray [JString "Electronics"; JString "Gadgets";
                             JString "Tech"]);
                    ("recommended_products",
                     get_or "products" (JArray []) data)])])
            TASK ;;
        route_message depth ad_message ;;;
        asyncio_sleep 0.5%float ;;;
        completed <- bee_tasks_completed ad_bee_id ;;
        if completed =? 0
        then ret [("success", JBool false);
                  ("error", JString "Campaign creation failed")]
        else
          ret [("success", JBool true);
               ("message", JString "Complete workflow executed");
               ("bees_involved",
                JArray [JString shopper_bee_id; JString ad_bee_id])].

(** The dispatch on [workflow_type] at the head of the [try] block of
    [execute_workflow]. *)
Definition workflow_of_type (depth : nat) (workflow_type : string)
    (data : list (string * json)) : M Hive (list (string * json)) :=
  if String.eqb workflow_type "full_ad_campaign"
  then _full_campaign_workflow depth data
  else ret [("success", JBool false); ("error", JString "Unknown workflow")].

Definition execute_workflow (depth : nat) (workflow_type : string)
    (data : list (string * json)) : M Hive (list (string * json)) :=
  now <- hive_now ;;
  let workflow_id := "workflow_" ++ strftime_YmdHMS now in
  start_time <- hive_now ;;
  try_except
    (result <- workflow_of_type depth workflow_type data ;;
     finish <- hive_now ;;
     let execution_time := td_total_seconds (datetime_sub finish start_time) in
     (if json_truthy (dict_get "success" result)
      then add_workflows_completed
      else add_workflows_failed) ;;;
     let result := dict_set "workflow_id" (JString workflow_id) result in
     let result := dict_set "execution_time" (JFloat execution_time) result in
     ret result)
    (fun e =>
       add_workflows_failed ;;;
       ret [("success", JBool false); ("error", JString (exn_str e));
            ("workflow_id", JString workflow_id)]).

End Workflows.

(* ================================================================== *)
(** * ai/enhanced_ai_engine.py *)
(* ================================================================== *)

Module ConversationTurn.
(** The fields hold what they were given: a turn restored from a stored
    document is not checked. *)
Record t : Type := mk {
  role : json;
  content : json;
  timestamp : json;
  metadata : json
}.
End ConversationTurn.

(** [collections.deque(maxlen=n)] with [0 <= n]: its items from left to
    right. *)
Record deque (A : Type) : Type := mkDeque {
  deque_maxlen : Z;
  deque_items : list A
}.
Arguments mkDeque {A} _ _.
Arguments deque_maxlen {A} _.
Arguments deque_items {A} _.

(** [d.append(x)]: the item is added on the right; the leftmost item is
    then dropped when the bound is exceeded. *)
Definition deque_append {A} (x : A) (d : deque A) : deque A :=
  let l := (deque_items d ++ [x])%list in
  mkDeque (deque_maxlen d)
    (if deque_maxlen d <? Z.of_nat (List.length l) then tl l else l).

(** [l[start:]] *)
Definition slice_from {A} (start : Z) (l : list A) : list A :=
  let n := Z.of_nat (List.length l) in
  let start := if start <? 0 then Z.max (start + n) 0 else Z.min start n in
  skipn (Z.to_nat start) l.

Module ConversationMemory.
Record t : Type := mk {
  max_turns : Z;
  max_tokens : Z;
  turns : deque ConversationTurn.t;
  conversation_id : json;
  metadata : json
}.
Definition set_turns (d : deque ConversationTurn.t) (c : t) : t :=
  mk (max_turns c) (max_tokens c) d (conversation_id c) (metadata c).
End ConversationMemory.

(** A call of [db.agent_memory.update_one]: the session of the filter and,
    of the document it sets, the conversation and the date. *)
Record UpdateOne : Type := mkUpdateOne {
  update_session_id : string;
  update_conversation : json;
  update_updated_at : datetime
}.

(** The collection [db.agent_memory], which these sources do not define:
    what its two methods return or raise, given the updates this engine
    made before. Of a document found, the entries that are JSON values. *)
Record AgentMemory : Type := mkAgentMemory {
  update_one : list UpdateOne -> UpdateOne -> Outcome unit;
  find_one : list UpdateOne -> string -> Outcome (option (list (string * json)))
}.

(** The heap an [EnhancedAIEngine] reaches: what its base class reaches,
    its conversations, the clock [datetime.utcnow()] reads and the updates
    it sent to the collection. *)
Record Enhanced : Type := mkEnhanced {
  base_world : World;
  conversations : list (string * ConversationMemory.t);
  utc_clock : nat -> datetime;
  utc_ticks : nat;
  db_updates : list UpdateOne
}.

Definition datetime_utcnow : M Enhanced datetime :=
  fun s => (Ret (utc_clock s (utc_ticks s)),
            mkEnhanced (base_world s) (conversations s) (utc_clock s)
              (S (utc_ticks s)) (db_updates s)).

(** A method of the base class, run on the part of the heap it reaches. *)
Definition in_base {A} (m : M World A) : M Enhanced A :=
  fun s => match m (base_world s) with
           | (o, w') =>
               (o, mkEnhanced w' (conversations s) (utc_clock s) (utc_ticks s)
                     (db_updates s))
           end.

Definition set_conversations (l : list (string * ConversationMemory.t))
    : M Enhanced unit :=
  modify (fun s =>
    mkEnhanced (base_world s) l (utc_clock s) (utc_ticks s) (db_updates s)).

Definition log_update (call : UpdateOne) : M Enhanced unit :=
  modify (fun s =>
    mkEnhanced (base_world s) (conversations s) (utc_clock s) (utc_ticks s)
      (db_updates s ++ [call])).

(** [v[key]] for a string key: the mapping [v] is, or the [TypeError]
    every other value raises. *)
Definition as_dict (v : json) : list (string * json) + exn :=
  match v with
  | JObject d => inl d
  | JArray _ =>
      inr (mkExn TypeError "list indices must be integers or slices, not str")
  | JString _ =>
      inr (mkExn TypeError "string indices must be integers, not 'str'")
  | JNull => inr (mkExn TypeError "'NoneType' object is not subscriptable")
  | JBool _ => inr (mkExn TypeError "'bool' object is not subscriptable")
  | JInt _ => inr (mkExn TypeError "'int' object is not subscriptable")
  | JFloat _ => inr (mkExn TypeError "'float' object is not subscriptable")
  end.

Definition dict_getitem {S} (d : list (string * json)) (key : string)
    : M S json :=
  match dict_get key d with
  | Some v => ret v
  | None => raise (mkExn KeyError ("'" ++ key ++ "'"))
  end.

Definition json_getitem {S} (v : json) (key : string) : M S json :=
  match as_dict v with
  | inl d => dict_getitem d key
  | inr e => raise e
  end.

(** [for x in v]: the values the loop visits. *)
Definition json_iter {S} (v : json) : M S (list json) :=
  match v with
  | JArray l => ret l
  | JObject d => ret (map (fun kv => JString (fst kv)) d)
  | JString s =>
      ret (map (fun c => JString (String c "")) (list_ascii_of_string s))
  | JNull => raise (mkExn TypeError "'NoneType' object is not iterable")
  | JBool _ => raise (mkExn TypeError "'bool' object is not iterable")
  | JInt _ => raise (mkExn TypeError "'int' object is not iterable")
  | JFloat _ => raise (mkExn TypeError "'float' object is not iterable")
  end.

Section EnhancedEngine.
Context {rt : PyRuntime}.

(** [ConversationMemory()], as [chat] and [load_conversation] build it:
    [max_turns=10], [max_tokens=4000]. *)
Definition ConversationMemory_new : M Enhanced ConversationMemory.t :=
  now <- datetime_utcnow ;;
  ret (ConversationMemory.mk 10 4000 (mkDeque 10 [])
         (JString ("conv_" ++ strftime_YmdHMS now)) (JObject [])).

(** [ConversationMemory.add_turn], where [now] is the reading of the clock
    the default factory of [timestamp] takes. *)
Definition add_turn (role content : json) (metadata : option json)
    (now : datetime) (c : ConversationMemory.t) : ConversationMemory.t :=
  let turn :=
    ConversationTurn.mk role content (JString (isoformat now))
      (if json_truthy metadata
       then match metadata with Some m => m | None => JObject [] end
       else JObject []) in
  ConversationMemory.set_turns (deque_append turn (ConversationMemory.turns c)) c.

Definition get_context_messages (c : ConversationMemory.t)
    : list (list (string * json)) :=
  map (fun turn => [("role", ConversationTurn.role turn);
                    ("content", ConversationTurn.content turn)])
    (deque_items (ConversationMemory.turns c)).

Definition get_recent_context (n : Z) (c : ConversationMemory.t)
    : list ConversationTurn.t :=
  slice_from (- n) (deque_items (ConversationMemory.turns c)).

Definition ConversationMemory_clear (c : ConversationMemory.t)
    : ConversationMemory.t :=
  ConversationMemory.set_turns
    (mkDeque (deque_maxlen (ConversationMemory.turns c)) []) c.

Definition turn_to_dict (turn : ConversationTurn.t) : json :=
  JObject [("role", ConversationTurn.role turn);
           ("content", ConversationTurn.content turn);
           ("timestamp", ConversationTurn.timestamp turn);
           ("metadata", ConversationTurn.metadata turn)].

Definition to_dict (c : ConversationMemory.t) : json :=
  JObject
    [("conversation_id", ConversationMemory.conversation_id c);
     ("turns",
      JArray (map turn_to_dict (deque_items (ConversationMemory.turns c))));
     ("metadata", ConversationMemory.metadata c)].

(** [conversation.add_turn(role, content)] on the conversation held under
    [session_id]. *)
Definition session_add_turn (session_id : string) (role content : json)
    : M Enhanced unit :=
  now <- datetime_utcnow ;;
  s <- get ;;
  match dict_get session_id (conversations s) with
  | Some c =>
      set_conversations
        (dict_set session_id (add_turn role content None now c)
           (conversations s))
  | None => ret tt
  end.

(** [EnhancedAIEngine._save_conversation] *)
Definition _save_conversation (db : AgentMemory) (session_id : string)
    (conversation : ConversationMemory.t) : M Enhanced unit :=
  try_except
    (now <- datetime_utcnow ;;
     let call := mkUpdateOne session_id (to_dict conversation) now in
     s <- get ;;
     log_update call ;;;
     lift_outcome (update_one db (db_updates s) call))
    (fun e => ret tt).

(** [EnhancedAIEngine.chat] *)
Definition chat (db : AgentMemory) (self : AIEngine.t) (prompt : string)
    (session_id : string) (system_prompt : option string) (save_to_db : bool)
    : M Enhanced AIResponse.t :=
  s <- get ;;
  (if negb (dict_has session_id (conversations s))
   then
     c <- ConversationMemory_new ;;
     set_conversations (dict_set session_id c (conversations s))
   else ret tt) ;;;
  s <- get ;;
  conversation <-
    match dict_get session_id (conversations s) with
    | Some c => ret c
    | None => raise (mkExn KeyError ("'" ++ session_id ++ "'"))
    end ;;
  let context_messages := get_context_messages conversation in
  tr <- in_base get_tracker ;;
  response <-
    in_base (generate self prompt system_prompt
               (Some (max_tokens_per_request tr))) ;;
  (if AIResponse.success response
   then
     session_add_turn session_id (JString "user") (JString prompt) ;;;
     session_add_turn session_id (JString "assistant")
       (JString (AIResponse.content response)) ;;;
     if save_to_db
     then
       s <- get ;;
       match dict_get session_id (conversations s) with
       | Some c => _save_conversation db session_id c
       | None => ret tt
       end
     else ret tt
   else ret tt) ;;;
  ret response.

(** The loop of [load_conversation] over the stored turns. *)
Fixpoint restore_turns (data : list json) (c : ConversationMemory.t)
    : M Enhanced ConversationMemory.t :=
  match data with
  | [] => ret c
  | turn_data :: rest =>
      match as_dict turn_data with
      | inl d =>
          role <- dict_getitem d "role" ;;
          content <- dict_getitem d "content" ;;
          timestamp <- dict_getitem d "timestamp" ;;
          let turn :=
            ConversationTurn.mk role content timestamp
              (get_or "metadata" (JObject []) d) in
          restore_turns rest
            (ConversationMemory.set_turns
               (deque_append turn (ConversationMemory.turns c)) c)
      | inr e => raise e
      end
  end.

(** [EnhancedAIEngine.load_conversation] *)
Definition load_conversation (db : AgentMemory) (session_id : string)
    : M Enhanced (option ConversationMemory.t) :=
  try_except
    (s <- get ;;
     doc <- lift_outcome (find_one db (db_updates s) session_id) ;;
     match doc with
     | Some d =>
         if dict_has "conversation" d
         then
           conversation <- ConversationMemory_new ;;
           stored <- dict_getitem d "conversation" ;;
           conversation_id <- json_getitem stored "conversation_id" ;;
           metadata <- json_getitem stored "metadata" ;;
           let conversation :=
             ConversationMemory.mk
               (ConversationMemory.max_turns conversation)
               (ConversationMemory.max_tokens conversation)
               (ConversationMemory.turns conversation)
               conversation_id metadata in
           stored_turns <- json_getitem stored "turns" ;;
           data <- json_iter stored_turns ;;
           conversation <- restore_turns data conversation ;;
           s <- get ;;
           set_conversations
             (dict_set session_id conversation (conversations s)) ;;;
           ret (Some conversation)
         else ret None
     | None => ret None
     end)
    (fun e => ret None).

End EnhancedEngine.

(* ================================================================== *)
(** * Concrete instances on which the programs are evaluated *)
(* ================================================================== *)

Fixpoint digits_value (acc : Z) (s : string) : option Z :=
  match s with
  | EmptyString => Some acc
  | String c s' =>
      let n := nat_of_ascii c in
      if ((48 <=? n) && (n <=? 57))%nat
      then digits_value (10 * acc + Z.of_nat (n - 48)) s'
      else None
  end.

(** [s] is made of opening brackets only. *)
Fixpoint all_brackets (s : string) : bool :=
  match s with
  | EmptyString => true
  | String c s' => Ascii.eqb c "["%char && all_brackets s'
  end.

Definition expecting_value : exn :=
  mkExn JSONDecodeError "Expecting value: line 1 column 1 (char 0)".

(** A runtime small enough to evaluate: its decoder reads the empty object
    and unsigned integer literals of at most 4300 digits, gives up on a
    longer literal (ValueError) and on a thousand or more opening brackets
    (RecursionError), and rejects every other text; every float is printed
    as the default cost ceiling, dates as their number of seconds. *)
Definition small_runtime : PyRuntime := {|
  str_float := fun _ => "5.0";
  json_loads := fun s =>
    if String.eqb s "{}" then Ret (JObject [])
    else match s with
         | EmptyString => Raise expecting_value
         | _ =>
             match digits_value 0 s with
             | Some n =>
                 if (String.length s <=? 4300)%nat then Ret (JInt n)
                 else
                   Raise
                     (mkExn ValueError
                        ("Exceeds the limit (4300 digits) for integer string "
                         ++ "conversion: value has "
                         ++ str_int (Z.of_nat (String.length s))
                         ++ " digits; use sys.set_int_max_str_digits() "
                         ++ "to increase the limit"))
             | None =>
                 if all_brackets s && (1000 <=? String.length s)%nat
                 then
                   Raise
                     (mkExn RecursionError
                        ("maximum recursion depth exceeded while decoding "
                         ++ "a JSON array from a unicode string"))
                 else Raise expecting_value
             end
         end;
  json_dumps_indent2 := fun _ => "{}";
  strftime_YmdHMS := fun d => str_int (d / 1000000);
  isoformat := fun d => str_int (d / 1000000)
|}.

Definition seconds (n : Z) : datetime := n * 1000000.

(** A tracker with the default limits, anchored at time 0. *)
Definition default_tracker : ResourceTracker :=
  mkResourceTracker 2000 10 5%float 100000 [] 0 0%float 0 0 0 0%float.

(** A tracker that recorded one request of 99000 tokens at time 0 and
    allows one request per minute. *)
Definition busy_tracker : ResourceTracker :=
  mkResourceTracker 2000 1 5%float 100000 [0] 99000 1%float 0 1 99000 1%float.

(** A tracker whose hour window, anchored at time 0, holds 99000 tokens. *)
Definition stale_tracker : ResourceTracker :=
  mkResourceTracker 2000 10 5%float 100000 [] 99000 1%float 0 1 99000 1%float.

(** A fresh tracker that allows one request per minute. *)
Definition one_per_minute_tracker : ResourceTracker :=
  mkResourceTracker 2000 1 5%float 100000 [] 0 0%float 0 0 0 0%float.

(** A provider that answers every request with the same completion. *)
Definition constant_openai (text : string) : OpenAI.Client :=
  fun _ => Ret (OpenAI.mkResponse (OpenAI.mkUsage 12 30 42) [text]).

Definition constant_anthropic (text : string) : Anthropic.Client :=
  fun _ => Ret (Anthropic.mkResponse (Anthropic.mkUsage 12 30) [text]).

Definition openai_engine (text : string) : AIEngine.t :=
  AIEngine.mk OPENAI "gpt-4o-mini" (Some (constant_openai text)) None.

Definition anthropic_engine (text : string) : AIEngine.t :=
  AIEngine.mk ANTHROPIC "claude-3-5-sonnet-20241022" None
    (Some (constant_anthropic text)).

(** An engine built without [OPENAI_API_KEY]. *)
Definition unconfigured_engine : AIEngine.t :=
  AIEngine.mk OPENAI "gpt-4o-mini" None None.

(** A provider whose replies report [10**400] prompt tokens. *)
Definition lavish_openai (text : string) : OpenAI.Client :=
  fun _ =>
    Ret (OpenAI.mkResponse (OpenAI.mkUsage (10 ^ 400) 30 (10 ^ 400 + 30))
           [text]).

Definition lavish_engine (text : string) : AIEngine.t :=
  AIEngine.mk OPENAI "gpt-4o-mini" (Some (lavish_openai text)) None.

(** A fresh tracker configured with [MAX_REQUESTS_PER_MINUTE=0]. *)
Definition closed_tracker : ResourceTracker :=
  mkResourceTracker 2000 0 5%float 100000 [] 0 0%float 0 0 0 0%float.

(** An environment with no key, both SDKs installed and
    [MAX_REQUESTS_PER_MINUTE=0]; the other limits are the defaults. *)
Definition keyless_environ : Environ :=
  mkEnviron None None None true true
    (fun _ => constant_openai "{}") (fun _ => constant_anthropic "{}")
    2000 0 5%float 100000.

(** A reply with two fenced blocks, the second tagged [json]: the first
    holds 1, the second 2. *)
Definition two_blocks_reply : string :=
  "```" ++ nl ++ "1" ++ nl ++ "```" ++ nl
  ++ "```json" ++ nl ++ "2" ++ nl ++ "```".

(** A reply whose tagged block, which holds 1, is closed by four
    backticks that [json] follows. *)
Definition straddling_reply : string :=
  "```json" ++ nl ++ "1" ++ nl ++ "````json" ++ nl ++ "2" ++ nl ++ "```".

(** [s * n] *)
Fixpoint string_times (s : string) (n : nat) : string :=
  match n with
  | O => EmptyString
  | S k => s ++ string_times s k
  end.

(** A reply of two thousand opening brackets. *)
Definition deep_reply : string := string_times "[" 2000.

(** A reply that wraps an object in prose and a tagged fence. *)
Definition fenced_reply : string :=
  "Here you go:" ++ nl ++ "```json" ++ nl ++ "{}" ++ nl ++ "```" ++ nl
  ++ "Anything else?".

(** The reply a worker sends back to the sender of a task. *)
Definition reply_to (message : HiveMessage.t) (result : json) : HiveMessage.t :=
  HiveMessage.mk "r0000000" "" (HiveMessage.sender message) result RESULT "".

(** A worker that completes every task it receives and replies, as
    [ShopperBee] and [AdBee] do when the engine answers. *)
Definition completing_worker : AgentClass :=
  mkAgentClass (fun message a =>
    match HiveMessage.msg_type message with
    | TASK =>
        (Ret (Some (reply_to message (JObject [("success", JBool true)]))),
         HiveAgent.set_tasks (HiveAgent.tasks_completed a + 1)
           (HiveAgent.tasks_failed a) a)
    | _ => (Ret None, a)
    end).

(** A worker whose task fails, as [ShopperBee] does when the engine
    returns an error: it counts a failed task and replies. *)
Definition failing_worker : AgentClass :=
  mkAgentClass (fun message a =>
    match HiveMessage.msg_type message with
    | TASK =>
        (Ret (Some (reply_to message (JObject [("success", JBool false)]))),
         HiveAgent.set_tasks (HiveAgent.tasks_completed a)
           (HiveAgent.tasks_failed a + 1) a)
    | _ => (Ret None, a)
    end).



(** A worker whose handler raises, as [ShopperBee] does when the reply of
    the model decodes to a number: it tests ["error" in segment_result]. *)
Definition crashing_worker : AgentClass :=
  mkAgentClass (fun message a =>
    (Raise (mkExn TypeError "argument of type 'int' is not iterable"), a)).

Definition queen_001 : QueenBee.t :=
  QueenBee.mk (HiveAgent_init "queen_bee_001" QUEEN "Master orchestrator")
    [] 0 0.

(** A hive at time 0 with the given workers registered in order. *)
Definition hive_of (bees : list Bee) : Hive :=
  fold_left (fun h b => snd (register_bee b h)) bees
    (mkHive queen_001 (fun _ => 0) 0 (fun _ => "12345678-aaaa") 0).

Definition shopper (cls : AgentClass) : Bee :=
  mkBee cls (HiveAgent_init "shopper_bee_001" SHOPPER_BEE
               "AI shopping behavior analyst").

Definition ad (cls : AgentClass) : Bee :=
  mkBee cls (HiveAgent_init "ad_bee_001" AD_BEE "AI advertising strategist").

(** A world whose clock stands at [now]. *)
Definition world_at (now : datetime) (tr : ResourceTracker) : World :=
  mkWorld (fun _ => now) 0 tr [].

(** A world whose clock reads 30 s twice and 10 s from then on: it
    steps back by twenty seconds. *)
Definition stepping_back_world (tr : ResourceTracker) : World :=
  mkWorld (fun n => if (n <? 2)%nat then seconds 30 else seconds 10) 0 tr [].

(** An environment with the key of OpenAI and the default limits. *)
Definition openai_environ : Environ :=
  mkEnviron None (Some "sk-test") None true true
    (fun _ => constant_openai "{}") (fun _ => constant_anthropic "{}")
    2000 10 5%float 100000.

(** A process that has not built its engine yet. *)
Definition new_process : Process :=
  mkProcess (world_at 0 default_tracker) None.

(** A task of the queen for the worker [receiver]. *)
Definition task_for (receiver : string) : HiveMessage.t :=
  HiveMessage.mk "12345678" "queen_bee_001" receiver
    (JObject [("type", JString "analyze_user")]) TASK "0".

(** A worker that completed a task earlier and whose tasks now fail. *)
Definition seasoned (b : Bee) : Bee :=
  mkBee failing_worker (HiveAgent.set_tasks 1 0 (bee_self b)).

(** An engine with memory that has no conversation yet; its clock for
    [utcnow] advances one second at each reading. *)
Definition enhanced_at (w : World) : Enhanced :=
  mkEnhanced w [] (fun n => seconds (Z.of_nat n)) 0 [].

(** A collection that cannot be reached. *)
Definition unreachable_db : AgentMemory :=
  mkAgentMemory
    (fun _ _ => Raise (mkExn Exception "connection refused"))
    (fun _ _ => Raise (mkExn Exception "connection refused")).

(** A collection that finds, for a session, the conversation of the last
    update made for it. *)
Definition last_update (session_id : string) (updates : list UpdateOne)
    : option UpdateOne :=
  fold_left
    (fun found u =>
       if String.eqb (update_session_id u) session_id then Some u else found)
    updates None.

Definition echo_db : AgentMemory :=
  mkAgentMemory
    (fun _ _ => Ret tt)
    (fun updates session_id =>
       Ret match last_update session_id updates with
           | Some u =>
               Some [("session_id", JString session_id);
                     ("conversation", update_conversation u)]
           | None => None
           end).

(** A conversation that holds twelve turns in a deque of twelve. *)
Definition long_conversation : ConversationMemory.t :=
  ConversationMemory.mk 12 4000
    (mkDeque 12
       (map (fun n =>
               ConversationTurn.mk (JString "user") (JInt n) (JString "0")
                 (JObject []))
          [1; 2; 3; 4; 5; 6; 7; 8; 9; 10; 11; 12]))
    (JString "conv_0") (JObject []).

(* ================================================================== *)
(** * Notions used in the statements *)
(* ================================================================== *)

(** [l] is [m] with some elements left out. *)
Inductive sublist {A : Type} : list A -> list A -> Prop :=
| sublist_nil : sublist [] []
| sublist_skip : forall x l m, sublist l m -> sublist l (x :: m)
| sublist_keep : forall x l m, sublist l m -> sublist (x :: l) (x :: m).

(** The text before the first occurrence of [sep] in [s], or [s]. *)
Fixpoint before_first (sep s : string) : string :=
  if prefix sep s then EmptyString
  else match s with
       | EmptyString => EmptyString
       | String c s' => String c (before_first sep s')
       end.

(** The text [clean_content] returns. *)
Definition fence_body (sep content : string) : string :=
  nth 0 (split "```" (nth 1 (split sep content) "")) "".

Definition cleaned (raw : string) : string :=
  let content := strip raw in
  if contains "```json" content then fence_body "```json" content
  else if contains "```" content then fence_body "```" content
  else content.

(** [s.partition(sep)] when [sep] occurs: the text before and the text
    after its first occurrence. *)
Fixpoint partition_first (sep s : string) : option (string * string) :=
  if prefix sep s
  then Some (EmptyString,
             substring (String.length sep)
               (String.length s - String.length sep) s)
  else match s with
       | EmptyString => None
       | String c s' =>
           match partition_first sep s' with
           | Some (a, b) => Some (String c a, b)
           | None => None
           end
       end.

(** From the words of the specification, "the first fenced code block's
    contents": the text between the first fence, with its [json] tag when
    it has one, and the fence that follows. *)
Definition first_fenced_block (s : string) : option string :=
  match partition_first "```" s with
  | None => None
  | Some (_, after) =>
      let body :=
        if prefix "json" after
        then substring 4 (String.length after - 4) after
        else after in
      match partition_first "```" body with
      | Some (contents, _) => Some contents
      | None => None
      end
  end.

(** The texts handed to the JSON decoder. *)
Fixpoint decoder_inputs (es : list Event) : list string :=
  match es with
  | [] => []
  | JsonLoads s :: rest => s :: decoder_inputs rest
  | _ :: rest => decoder_inputs rest
  end.

(** The keys of the registry with the role stored under each. *)
Definition roles (l : list (string * BeeInfo.t)) : list (string * AgentRole) :=
  map (fun kv => (fst kv, BeeInfo.role (snd kv))) l.

(** What routing a message changes in a hive: the attributes of the
    registered workers. *)
Definition hive_frame (h h' : Hive) : Prop :=
  QueenBee.self (queen h') = QueenBee.self (queen h)
  /\ QueenBee.workflows_completed (queen h')
     = QueenBee.workflows_completed (queen h)
  /\ QueenBee.workflows_failed (queen h') = QueenBee.workflows_failed (queen h)
  /\ hive_clock h' = hive_clock h
  /\ hive_ticks h' = hive_ticks h
  /\ uuid4 h' = uuid4 h
  /\ uuid_count h' = uuid_count h
  /\ roles (worker_bees h') = roles (worker_bees h).

(** What a workflow can change in a hive besides: it also reads the
    clock and draws identifiers. *)
Definition queen_frame (h h' : Hive) : Prop :=
  QueenBee.workflows_completed (queen h')
  = QueenBee.workflows_completed (queen h)
  /\ QueenBee.workflows_failed (queen h') = QueenBee.workflows_failed (queen h)
  /\ hive_clock h' = hive_clock h
  /\ roles (worker_bees h') = roles (worker_bees h).

(** Every final state of [m] is related to its initial state. *)
Definition preserves {S A} (R : S -> S -> Prop) (m : M S A) : Prop :=
  forall s o s', m s = (o, s') -> R s s'.

(** The attributes of the worker registered as [bee_id]. *)
Definition worker (bee_id : string) (h : Hive) : option HiveAgent.t :=
  match dict_get bee_id (worker_bees h) with
  | Some info => Some (bee_self (BeeInfo.bee info))
  | None => None
  end.

(** The first half of [receive_message]: the message is counted, the
    worker thinks and its handler runs. *)
Definition handled (bee_id : string) (message : HiveMessage.t)
    : M Hive (option HiveMessage.t) :=
  update_bee bee_id (fun a =>
    HiveAgent.set_messages_received (HiveAgent.messages_received a + 1) a) ;;;
  update_bee bee_id (HiveAgent.set_state THINKING) ;;;
  on_bee bee_id None (fun cls => process_message cls message).


(** Every registration but that of [bee_id] is in [h'] as it is in [h]. *)
Definition others_kept (bee_id : string) (h h' : Hive) : Prop :=
  forall k, k <> bee_id ->
    dict_get k (worker_bees h') = dict_get k (worker_bees h).

(** The worker after a [receive_message] whose handler left it as [a2]
    with the response [response]. *)
Definition after_receive (response : option HiveMessage.t) (a2 : HiveAgent.t)
    : HiveAgent.t :=
  HiveAgent.set_state IDLE
    match response with
    | Some _ => HiveAgent.set_messages_sent (HiveAgent.messages_sent a2 + 1) a2
    | None => a2
    end.

(** The last [n] items of [l], or all of them. *)
Definition last_n {A} (n : nat) (l : list A) : list A :=
  skipn (List.length l - n) l.

(** A deque holds no more items than its bound allows. *)
Definition within_bound {A} (d : deque A) : Prop :=
  0 <= deque_maxlen d /\ Z.of_nat (List.length (deque_items d)) <= deque_maxlen d.

(** What was said in a conversation: the role and the content of each
    turn it holds. *)
Definition said (c : ConversationMemory.t) : list (json * json) :=
  map (fun turn => (ConversationTurn.role turn, ConversationTurn.content turn))
    (deque_items (ConversationMemory.turns c)).

(** Every conversation of the engine is within its bound. *)
Definition sessions_within_bound (s : Enhanced) : Prop :=
  forall k c, dict_get k (conversations s) = Some c ->
    within_bound (ConversationMemory.turns c).

(** Every session but [session_id] is in [s'] as it is in [s]. *)
Definition other_sessions_kept (session_id : string) (s s' : Enhanced) : Prop :=
  forall k, k <> session_id ->
    dict_get k (conversations s') = dict_get k (conversations s).

Section StatementNotions.
Context {rt : PyRuntime}.

(** The conversation [ConversationMemory()] builds at the time [now]. *)
Definition fresh_conversation (now : datetime) : ConversationMemory.t :=
  ConversationMemory.mk 10 4000 (mkDeque 10 [])
    (JString ("conv_" ++ strftime_YmdHMS now)) (JObject []).

(** The engine once [chat] has looked up the session, creating it when it
    was not there. *)
Definition session_opened (session_id : string) (s : Enhanced) : Enhanced :=
  match dict_get session_id (conversations s) with
  | Some _ => s
  | None =>
      mkEnhanced (base_world s)
        (dict_set session_id (fresh_conversation (utc_clock s (utc_ticks s)))
           (conversations s))
        (utc_clock s) (S (utc_ticks s)) (db_updates s)
  end.

(** The conversation [chat] works on. *)
Definition session_conversation (session_id : string) (s : Enhanced)
    : ConversationMemory.t :=
  match dict_get session_id (conversations s) with
  | Some c => c
  | None => fresh_conversation (utc_clock s (utc_ticks s))
  end.

(** A conversation after an exchange was added to it at the readings [t]
    and [t + 1] of the clock. *)
Definition with_exchange (prompt reply : string) (clock : nat -> datetime)
    (t : nat) (c : ConversationMemory.t) : ConversationMemory.t :=
  add_turn (JString "assistant") (JString reply) None (clock (S t))
    (add_turn (JString "user") (JString prompt) None (clock t) c).

(** The engine once [chat] recorded the exchange in the session. *)
Definition exchange_recorded (session_id prompt reply : string)
    (save_to_db : bool) (w : World) (c0 : ConversationMemory.t)
    (s1 : Enhanced) : Enhanced :=
  let c1 :=
    add_turn (JString "user") (JString prompt) None
      (utc_clock s1 (utc_ticks s1)) c0 in
  let c2 :=
    add_turn (JString "assistant") (JString reply) None
      (utc_clock s1 (S (utc_ticks s1))) c1 in
  let l := dict_set session_id c2 (dict_set session_id c1 (conversations s1)) in
  if save_to_db
  then mkEnhanced w l (utc_clock s1) (3 + utc_ticks s1)
         (db_updates s1
          ++ [mkUpdateOne session_id (to_dict c2)
                (utc_clock s1 (2 + utc_ticks s1))])
  else mkEnhanced w l (utc_clock s1) (2 + utc_ticks s1) (db_updates s1).

(** A sequence of [add_turn] calls, each with the role, the content and
    the reading of the clock. *)
Definition add_turns (entries : list (json * json * datetime))
    (c : ConversationMemory.t) : ConversationMemory.t :=
  fold_left
    (fun c e => add_turn (fst (fst e)) (snd (fst e)) None (snd e) c)
    entries c.

Definition after_reset (w : World) : ResourceTracker :=
  reset_at (clock w (ticks w)) (tracker w).

Definition tick (n : nat) (tr : ResourceTracker) (w : World) : World :=
  mkWorld (clock w) (n + ticks w) tr (events w).

(** The text of the three rejections. *)
Definition rate_message (w : World) (first : datetime) : string :=
  "Rate limit reached. Wait "
  ++ str_int (60 - td_seconds (datetime_sub (clock w (S (ticks w))) first))
  ++ "s".

Definition token_message (tr : ResourceTracker) : string :=
  "Token limit reached (" ++ str_int (max_tokens_per_hour tr) ++ "/hour)".

Definition cost_message (tr : ResourceTracker) : string :=
  "Cost limit reached ($" ++ str_float (max_cost_per_hour tr) ++ "/hour)".

(** The cost of [estimated_tokens] can be estimated: their thousands are
    a finite float. *)
Definition cost_estimable (estimated_tokens : Z) : bool :=
  negb (quotient_overflows estimated_tokens 1000).

Definition over_cost (estimated_tokens : Z) (tr : ResourceTracker) : bool :=
  float_gt
    (PrimFloat.add (hour_cost tr)
       (PrimFloat.mul (rounded_quotient estimated_tokens 1000) 0.03%float))
    (max_cost_per_hour tr).

(** The cost of a usage at GPT-4o-mini pricing and at Claude Sonnet
    pricing, when the thousands of its token counts are finite floats. *)
Definition openai_cost (u : OpenAI.Usage) : float :=
  PrimFloat.add
    (PrimFloat.mul (rounded_quotient (OpenAI.prompt_tokens u) 1000)
       0.00015%float)
    (PrimFloat.mul (rounded_quotient (OpenAI.completion_tokens u) 1000)
       0.0006%float).

Definition anthropic_cost (u : Anthropic.Usage) : float :=
  PrimFloat.add
    (PrimFloat.mul (rounded_quotient (Anthropic.input_tokens u) 1000)
       0.003%float)
    (PrimFloat.mul (rounded_quotient (Anthropic.output_tokens u) 1000)
       0.015%float).

Definition openai_priced (u : OpenAI.Usage) : bool :=
  negb (quotient_overflows (OpenAI.prompt_tokens u) 1000)
  && negb (quotient_overflows (OpenAI.completion_tokens u) 1000).

Definition anthropic_priced (u : Anthropic.Usage) : bool :=
  negb (quotient_overflows (Anthropic.input_tokens u) 1000)
  && negb (quotient_overflows (Anthropic.output_tokens u) 1000).

(** A caller of the tracker: one request with its estimate and the usage
    recorded for it. *)
Record Request : Type := mkRequest {
  estimate : Z;
  used_tokens : Z;
  used_cost : float
}.

(** A sequence of bare [check_limits] calls. *)
Fixpoint admit_all (estimates : list Z) : M World (list (bool * string)) :=
  match estimates with
  | [] => ret []
  | e :: rest =>
      r <- check_limits e ;;
      rs <- admit_all rest ;;
      ret (r :: rs)
  end.

(** A sequence of [check_limits] calls, each admitted one followed by its
    [record_usage] before the next call. *)
Fixpoint admit_and_record (requests : list Request)
    : M World (list (bool * string)) :=
  match requests with
  | [] => ret []
  | q :: rest =>
      r <- check_limits (estimate q) ;;
      (if fst r then record_usage (used_tokens q) (used_cost q) else ret tt) ;;;
      rs <- admit_and_record rest ;;
      ret (r :: rs)
  end.

(** The number of calls that returned [allowed = True]. *)
Fixpoint admitted (results : list (bool * string)) : nat :=
  match results with
  | [] => 0%nat
  | r :: rest => ((if fst r then 1 else 0) + admitted rest)%nat
  end.

(** The next [n] readings of the clock do not go back and lie less than
    sixty seconds apart. *)
Definition within_one_minute (w : World) (n : nat) : Prop :=
  forall i j : nat,
    (ticks w <= i)%nat -> (i <= j)%nat -> (j < ticks w + n)%nat ->
    0 <= clock w j - clock w i < 60000000.

(** The timestamps [l], read from the clock since reading number [t0],
    are on the minute list of the tracker. *)
Definition recorded_since (t0 : nat) (w : World) (l : list datetime) : Prop :=
  sublist l (minute_requests (tracker w)) /\
  Forall (fun t => exists i : nat, (t0 <= i < ticks w)%nat /\ t = clock w i) l.

(** The world after a request was sent to a provider. *)
Definition emitted (e : Event) (w : World) : World :=
  mkWorld (clock w) (ticks w) (tracker w) (events w ++ [e]).

(** The world after [record_usage tokens cost]. *)
Definition recorded (tokens : Z) (cost : float) (w : World) : World :=
  snd (record_usage tokens cost w).

(** From the words of the specification, the two shapes of a response:
    "success=true, content populated" (and no error), "success=false, error
    populated" (and empty content); a text is populated when it is not
    empty. *)
Definition populated (s : string) : bool := negb (String.eqb s "").

Definition claimed_success_shape (r : AIResponse.t) : bool :=
  AIResponse.success r
  && populated (AIResponse.content r)
  && match AIResponse.error r with None => true | Some _ => false end.

Definition claimed_failure_shape (r : AIResponse.t) : bool :=
  negb (AIResponse.success r)
  && match AIResponse.error r with None => false | Some e => populated e end
  && String.eqb (AIResponse.content r) "".

(** The two shapes of the responses [generate] builds: the content of a
    success is whatever the provider gave, the error of a failure is set. *)
Definition success_shape (r : AIResponse.t) : bool :=
  AIResponse.success r
  && match AIResponse.error r with None => true | Some _ => false end.

Definition failure_shape (r : AIResponse.t) : bool :=
  negb (AIResponse.success r)
  && match AIResponse.error r with None => false | Some _ => true end
  && String.eqb (AIResponse.content r) "".

(** The text the selected provider gives for a request: the content of
    its first choice or block. *)
Definition provider_text (self : AIEngine.t) (prompt : string)
    (system_prompt : option string) (max_tokens : Z) : option string :=
  match AIEngine.provider self with
  | OPENAI =>
      match AIEngine.openai_client self with
      | Some client =>
          match client (openai_request self prompt system_prompt max_tokens) with
          | Ret response => nth_error (OpenAI.choices response) 0
          | Raise _ => None
          end
      | None => None
      end
  | ANTHROPIC =>
      match AIEngine.anthropic_client self with
      | Some client =>
          match client (anthropic_request self prompt system_prompt max_tokens) with
          | Ret response => nth_error (Anthropic.content response) 0
          | Raise _ => None
          end
      | None => None
      end
  end.

(** The client of the provider the engine was built for. *)
Definition selected_client_is_none (self : AIEngine.t) : Prop :=
  match AIEngine.provider self with
  | OPENAI => AIEngine.openai_client self = None
  | ANTHROPIC => AIEngine.anthropic_client self = None
  end.

(** What [generate_json] does with the reply [raw] once the decoder ran:
    the decoded value, the failure value for a JSONDecodeError, and any
    other exception of the decoder as it is. *)
Definition decoded_or_failure (raw : string) : Outcome json :=
  match json_loads (strip (cleaned raw)) with
  | Ret v => Ret v
  | Raise e =>
      if ExnClass_eqb (exn_class e) JSONDecodeError
      then Ret (JObject [("error", JString ("Invalid JSON: " ++ exn_str e));
                         ("raw", JString raw)])
      else Raise e
  end.

(** The hive once [execute_workflow] has read the clock twice. *)
Definition workflow_started (h : Hive) : Hive :=
  mkHive (queen h) (hive_clock h) (2 + hive_ticks h) (uuid4 h) (uuid_count h).

Definition workflow_id_of (h : Hive) : string :=
  "workflow_" ++ strftime_YmdHMS (hive_clock h (hive_ticks h)).

(** The hive once a workflow that ended in [h3] was counted, after
    [ticks] further readings of the clock. *)
Definition workflow_counted (succeeded : bool) (ticks : nat) (h3 : Hive) : Hive :=
  mkHive
    (if succeeded
     then QueenBee.mk (QueenBee.self (queen h3)) (worker_bees h3)
            (QueenBee.workflows_completed (queen h3) + 1)
            (QueenBee.workflows_failed (queen h3))
     else QueenBee.mk (QueenBee.self (queen h3)) (worker_bees h3)
            (QueenBee.workflows_completed (queen h3))
            (QueenBee.workflows_failed (queen h3) + 1))
    (hive_clock h3) (ticks + hive_ticks h3) (uuid4 h3) (uuid_count h3).

(** The time stamped on a workflow that started in [h] and ended in
    [h3]. *)
Definition elapsed (h h3 : Hive) : float :=
  td_total_seconds
    (datetime_sub (hive_clock h3 (hive_ticks h3)) (hive_clock h (S (hive_ticks h)))).

(** The result of a workflow that failed with [error], stamped. *)
Definition failed_result (error : string) (h h3 : Hive)
    : list (string * json) :=
  [("success", JBool false); ("error", JString error);
   ("workflow_id", JString (workflow_id_of h));
   ("execution_time", JFloat (elapsed h h3))].

(** The first step of the campaign workflow: the task is built and routed
    to the worker [shopper_bee_id]. *)
Definition shopper_step (depth : nat) (shopper_bee_id : string)
    (data : list (string * json)) : M Hive unit :=
  h <- get ;;
  shopper_message <-
    HiveMessage_new (HiveAgent.agent_id (QueenBee.self (queen h)))
      shopper_bee_id
      (JObject [("type", JString "analyze_user");
                ("user_id", get_or "user_id" JNull data)])
      TASK ;;
  route_message depth shopper_message.

(** The second step of the campaign workflow: the task is built and
    routed to the worker [ad_bee_id]. *)
Definition ad_step (depth : nat) (ad_bee_id : string)
    (data : list (string * json)) : M Hive unit :=
  h <- get ;;
  ad_message <-
    HiveMessage_new (HiveAgent.agent_id (QueenBee.self (queen h)))
      ad_bee_id
      (JObject
         [("type", JString "create_campaign");
          ("shopper_analysis",
           JObject
             [("ai_segment", JObject [("segment", JString "tech_enthusiast")]);
              ("ai_interests",
               JArray [JString "Electronics"; JString "Gadgets";
                       JString "Tech"]);
              ("recommended_products", get_or "products" (JArray []) data)])])
      TASK ;;
  route_message depth ad_message.

(** The result of a campaign that succeeded with the workers
    [shopper_bee_id] and [ad_bee_id], stamped. *)
Definition campaign_result (shopper_bee_id ad_bee_id : string) (h h5 : Hive)
    : list (string * json) :=
  [("success", JBool true);
   ("message", JString "Complete workflow executed");
   ("bees_involved", JArray [JString shopper_bee_id; JString ad_bee_id]);
   ("workflow_id", JString (workflow_id_of h));
   ("execution_time", JFloat (elapsed h h5))].

(** A use of the tracker: a [check_limits] or a [record_usage] call. *)
Inductive TrackerOp : Type :=
| CheckOp (estimated_tokens : Z)
| RecordOp (tokens : Z) (cost : float).

(** A sequence of calls on one tracker, in order. *)
Fixpoint run_ops (ops : list TrackerOp) : M World unit :=
  match ops with
  | [] => ret tt
  | CheckOp e :: rest => check_limits e ;;; run_ops rest
  | RecordOp t c :: rest => record_usage t c ;;; run_ops rest
  end.

(** The usage the [record_usage] calls of a sequence were given. *)
Fixpoint recorded_count (ops : list TrackerOp) : Z :=
  match ops with
  | [] => 0
  | CheckOp _ :: rest => recorded_count rest
  | RecordOp _ _ :: rest => 1 + recorded_count rest
  end.

Fixpoint recorded_tokens (ops : list TrackerOp) : Z :=
  match ops with
  | [] => 0
  | CheckOp _ :: rest => recorded_tokens rest
  | RecordOp t _ :: rest => t + recorded_tokens rest
  end.

Fixpoint recorded_costs (ops : list TrackerOp) : list float :=
  match ops with
  | [] => []
  | CheckOp _ :: rest => recorded_costs rest
  | RecordOp _ c :: rest => c :: recorded_costs rest
  end.

(** The next [n] readings of the clock fall in the hour that starts at
    [anchor]. *)
Definition within_the_hour (w : World) (anchor : datetime) (n : nat) : Prop :=
  forall i : nat,
    (ticks w <= i < ticks w + n)%nat ->
    0 <= clock w i - anchor < 3600000000.

End StatementNotions.

(* ================================================================== *)
(** * Properties of the budget tracker *)
(* ================================================================== *)

Section TrackerFacts.
Context {rt : PyRuntime}.

(** A number of seconds to wait has few digits. *)
Lemma wait_time_printable (td : timedelta) :
  printable (60 - td_seconds td) = true.
Proof.
  unfold printable, td_seconds, int_max_str_digits. apply Z.ltb_lt.
  pose proof (Z.mod_pos_bound (td / 1000000) 86400 ltac:(lia)) as Hs.
  apply Z.lt_le_trans with (10 ^ 5); [change (10 ^ 5) with 100000; lia|].
  apply Z.pow_le_mono_r; lia.
Qed.

(** [check_limits] as one case analysis: the window is advanced at the
    first reading of the clock, then the three checks run in order. The
    call raises when the minute list is empty and yet at its ceiling, when
    the token ceiling it would print has too many digits, and when the
    thousands of the estimate are no finite float. *)
Lemma check_limits_cases (estimated_tokens : Z) (w : World) :
  check_limits estimated_tokens w =
  let tr := after_reset w in
  if Z.of_nat (List.length (minute_requests tr)) >=? max_requests_per_minute tr
  then match minute_requests tr with
       | first :: _ => (Ret (false, rate_message w first), tick 2 tr w)
       | [] => (Raise (mkExn IndexError "list index out of range"), tick 2 tr w)
       end
  else if hour_tokens tr + estimated_tokens >? max_tokens_per_hour tr
  then if printable (max_tokens_per_hour tr)
       then (Ret (false, token_message tr), tick 1 tr w)
       else (Raise str_limit_error, tick 1 tr w)
  else if cost_estimable estimated_tokens
  then if over_cost estimated_tokens tr
       then (Ret (false, cost_message tr), tick 1 tr w)
       else (Ret (true, "OK"), tick 1 tr w)
  else (Raise overflow_error, tick 1 tr w).
Proof.
  unfold check_limits, _reset_if_needed, bind, datetime_now, get_tracker,
    set_tracker, after_reset, tick; cbn [fst snd clock ticks tracker events].
  set (tr := reset_at _ _).
  destruct (Z.of_nat (List.length (minute_requests tr)) >=? max_requests_per_minute tr).
  - unfold getitem. destruct (minute_requests tr) as [|first others];
      [reflexivity|].
    cbn [nth_error]. unfold ret, str_int_call, rate_message.
    rewrite wait_time_printable. reflexivity.
  - destruct (hour_tokens tr + estimated_tokens >? max_tokens_per_hour tr).
    + unfold str_int_call, token_message.
      destruct (printable (max_tokens_per_hour tr)); reflexivity.
    + unfold int_truediv, cost_estimable, over_cost.
      change (1000 =? 0) with false. cbv iota.
      destruct (quotient_overflows estimated_tokens 1000); cbn [negb];
        [reflexivity|].
      unfold ret. destruct (float_gt _ _); reflexivity.
Qed.

(** Within a day, [seconds] is the age in whole seconds. *)
Lemma td_seconds_within_a_day (td : timedelta) :
  0 <= td < 86400000000 -> td_seconds td = td / 1000000.
Proof.
  intros H. unfold td_seconds.
  apply Z.mod_small. split.
  - apply Z.div_pos; lia.
  - apply Z.div_lt_upper_bound; lia.
Qed.

Lemma td_seconds_recent (now t : datetime) :
  0 <= now - t < 60000000 ->
  (td_seconds (datetime_sub now t) <? 60) = true.
Proof.
  intros H. unfold datetime_sub.
  rewrite td_seconds_within_a_day by lia.
  apply Z.ltb_lt. apply Z.div_lt_upper_bound; lia.
Qed.

(** Between one hour and one day after the anchor the hour window is
    reset and anchored anew. *)
Lemma reset_at_after_an_hour (now : datetime) (tr : ResourceTracker) :
  3600000000 <= now - hour_start tr < 86400000000 ->
  hour_tokens (reset_at now tr) = 0
  /\ hour_cost (reset_at now tr) = 0%float
  /\ hour_start (reset_at now tr) = now.
Proof.
  intros H. unfold reset_at. cbn [hour_start set_minute_requests].
  unfold datetime_sub. rewrite td_seconds_within_a_day by lia.
  assert (Hge : ((now - hour_start tr) / 1000000 >=? 3600) = true).
  { apply Z.geb_le. apply Z.div_le_lower_bound; lia. }
  rewrite Hge. repeat split.
Qed.

(** [record_usage] appends the reading of the clock to the minute list and
    adds its increments to the hour accumulators and to the lifetime
    totals; the integer totals do not decrease when the tokens recorded are
    not negative. *)
Lemma record_usage_adds (tokens : Z) (cost : float) (w : World) :
  let tr := tracker w in
  let tr' := tracker (snd (record_usage tokens cost w)) in
  fst (record_usage tokens cost w) = Ret tt
  /\ minute_requests tr' = (minute_requests tr ++ [clock w (ticks w)])%list
  /\ hour_tokens tr' = hour_tokens tr + tokens
  /\ hour_cost tr' = PrimFloat.add (hour_cost tr) cost
  /\ total_requests tr' = total_requests tr + 1
  /\ total_tokens tr' = total_tokens tr + tokens
  /\ total_cost tr' = PrimFloat.add (total_cost tr) cost
  /\ (0 <= tokens ->
      total_requests tr <= total_requests tr'
      /\ total_tokens tr <= total_tokens tr').
Proof.
  cbv zeta. unfold record_usage, bind, datetime_now, get_tracker, set_tracker.
  cbn. repeat split; lia.
Qed.

(** C2, the code at the failing input: one day and five seconds after the
    only recorded request and after the hour anchor, [check_limits] still
    counts that request in the minute window and rejects with the rate
    limit; the tracker is left as it was, hour accumulators included. *)
Lemma check_limits_counts_day_old_request :
  let w := world_at (seconds 86405) busy_tracker in
  check_limits 100 w
  = (Ret (false, "Rate limit reached. Wait 55s"), tick 2 busy_tracker w).
Proof.
  cbv zeta. rewrite check_limits_cases. vm_compute. reflexivity.
Qed.

(** C4, the code at the failing input: a [check_limits] call one day and
    ten seconds after the hour anchor resets nothing; the 99000 tokens of
    the old window are still counted and the request is rejected. *)
Lemma hour_reset_skipped_after_a_day :
  let w := world_at (seconds 86410) stale_tracker in
  check_limits 2000 w
  = (Ret (false, "Token limit reached (100000/hour)"), tick 1 stale_tracker w)
  /\ hour_tokens (tracker (snd (check_limits 2000 w))) = 99000
  /\ hour_start (tracker (snd (check_limits 2000 w))) = 0.
Proof.
  cbv zeta. rewrite check_limits_cases. vm_compute. repeat split.
Qed.

(** ** A minute of admitted and recorded requests *)

Lemma sublist_of_nil {A} (m : list A) : sublist [] m.
Proof. induction m; constructor; assumption. Qed.

Lemma sublist_length {A} (l m : list A) :
  sublist l m -> (List.length l <= List.length m)%nat.
Proof. induction 1; simpl; lia. Qed.

Lemma sublist_filter {A} (p : A -> bool) (l m : list A) :
  sublist l m -> Forall (fun x => p x = true) l -> sublist l (filter p m).
Proof.
  induction 1 as [|x l m H IH|x l m H IH]; intros Hall; simpl.
  - constructor.
  - destruct (p x); [apply sublist_skip|]; auto.
  - inversion Hall as [|? ? Hx Hl]; subst. rewrite Hx. apply sublist_keep. auto.
Qed.

Lemma sublist_app_one {A} (x : A) (l m : list A) :
  sublist l m -> sublist (l ++ [x]) (m ++ [x]).
Proof.
  induction 1; simpl.
  - apply sublist_keep, sublist_nil.
  - apply sublist_skip; assumption.
  - apply sublist_keep; assumption.
Qed.

Lemma reset_at_minute_requests (now : datetime) (tr : ResourceTracker) :
  minute_requests (reset_at now tr)
  = filter (fun t => td_seconds (datetime_sub now t) <? 60) (minute_requests tr).
Proof.
  unfold reset_at.
  destruct (td_seconds _ >=? 3600); reflexivity.
Qed.

Lemma reset_at_max_requests (now : datetime) (tr : ResourceTracker) :
  max_requests_per_minute (reset_at now tr) = max_requests_per_minute tr.
Proof.
  unfold reset_at.
  destruct (td_seconds _ >=? 3600); reflexivity.
Qed.

Lemma record_usage_cases (tokens : Z) (cost : float) (w : World) :
  record_usage tokens cost w =
  (Ret tt,
   tick 1
     (mkResourceTracker
        (max_tokens_per_request (tracker w))
        (max_requests_per_minute (tracker w))
        (max_cost_per_hour (tracker w)) (max_tokens_per_hour (tracker w))
        (minute_requests (tracker w) ++ [clock w (ticks w)])
        (hour_tokens (tracker w) + tokens)
        (PrimFloat.add (hour_cost (tracker w)) cost)
        (hour_start (tracker w))
        (total_requests (tracker w) + 1)
        (total_tokens (tracker w) + tokens)
        (PrimFloat.add (total_cost (tracker w)) cost)) w).
Proof. reflexivity. Qed.

Lemma recorded_since_survives_reset (t0 : nat) (w : World) (l : list datetime)
    (n : nat) :
  (0 < n)%nat ->
  (forall i j : nat, (t0 <= i)%nat -> (i <= j)%nat -> (j < ticks w + n)%nat ->
     0 <= clock w j - clock w i < 60000000) ->
  recorded_since t0 w l ->
  sublist l (minute_requests (after_reset w)).
Proof.
  intros Hn Hwin [Hsub Hall].
  unfold after_reset. rewrite reset_at_minute_requests.
  apply sublist_filter; [assumption|].
  apply Forall_forall. intros t Ht.
  rewrite Forall_forall in Hall. destruct (Hall t Ht) as (i & Hi & ->).
  apply td_seconds_recent. apply Hwin; lia.
Qed.

Lemma admit_and_record_rejected (q : Request) (rest : list Request)
    (w w1 : World) (msg : string) :
  check_limits (estimate q) w = (Ret (false, msg), w1) ->
  admit_and_record (q :: rest) w =
  match admit_and_record rest w1 with
  | (Ret rs, w') => (Ret ((false, msg) :: rs), w')
  | (Raise e, w') => (Raise e, w')
  end.
Proof.
  intros H. cbn [admit_and_record]. unfold bind at 1. rewrite H.
  cbn [fst]. unfold bind, ret.
  destruct (admit_and_record rest w1) as [[rs|e] w']; reflexivity.
Qed.

Lemma admit_and_record_admitted (q : Request) (rest : list Request)
    (w w1 : World) (msg : string) :
  check_limits (estimate q) w = (Ret (true, msg), w1) ->
  admit_and_record (q :: rest) w =
  match admit_and_record rest
          (snd (record_usage (used_tokens q) (used_cost q) w1)) with
  | (Ret rs, w') => (Ret ((true, msg) :: rs), w')
  | (Raise e, w') => (Raise e, w')
  end.
Proof.
  intros H. cbn [admit_and_record]. unfold bind at 1. rewrite H.
  cbn [fst]. unfold bind at 1. rewrite record_usage_cases. cbn [snd].
  unfold bind, ret.
  destruct (admit_and_record rest _) as [[rs|e] w']; reflexivity.
Qed.

Lemma admit_and_record_raised (q : Request) (rest : list Request)
    (w w1 : World) (e : exn) :
  check_limits (estimate q) w = (Raise e, w1) ->
  admit_and_record (q :: rest) w = (Raise e, w1).
Proof.
  intros H. cbn [admit_and_record]. unfold bind at 1. rewrite H. reflexivity.
Qed.

(** What a run of admitted-and-recorded requests that came to its end has
    kept: the timestamps [l] recorded since reading [t0], and those of the
    calls it admitted, are still on the minute list. *)
Lemma admit_and_record_invariant (requests : list Request) :
  forall (w : World) (t0 : nat) (l : list datetime)
         (rs : list (bool * string)) (w' : World),
    0 < max_requests_per_minute (tracker w) ->
    (t0 <= ticks w)%nat ->
    (forall i j : nat, (t0 <= i)%nat -> (i <= j)%nat ->
       (j < ticks w + 3 * List.length requests)%nat ->
       0 <= clock w j - clock w i < 60000000) ->
    recorded_since t0 w l ->
    Z.of_nat (List.length l) <= max_requests_per_minute (tracker w) ->
    admit_and_record requests w = (Ret rs, w') ->
    Z.of_nat (List.length l + admitted rs)
    <= max_requests_per_minute (tracker w)
    /\ (forall (k : nat) (r : bool * string),
          nth_error rs k = Some r ->
          max_requests_per_minute (tracker w)
          <= Z.of_nat (List.length l + admitted (firstn k rs)) ->
          fst r = false /\ prefix "Rate limit reached." (snd r) = true)
    /\ clock w' = clock w
    /\ (ticks w <= ticks w' <= ticks w + 3 * List.length requests)%nat
    /\ max_requests_per_minute (tracker w')
       = max_requests_per_minute (tracker w)
    /\ exists l' : list datetime,
         recorded_since t0 w' l'
         /\ List.length l' = (List.length l + admitted rs)%nat.
Proof.
  induction requests as [|q rest IH];
    intros w t0 l rs w' Hmax Ht0 Hwin Hrec Hlen Hrun.
  - cbn in Hrun. injection Hrun as <- <-. simpl.
    split; [lia|]. split; [intros k r Hk; destruct k; discriminate|].
    split; [reflexivity|]. split; [lia|]. split; [reflexivity|].
    exists l. split; [assumption|lia].
  - assert (Hsub : sublist l (minute_requests (after_reset w))).
    { apply (recorded_since_survives_reset t0 w l (3 * List.length (q :: rest)));
        simpl; try lia; assumption. }
    pose proof (sublist_length _ _ Hsub) as Hle.
    assert (Hmax' : max_requests_per_minute (after_reset w)
                    = max_requests_per_minute (tracker w))
      by apply reset_at_max_requests.
    destruct Hrec as [_ Hall].
    assert (Hall' : forall n tr,
              Forall (fun t => exists i : nat,
                        (t0 <= i < ticks (tick (S n) tr w))%nat
                        /\ t = clock (tick (S n) tr w) i) l).
    { intros n tr. eapply Forall_impl; [|exact Hall].
      intros t (i & Hi & ->). exists i. cbn. split; [lia|reflexivity]. }
    pose proof (check_limits_cases (estimate q) w) as Hcheck.
    cbv zeta in Hcheck.
    (* a rejected call leaves the recorded timestamps where they are *)
    assert (Hrejected : forall msg n,
      (n < 2)%nat ->
      check_limits (estimate q) w
      = (Ret (false, msg), tick (S n) (after_reset w) w) ->
      (Z.of_nat (List.length l) < max_requests_per_minute (tracker w)
       \/ prefix "Rate limit reached." msg = true) ->
      Z.of_nat (List.length l + admitted rs)
      <= max_requests_per_minute (tracker w)
      /\ (forall (k : nat) (r : bool * string),
            nth_error rs k = Some r ->
            max_requests_per_minute (tracker w)
            <= Z.of_nat (List.length l + admitted (firstn k rs)) ->
            fst r = false /\ prefix "Rate limit reached." (snd r) = true)
      /\ clock w' = clock w
      /\ (ticks w <= ticks w' <= ticks w + 3 * List.length (q :: rest))%nat
      /\ max_requests_per_minute (tracker w')
         = max_requests_per_minute (tracker w)
      /\ exists l' : list datetime,
           recorded_since t0 w' l'
           /\ List.length l' = (List.length l + admitted rs)%nat).
    { intros msg n Hn Hc Hmsg.
      rewrite (admit_and_record_rejected _ _ _ _ _ Hc) in Hrun.
      destruct (admit_and_record rest (tick (S n) (after_reset w) w))
        as [[rs1|e] w1] eqn:Hrest; [|discriminate].
      injection Hrun as <- <-.
      destruct (IH (tick (S n) (after_reset w) w) t0 l rs1 w1)
        as (Hcount & Hbeyond & Hclock & Hticks & Hceil & l' & Hrec' & Hlen').
      - cbn. lia.
      - cbn. lia.
      - cbn. intros i j Hi Hij Hj. apply Hwin; simpl; lia.
      - split; [exact Hsub | apply Hall'].
      - cbn. lia.
      - exact Hrest.
      - cbn [tracker tick clock ticks] in Hcount, Hbeyond, Hclock, Hticks, Hceil.
        rewrite Hmax' in Hcount, Hbeyond, Hceil.
        split; [simpl; lia|].
        split.
        { intros [|k] r Hk Hge; simpl in Hk.
          + injection Hk as <-. simpl in Hge. cbn [fst snd].
            destruct Hmsg as [Hlt|Hp]; [lia|split; [reflexivity|exact Hp]].
          + apply (Hbeyond k r Hk). simpl in Hge. lia. }
        split; [exact Hclock|]. split; [simpl; lia|]. split; [exact Hceil|].
        exists l'. split; [exact Hrec'|simpl; lia]. }
    destruct (Z.of_nat (List.length (minute_requests (after_reset w)))
              >=? max_requests_per_minute (after_reset w)) eqn:Hrate.
    + (* the minute window is full *)
      destruct (minute_requests (after_reset w)) as [|first others] eqn:Hmin.
      { simpl in Hrate. apply Z.geb_le in Hrate. lia. }
      apply (Hrejected (rate_message w first) 1%nat);
        [lia | exact Hcheck | right; reflexivity].
    + (* room in the minute window *)
      rewrite Z.geb_leb in Hrate. apply Z.leb_gt in Hrate.
      destruct (hour_tokens (after_reset w) + estimate q
                >? max_tokens_per_hour (after_reset w)).
      { destruct (printable (max_tokens_per_hour (after_reset w))).
        - apply (Hrejected (token_message (after_reset w)) 0%nat);
            [lia | exact Hcheck | left; lia].
        - rewrite (admit_and_record_raised _ _ _ _ _ Hcheck) in Hrun.
          discriminate. }
      destruct (cost_estimable (estimate q)).
      2:{ rewrite (admit_and_record_raised _ _ _ _ _ Hcheck) in Hrun.
          discriminate. }
      destruct (over_cost (estimate q) (after_reset w)).
      { apply (Hrejected (cost_message (after_reset w)) 0%nat);
          [lia | exact Hcheck | left; lia]. }
      rewrite (admit_and_record_admitted _ _ _ _ _ Hcheck) in Hrun.
      rewrite record_usage_cases in Hrun. cbn [snd] in Hrun.
      match type of Hrun with
      | context [admit_and_record rest ?w2] =>
          destruct (admit_and_record rest w2) as [[rs1|e] w1] eqn:Hrest;
            [|discriminate];
          destruct (IH w2 t0 (l ++ [clock w (S (ticks w))])%list rs1 w1)
            as (Hcount & Hbeyond & Hclock & Hticks & Hceil & l' & Hrec' & Hlen')
      end.
      * cbn. lia.
      * cbn. lia.
      * cbn. intros i j Hi Hij Hj. apply Hwin; simpl; lia.
      * split; cbn.
        -- apply sublist_app_one. exact Hsub.
        -- apply Forall_app. split.
           ++ eapply Forall_impl; [|exact Hall].
              intros t (i & Hi & ->). exists i. split; [lia|reflexivity].
           ++ constructor; [|constructor].
              exists (S (ticks w)). split; [lia|reflexivity].
      * cbn. rewrite length_app. simpl. lia.
      * exact Hrest.
      * injection Hrun as <- <-.
        cbn in Hcount, Hbeyond, Hclock, Hticks, Hceil.
        rewrite length_app in Hcount, Hbeyond, Hlen'.
        simpl in Hcount, Hbeyond, Hlen'. rewrite Hmax' in Hcount, Hbeyond, Hceil.
        split; [simpl; lia|].
        split.
        { intros [|k] r Hk Hge; simpl in Hk.
          -- simpl in Hge. lia.
          -- apply (Hbeyond k r Hk). simpl in Hge. simpl. lia. }
        split; [exact Hclock|]. split; [simpl; lia|]. split; [exact Hceil|].
        exists l'. split; [exact Hrec'|simpl; lia].
Qed.

(** C3, as amended: take a sequence of [check_limits] calls against a
    tracker whose ceiling is positive, where every admitted call is
    followed by its [record_usage] before the next call, and whose clock
    readings never step back and all lie less than a minute apart. When
    the sequence runs to its end, at most [max_requests_per_minute] calls
    were admitted and every call made once that many were admitted was
    rejected with the rate-limit reason. And a call made once that many
    were admitted does return: allowed is false, the reason is the
    rate-limit one, and nothing is recorded. *)
Theorem recorded_admits_respect_ceiling (requests : list Request) (w : World) :
  0 < max_requests_per_minute (tracker w) ->
  within_one_minute w (3 * List.length requests) ->
  (forall (rs : list (bool * string)) (w' : World),
     admit_and_record requests w = (Ret rs, w') ->
     Z.of_nat (admitted rs) <= max_requests_per_minute (tracker w)
     /\ forall (k : nat) (r : bool * string),
          nth_error rs k = Some r ->
          max_requests_per_minute (tracker w)
          <= Z.of_nat (admitted (firstn k rs)) ->
          fst r = false /\ prefix "Rate limit reached." (snd r) = true)
  /\ (forall (k : nat) (q : Request) (rs : list (bool * string)) (wk : World),
        nth_error requests k = Some q ->
        admit_and_record (firstn k requests) w = (Ret rs, wk) ->
        max_requests_per_minute (tracker w) <= Z.of_nat (admitted rs) ->
        exists first : datetime,
          check_limits (estimate q) wk
          = (Ret (false, rate_message wk first), tick 2 (after_reset wk) wk)
          /\ prefix "Rate limit reached." (rate_message wk first) = true).
Proof.
  intros Hmax Hwin. split.
  - intros rs w' Hrun.
    destruct (admit_and_record_invariant requests w (ticks w) [] rs w')
      as (Hcount & Hbeyond & _); try assumption.
    + lia.
    + split; [apply sublist_of_nil | constructor].
    + simpl. lia.
    + split; [exact Hcount | exact Hbeyond].
  - intros k q rs wk Hq Hrun Hfull.
    assert (Hk : (k < List.length requests)%nat)
      by (apply nth_error_Some; congruence).
    assert (Hlenk : List.length (firstn k requests) = k)
      by (rewrite length_firstn; lia).
    destruct (admit_and_record_invariant (firstn k requests) w (ticks w) []
                rs wk)
      as (_ & _ & Hclock & Hticks & Hceil & l' & Hrec & Hlen');
      try assumption.
    + lia.
    + rewrite Hlenk. intros i j Hi Hij Hj. apply Hwin; lia.
    + split; [apply sublist_of_nil | constructor].
    + simpl. lia.
    + rewrite Hlenk in Hticks. simpl in Hlen'.
      assert (Hsub : sublist l' (minute_requests (after_reset wk))).
      { apply (recorded_since_survives_reset (ticks w) wk l' 1);
          [lia| |exact Hrec].
        intros i j Hi Hij Hj. rewrite Hclock. apply Hwin; lia. }
      pose proof (sublist_length _ _ Hsub) as Hle.
      pose proof (check_limits_cases (estimate q) wk) as Hcheck.
      cbv zeta in Hcheck.
      assert (Hmax' : max_requests_per_minute (after_reset wk)
                      = max_requests_per_minute (tracker w)).
      { unfold after_reset. rewrite reset_at_max_requests. exact Hceil. }
      assert (Hrate : (Z.of_nat (List.length (minute_requests (after_reset wk)))
                       >=? max_requests_per_minute (after_reset wk)) = true).
      { apply Z.geb_le. lia. }
      rewrite Hrate in Hcheck.
      destruct (minute_requests (after_reset wk)) as [|first others].
      { simpl in Hle. lia. }
      exists first. split; [exact Hcheck|reflexivity].
Qed.

End TrackerFacts.

(** C3, the claim as stated fails: two bare [check_limits] calls at the
    same instant against a fresh tracker that allows one request per
    minute are both admitted. So are two calls that are each recorded,
    twenty seconds apart, when the clock steps back between them: the
    timestamp recorded for the first is pruned as if it were a day old. *)
Lemma two_bare_admits_exceed_ceiling :
  exists w',
    admit_all (rt := small_runtime) [100; 100]
      (world_at 0 one_per_minute_tracker)
    = (Ret [(true, "OK"); (true, "OK")], w')
    /\ within_one_minute (world_at 0 one_per_minute_tracker) 6
    /\ max_requests_per_minute (tracker w') = 1
    /\ Z.of_nat (admitted [(true, "OK"); (true, "OK")])
       > max_requests_per_minute (tracker w')
    /\ fst (admit_and_record (rt := small_runtime)
              [mkRequest 100 80 0.01%float; mkRequest 100 80 0.01%float]
              (stepping_back_world one_per_minute_tracker))
       = Ret [(true, "OK"); (true, "OK")]
    /\ (forall i j : nat,
          Z.abs (clock (stepping_back_world one_per_minute_tracker) j
                 - clock (stepping_back_world one_per_minute_tracker) i)
          < 60000000).
Proof.
  eexists. split; [vm_compute; reflexivity|].
  split; [intros i j _ _ _; cbn; lia|].
  split; [reflexivity|]. split; [reflexivity|].
  split; [vm_compute; reflexivity|].
  intros i j. unfold stepping_back_world, clock, seconds.
  destruct (i <? 2)%nat, (j <? 2)%nat; lia.
Qed.

(** Two requests against a ceiling of one: the first is admitted and
    recorded, the second is rejected with the rate-limit reason. *)
Lemma recorded_admits_respect_ceiling_witness :
  let requests := [mkRequest 100 80 0.01%float; mkRequest 100 80 0.01%float] in
  let w := world_at 0 one_per_minute_tracker in
  let rs := [(true, "OK"); (false, "Rate limit reached. Wait 60s")] in
  let w1 :=
    snd (admit_and_record (rt := small_runtime) (firstn 1 requests) w) in
  fst (admit_and_record (rt := small_runtime) requests w) = Ret rs
  /\ Z.of_nat (admitted rs) <= max_requests_per_minute (tracker w)
  /\ exists first : datetime,
       check_limits (rt := small_runtime) 100 w1
       = (Ret (false, rate_message w1 first), tick 2 (after_reset w1) w1).
Proof.
  cbv zeta.
  pose (requests := [mkRequest 100 80 0.01%float; mkRequest 100 80 0.01%float]).
  pose (w := world_at 0 one_per_minute_tracker).
  destruct (recorded_admits_respect_ceiling (rt := small_runtime) requests w)
    as [Hcount Hbeyond].
  - reflexivity.
  - intros i j _ _ _. cbn. lia.
  - split; [vm_compute; reflexivity|]. split.
    + apply (Hcount [(true, "OK"); (false, "Rate limit reached. Wait 60s")]
               (snd (admit_and_record (rt := small_runtime) requests w))).
      vm_compute. reflexivity.
    + destruct (Hbeyond 1%nat (mkRequest 100 80 0.01%float) [(true, "OK")]
                  (snd (admit_and_record (rt := small_runtime)
                          (firstn 1 requests) w)))
        as (first & Hcheck & _).
      * reflexivity.
      * vm_compute. reflexivity.
      * vm_compute. discriminate.
      * exists first. exact Hcheck.
Defined.

(* ================================================================== *)
(** * Properties of the request engine *)
(* ================================================================== *)

Section EngineFacts.
Context {rt : PyRuntime}.

Lemma generate_cases (self : AIEngine.t) (prompt : string)
    (system_prompt : option string) (max_tokens : option Z) (w : World) :
  generate self prompt system_prompt max_tokens w =
  match check_limits (requested_tokens max_tokens (tracker w)) w with
  | (Raise e, w1) => (Raise e, w1)
  | (Ret (false, message), w1) =>
      (Ret (failure_response self ("Resource limit: " ++ message)), w1)
  | (Ret (true, _), w1) =>
      match provider_generate self prompt system_prompt
              (requested_tokens max_tokens (tracker w)) w1 with
      | (Ret r, w2) => (Ret r, w2)
      | (Raise e, w2) => (Ret (failure_response self (exn_str e)), w2)
      end
  end.
Proof.
  unfold generate, bind, get_tracker. cbn [fst snd].
  destruct (check_limits _ w) as [[[[|] message]|e] w1]; reflexivity.
Qed.

(** Division by a thousand: the rounded quotient, unless it overflows. *)
Lemma int_truediv_thousand {S} (n : Z) (s : S) :
  int_truediv n 1000 s =
  if quotient_overflows n 1000 then (Raise overflow_error, s)
  else (Ret (rounded_quotient n 1000), s).
Proof.
  unfold int_truediv. change (1000 =? 0) with false. cbv iota.
  destruct (quotient_overflows n 1000); reflexivity.
Qed.

(** [_openai_generate] as one case analysis: the request is sent; the
    cost of the reply is computed, which raises when it is no float; the
    usage is recorded; the first choice is read. *)
Lemma openai_generate_cases (self : AIEngine.t) (prompt : string)
    (system_prompt : option string) (max_tokens : Z) (w : World) :
  _openai_generate self prompt system_prompt max_tokens w =
  match AIEngine.openai_client self with
  | None => (Raise (mkExn Exception "OpenAI client not initialized"), w)
  | Some client =>
      let request := openai_request self prompt system_prompt max_tokens in
      let w1 := emitted (OpenAICall request) w in
      match client request with
      | Raise e => (Raise e, w1)
      | Ret response =>
          let tokens := OpenAI.total_tokens (OpenAI.usage response) in
          let cost := openai_cost (OpenAI.usage response) in
          if openai_priced (OpenAI.usage response)
          then
            match nth_error (OpenAI.choices response) 0 with
            | Some content =>
                (Ret (AIResponse.mk content (AIEngine.model self) tokens cost
                        "openai" true None), recorded tokens cost w1)
            | None =>
                (Raise (mkExn IndexError "list index out of range"),
                 recorded tokens cost w1)
            end
          else (Raise overflow_error, w1)
      end
  end.
Proof.
  unfold _openai_generate.
  destruct (AIEngine.openai_client self) as [client|]; [|reflexivity].
  cbv zeta. unfold bind at 1. unfold emit at 1. fold (emitted (OpenAICall
    (openai_request self prompt system_prompt max_tokens)) w).
  unfold bind at 1, lift_outcome.
  destruct (client _) as [response|e]; [|reflexivity].
  unfold openai_priced, openai_cost.
  unfold bind at 1. rewrite int_truediv_thousand.
  destruct (quotient_overflows (OpenAI.prompt_tokens _) 1000); [reflexivity|].
  unfold bind at 1. rewrite int_truediv_thousand.
  destruct (quotient_overflows (OpenAI.completion_tokens _) 1000);
    [reflexivity|].
  cbn [negb andb]. unfold bind at 1. rewrite record_usage_cases.
  unfold recorded. rewrite record_usage_cases. cbn [snd].
  unfold bind, getitem.
  destruct (nth_error _ 0); reflexivity.
Qed.

Lemma anthropic_generate_cases (self : AIEngine.t) (prompt : string)
    (system_prompt : option string) (max_tokens : Z) (w : World) :
  _anthropic_generate self prompt system_prompt max_tokens w =
  match AIEngine.anthropic_client self with
  | None => (Raise (mkExn Exception "Anthropic client not initialized"), w)
  | Some client =>
      let request := anthropic_request self prompt system_prompt max_tokens in
      let w1 := emitted (AnthropicCall request) w in
      match client request with
      | Raise e => (Raise e, w1)
      | Ret response =>
          let tokens := anthropic_tokens (Anthropic.usage response) in
          let cost := anthropic_cost (Anthropic.usage response) in
          if anthropic_priced (Anthropic.usage response)
          then
            match nth_error (Anthropic.content response) 0 with
            | Some content =>
                (Ret (AIResponse.mk content (AIEngine.model self) tokens cost
                        "anthropic" true None), recorded tokens cost w1)
            | None =>
                (Raise (mkExn IndexError "list index out of range"),
                 recorded tokens cost w1)
            end
          else (Raise overflow_error, w1)
      end
  end.
Proof.
  unfold _anthropic_generate.
  destruct (AIEngine.anthropic_client self) as [client|]; [|reflexivity].
  cbv zeta. unfold bind at 1. unfold emit at 1. fold (emitted (AnthropicCall
    (anthropic_request self prompt system_prompt max_tokens)) w).
  unfold bind at 1, lift_outcome.
  destruct (client _) as [response|e]; [|reflexivity].
  unfold anthropic_priced, anthropic_cost.
  unfold bind at 1. rewrite int_truediv_thousand.
  destruct (quotient_overflows (Anthropic.input_tokens _) 1000); [reflexivity|].
  unfold bind at 1. rewrite int_truediv_thousand.
  destruct (quotient_overflows (Anthropic.output_tokens _) 1000);
    [reflexivity|].
  cbn [negb andb]. unfold bind at 1. rewrite record_usage_cases.
  unfold recorded. rewrite record_usage_cases. cbn [snd].
  unfold bind, getitem.
  destruct (nth_error _ 0); reflexivity.
Qed.

(** A rejected [check_limits] only advanced the windows and read the
    clock. *)
Lemma check_limits_rejection_state (estimated_tokens : Z) (w w1 : World)
    (allowed : bool) (message : string) :
  check_limits estimated_tokens w = (Ret (allowed, message), w1) ->
  tracker w1 = after_reset w /\ events w1 = events w /\ clock w1 = clock w.
Proof.
  rewrite check_limits_cases. cbv zeta.
  destruct (_ >=? _).
  - destruct (minute_requests (after_reset w)); [discriminate|].
    intros [= _ _ <-]. repeat split.
  - destruct (_ >? _).
    + destruct (printable _); [|discriminate].
      intros [= _ _ <-]. repeat split.
    + destruct (cost_estimable _); [|discriminate].
      destruct (over_cost _ _); intros [= _ _ <-]; repeat split.
Qed.

Lemma reset_at_totals (now : datetime) (tr : ResourceTracker) :
  total_requests (reset_at now tr) = total_requests tr
  /\ total_tokens (reset_at now tr) = total_tokens tr
  /\ total_cost (reset_at now tr) = total_cost tr.
Proof.
  unfold reset_at. destruct (td_seconds _ >=? 3600); repeat split.
Qed.

(** C1, as amended: when [check_limits] rejects, [generate] returns the
    failure response whose error is the rejection reason behind
    "Resource limit: ", sends nothing to a provider and leaves the tracker
    as the window advancement left it, lifetime totals untouched; when it
    admits and the provider answers with a usage whose cost is a float,
    [generate] returns in the world where [record_usage] ran, after the
    request was sent, with the tokens and the cost of that reply: it
    returns the successful response that carries the first completion and
    these same numbers, or, for a reply without completion, the failure
    response of the IndexError. *)
Theorem generate_admits_before_and_records_after (self : AIEngine.t)
    (prompt : string) (system_prompt : option string) (max_tokens : option Z)
    (w : World) :
  let est := requested_tokens max_tokens (tracker w) in
  (forall (reason : string) (w1 : World),
     check_limits est w = (Ret (false, reason), w1) ->
     generate self prompt system_prompt max_tokens w
     = (Ret (AIResponse.mk "" (AIEngine.model self) 0 0%float
               (AIProvider_value (AIEngine.provider self)) false
               (Some ("Resource limit: " ++ reason))), w1)
     /\ events w1 = events w
     /\ tracker w1 = after_reset w
     /\ total_requests (tracker w1) = total_requests (tracker w)
     /\ total_tokens (tracker w1) = total_tokens (tracker w)
     /\ total_cost (tracker w1) = total_cost (tracker w))
  /\ (forall (message : string) (w1 : World) (client : OpenAI.Client)
         (response : OpenAI.Response),
       check_limits est w = (Ret (true, message), w1) ->
       AIEngine.provider self = OPENAI ->
       AIEngine.openai_client self = Some client ->
       client (openai_request self prompt system_prompt est) = Ret response ->
       openai_priced (OpenAI.usage response) = true ->
       let tokens := OpenAI.total_tokens (OpenAI.usage response) in
       let cost := openai_cost (OpenAI.usage response) in
       generate self prompt system_prompt max_tokens w
       = (Ret match nth_error (OpenAI.choices response) 0 with
              | Some content =>
                  AIResponse.mk content (AIEngine.model self) tokens cost
                    "openai" true None
              | None =>
                  AIResponse.mk "" (AIEngine.model self) 0 0%float "openai"
                    false (Some "list index out of range")
              end,
          recorded tokens cost
            (emitted (OpenAICall
                        (openai_request self prompt system_prompt est)) w1)))
  /\ (forall (message : string) (w1 : World) (client : Anthropic.Client)
         (response : Anthropic.Response),
       check_limits est w = (Ret (true, message), w1) ->
       AIEngine.provider self = ANTHROPIC ->
       AIEngine.anthropic_client self = Some client ->
       client (anthropic_request self prompt system_prompt est) = Ret response ->
       anthropic_priced (Anthropic.usage response) = true ->
       let tokens := anthropic_tokens (Anthropic.usage response) in
       let cost := anthropic_cost (Anthropic.usage response) in
       generate self prompt system_prompt max_tokens w
       = (Ret match nth_error (Anthropic.content response) 0 with
              | Some content =>
                  AIResponse.mk content (AIEngine.model self) tokens cost
                    "anthropic" true None
              | None =>
                  AIResponse.mk "" (AIEngine.model self) 0 0%float "anthropic"
                    false (Some "list index out of range")
              end,
          recorded tokens cost
            (emitted (AnthropicCall
                        (anthropic_request self prompt system_prompt est)) w1))).
Proof.
  cbv zeta. split; [|split].
  - intros reason w1 Hcheck. rewrite generate_cases, Hcheck.
    destruct (check_limits_rejection_state _ _ _ _ _ Hcheck) as (Htr & Hev & _).
    split; [reflexivity|]. split; [exact Hev|]. split; [exact Htr|].
    rewrite Htr. apply reset_at_totals.
  - intros message w1 client response Hcheck Hprov Hclient Hreply Hpriced.
    rewrite generate_cases, Hcheck. unfold provider_generate. rewrite Hprov.
    rewrite openai_generate_cases, Hclient. cbv zeta.
    rewrite Hreply, Hpriced.
    destruct (nth_error (OpenAI.choices response) 0) as [content|];
      [reflexivity|].
    unfold failure_response. rewrite Hprov. reflexivity.
  - intros message w1 client response Hcheck Hprov Hclient Hreply Hpriced.
    rewrite generate_cases, Hcheck. unfold provider_generate. rewrite Hprov.
    rewrite anthropic_generate_cases, Hclient. cbv zeta.
    rewrite Hreply, Hpriced.
    destruct (nth_error (Anthropic.content response) 0) as [content|];
      [reflexivity|].
    unfold failure_response. rewrite Hprov. reflexivity.
Qed.

Lemma provider_generate_returns (self : AIEngine.t) (prompt : string)
    (system_prompt : option string) (max_tokens : Z) (w w' : World)
    (r : AIResponse.t) :
  provider_generate self prompt system_prompt max_tokens w = (Ret r, w') ->
  AIResponse.success r = true
  /\ AIResponse.error r = None
  /\ provider_text self prompt system_prompt max_tokens
     = Some (AIResponse.content r).
Proof.
  unfold provider_generate, provider_text.
  destruct (AIEngine.provider self).
  - rewrite openai_generate_cases.
    destruct (AIEngine.openai_client self) as [client|]; [|discriminate].
    cbv zeta. destruct (client _) as [response|e]; [|discriminate].
    destruct (openai_priced _); [|discriminate].
    destruct (nth_error _ 0) as [content|]; [|discriminate].
    intros [= <- _]. repeat split.
  - rewrite anthropic_generate_cases.
    destruct (AIEngine.anthropic_client self) as [client|]; [|discriminate].
    cbv zeta. destruct (client _) as [response|e]; [|discriminate].
    destruct (anthropic_priced _); [|discriminate].
    destruct (nth_error _ 0) as [content|]; [|discriminate].
    intros [= <- _]. repeat split.
Qed.

(** C5, as amended: a response [generate] returns has exactly one of the
    two shapes: [success] set, no error and, as content, the text the
    provider gave, which may be empty; or [success] unset, an error set and
    the empty content. *)
Theorem generate_response_has_one_shape (self : AIEngine.t) (prompt : string)
    (system_prompt : option string) (max_tokens : option Z)
    (w w' : World) (r : AIResponse.t) :
  generate self prompt system_prompt max_tokens w = (Ret r, w') ->
  xorb (success_shape r) (failure_shape r) = true
  /\ (success_shape r = true ->
      provider_text self prompt system_prompt
        (requested_tokens max_tokens (tracker w))
      = Some (AIResponse.content r))
  /\ (failure_shape r = true ->
      AIResponse.content r = "" /\ AIResponse.error r <> None).
Proof.
  rewrite generate_cases.
  destruct (check_limits _ w) as [[[[|] message]|e] w1]; [| |discriminate].
  - destruct (provider_generate _ _ _ _ w1) as [[r'|e] w2] eqn:Hgen.
    + intros [= <- _].
      destruct (provider_generate_returns _ _ _ _ _ _ _ Hgen) as (Hs & He & Ht).
      unfold success_shape, failure_shape. rewrite Hs, He.
      split; [reflexivity|]. split; [intros _; exact Ht|discriminate].
    + intros [= <- _]. split; [reflexivity|].
      split; [discriminate|]. intros _. split; [reflexivity|discriminate].
  - intros [= <- _]. split; [reflexivity|].
    split; [discriminate|]. intros _. split; [reflexivity|discriminate].
Qed.

Lemma reset_at_max_tokens (now : datetime) (tr : ResourceTracker) :
  max_tokens_per_hour (reset_at now tr) = max_tokens_per_hour tr.
Proof.
  unfold reset_at.
  destruct (td_seconds _ >=? 3600); reflexivity.
Qed.

(** [check_limits] does not raise when the ceiling of requests is
    positive, the ceiling of tokens has few enough digits to be printed
    and the estimate is small enough for its cost to be a float. *)
Lemma check_limits_returns (estimated_tokens : Z) (w : World) :
  0 < max_requests_per_minute (tracker w) ->
  printable (max_tokens_per_hour (tracker w)) = true ->
  cost_estimable estimated_tokens = true ->
  exists allowed message w1,
    check_limits estimated_tokens w = (Ret (allowed, message), w1).
Proof.
  intros Hmax Hprint Hcost. rewrite check_limits_cases. cbv zeta.
  destruct (_ >=? _) eqn:Hrate.
  - destruct (minute_requests (after_reset w)) eqn:Hmin.
    + unfold after_reset in Hrate. rewrite reset_at_max_requests in Hrate.
      simpl in Hrate. apply Z.geb_le in Hrate. lia.
    + eauto.
  - unfold after_reset at 2 3. rewrite reset_at_max_tokens.
    rewrite Hprint, Hcost.
    destruct (_ >? _); [eauto|]. destruct (over_cost _ _); eauto.
Qed.

(** An engine whose client is missing answers with a failure response
    and sends nothing, provided [check_limits] does not raise: the
    ceiling of requests per minute is positive, the ceiling of tokens can
    be printed and the cost of the tokens asked for is a float. *)
Lemma generate_unconfigured_fails (self : AIEngine.t) (prompt : string)
    (system_prompt : option string) (max_tokens : option Z) (w : World) :
  selected_client_is_none self ->
  0 < max_requests_per_minute (tracker w) ->
  printable (max_tokens_per_hour (tracker w)) = true ->
  cost_estimable (requested_tokens max_tokens (tracker w)) = true ->
  exists r w',
    generate self prompt system_prompt max_tokens w = (Ret r, w')
    /\ AIResponse.success r = false
    /\ events w' = events w
    /\ (AIResponse.error r = Some "OpenAI client not initialized"
        \/ AIResponse.error r = Some "Anthropic client not initialized"
        \/ exists reason,
             AIResponse.error r = Some ("Resource limit: " ++ reason)).
Proof.
  intros Hnone Hmax Hprint Hcost. rewrite generate_cases.
  destruct (check_limits_returns (requested_tokens max_tokens (tracker w)) w
              Hmax Hprint Hcost)
    as (allowed & message & w1 & Hcheck).
  rewrite Hcheck.
  destruct (check_limits_rejection_state _ _ _ _ _ Hcheck) as (_ & Hev & _).
  destruct allowed.
  - unfold provider_generate, selected_client_is_none in *.
    destruct (AIEngine.provider self).
    + rewrite openai_generate_cases, Hnone.
      eexists _, _. split; [reflexivity|]. split; [reflexivity|].
      split; [exact Hev|]. left. reflexivity.
    + rewrite anthropic_generate_cases, Hnone.
      eexists _, _. split; [reflexivity|]. split; [reflexivity|].
      split; [exact Hev|]. right. left. reflexivity.
  - eexists _, _. split; [reflexivity|]. split; [reflexivity|].
    split; [exact Hev|]. right. right. exists message. reflexivity.
Qed.

(** An engine built without the key of its provider has no client for
    it. *)
Lemma init_without_key (env : Environ) (provider : option AIProvider)
    (model : option string) (w w' : World) (self : AIEngine.t) :
  OPENAI_API_KEY env = None -> ANTHROPIC_API_KEY env = None ->
  AIEngine_init env provider model w = (Ret self, w') ->
  selected_client_is_none self.
Proof.
  intros Hopenai Hanthropic. unfold AIEngine_init.
  rewrite Hopenai, Hanthropic. cbn [truthy]. rewrite !andb_false_r.
  unfold bind, ResourceTracker_init, bind, datetime_now, set_tracker, ret.
  intros [= <- _]. unfold selected_client_is_none. cbn.
  destruct provider as [[|]|]; [reflexivity|reflexivity|].
  destruct (String.eqb _ "openai"); reflexivity.
Qed.

(** C7, the code at the failing input: an engine built in an environment
    without API key and with [MAX_REQUESTS_PER_MINUTE=0] has no client, and
    its first [generate] raises [IndexError] instead of returning a
    response. *)
Lemma generate_raises_with_zero_ceiling :
  AIEngine_init keyless_environ None None (world_at 0 default_tracker)
  = (Ret unconfigured_engine, tick 1 closed_tracker (world_at 0 closed_tracker))
  /\ selected_client_is_none unconfigured_engine
  /\ fst (generate unconfigured_engine "hello" None None
            (tick 1 closed_tracker (world_at 0 closed_tracker)))
     = Raise (mkExn IndexError "list index out of range").
Proof.
  split; [vm_compute; reflexivity|]. split; [reflexivity|].
  rewrite generate_cases, check_limits_cases. vm_compute. reflexivity.
Qed.

End EngineFacts.

(* ================================================================== *)
(** * Properties of the structured-output mode *)
(* ================================================================== *)

Section StringFacts.

Lemma split_go_not_nil (sep s : string) (skip : nat) : split_go sep s skip <> [].
Proof.
  revert skip. induction s as [|c s IH]; intros skip; cbn [split_go].
  - discriminate.
  - destruct skip as [|k]; [|apply IH].
    destruct (prefix sep (String c s)); [discriminate|].
    destruct (split_go sep s 0); discriminate.
Qed.

(** The first piece of a split is the text before the first separator. *)
Lemma split_head (sep s : string) :
  exists rest, split sep s = before_first sep s :: rest.
Proof.
  unfold split. induction s as [|c s [rest IH]].
  - simpl. destruct sep; eexists; reflexivity.
  - cbn [split_go before_first].
    destruct (prefix sep (String c s)); [eexists; reflexivity|].
    rewrite IH. eexists; reflexivity.
Qed.

(** [sep in s] guarantees a second piece. *)
Lemma contains_split (sep s : string) :
  sep <> EmptyString -> contains sep s = true ->
  exists a b rest, split sep s = a :: b :: rest.
Proof.
  intros Hsep. unfold split. induction s as [|c s IH]; intros Hin.
  - simpl in Hin. destruct sep; [contradiction|discriminate].
  - cbn [contains] in Hin. cbn [split_go].
    destruct (prefix sep (String c s)) eqn:Hp.
    + destruct (split_go sep s (String.length sep - 1)) as [|b rest] eqn:Hs.
      * exfalso. exact (split_go_not_nil _ _ _ Hs).
      * eauto.
    + simpl in Hin. destruct (IH Hin) as (a & b & rest & ->). eauto.
Qed.

Lemma prefix_append (sep s : string) : prefix sep (sep ++ s) = true.
Proof.
  induction sep as [|c sep IH].
  - destruct s; reflexivity.
  - change (String c sep ++ s) with (String c (sep ++ s)). cbn [prefix].
    destruct (ascii_dec c c); [exact IH|contradiction].
Qed.

Lemma before_first_at_separator (sep s : string) :
  before_first sep (sep ++ s) = EmptyString.
Proof.
  destruct sep as [|c sep].
  - simpl. destruct s; reflexivity.
  - change (String c sep ++ s) with (String c (sep ++ s)).
    cbn [before_first].
    change (String c (sep ++ s)) with (String c sep ++ s).
    rewrite prefix_append. reflexivity.
Qed.

Lemma prefix_length (sep s : string) :
  prefix sep s = true -> (String.length sep <= String.length s)%nat.
Proof.
  revert sep. induction s as [|c s IH]; intros [|d sep] H; simpl; try lia.
  - discriminate.
  - cbn [prefix] in H. destruct (ascii_dec d c); [|discriminate].
    apply IH in H. lia.
Qed.

Lemma substring_all (s : string) : substring 0 (String.length s) s = s.
Proof. induction s as [|c s IH]; simpl; [|rewrite IH]; reflexivity. Qed.

(** Passing over [k] characters is dropping them. *)
Lemma split_go_drop (sep s : string) (k : nat) :
  (k <= String.length s)%nat ->
  split_go sep s k = split sep (substring k (String.length s - k) s).
Proof.
  unfold split. revert k. induction s as [|c s IH]; intros [|k] Hk.
  - reflexivity.
  - simpl in Hk. lia.
  - rewrite Nat.sub_0_r, substring_all. reflexivity.
  - simpl in Hk. cbn [split_go]. rewrite IH by lia. reflexivity.
Qed.

(** The pieces of a split: the text before the first separator, then the
    pieces of the text after it. *)
Lemma split_at_partition (sep s pre after : string) :
  sep <> EmptyString ->
  partition_first sep s = Some (pre, after) ->
  split sep s = pre :: split sep after.
Proof.
  intros Hsep. revert pre after.
  induction s as [|c s IH]; intros pre after Hpart.
  - simpl in Hpart. destruct sep; [contradiction|discriminate].
  - cbn [partition_first] in Hpart. unfold split. cbn [split_go].
    destruct (prefix sep (String c s)) eqn:Hp.
    + injection Hpart as <- <-.
      pose proof (prefix_length _ _ Hp) as Hlen.
      destruct sep as [|d sep]; [contradiction|].
      simpl in Hlen.
      rewrite split_go_drop by (simpl; lia).
      simpl. rewrite Nat.sub_0_r. reflexivity.
    + destruct (partition_first sep s) as [[a b]|]; [|discriminate].
      injection Hpart as <- <-.
      fold (split sep s). rewrite (IH a b eq_refl). reflexivity.
Qed.

Lemma contains_of_partition (sep s pre after : string) :
  partition_first sep s = Some (pre, after) -> contains sep s = true.
Proof.
  revert pre after. induction s as [|c s IH]; intros pre after H.
  - simpl in *. destruct sep; [reflexivity|discriminate].
  - cbn [partition_first] in H. cbn [contains].
    destruct (prefix sep (String c s)); [reflexivity|].
    destruct (partition_first sep s) as [[a b]|]; [|discriminate].
    simpl. exact (IH a b eq_refl).
Qed.

Lemma prefix_cons_same (c : ascii) (a b : string) :
  prefix (String c a) (String c b) = prefix a b.
Proof. cbn [prefix]. destruct (ascii_dec c c); [reflexivity|contradiction]. Qed.

Lemma before_first_cons (sep s : string) (c : ascii) :
  before_first sep (String c s)
  = if prefix sep (String c s) then EmptyString
    else String c (before_first sep s).
Proof. reflexivity. Qed.

Lemma nth_split_head (sep s : string) :
  nth 0 (split sep s) EmptyString = before_first sep s.
Proof. destruct (split_head sep s) as [rest ->]. reflexivity. Qed.

Lemma prefix_empty (s : string) : prefix "" s = true.
Proof. destruct s; reflexivity. Qed.

Lemma prefix_shorter (a b s : string) :
  prefix (a ++ b) s = true -> prefix a s = true.
Proof.
  revert s. induction a as [|c a IH]; intros s H; [apply prefix_empty|].
  destruct s as [|d s]; [discriminate|].
  change (String c a ++ b) with (String c (a ++ b)) in H.
  cbn [prefix] in *. destruct (ascii_dec c d); [|discriminate].
  exact (IH _ H).
Qed.

(** A text that starts with [sep] still does when it is extended. *)
Lemma prefix_extended (sep t u : string) :
  prefix sep t = true -> prefix sep (t ++ u) = true.
Proof.
  revert t. induction sep as [|c sep IH]; intros t H; [apply prefix_empty|].
  destruct t as [|d t]; [discriminate|].
  change (String d t ++ u) with (String d (t ++ u)).
  cbn [prefix] in *. destruct (ascii_dec c d); [|discriminate].
  exact (IH _ H).
Qed.

(** The text before the first separator starts the whole text. *)
Lemma before_first_starts (sep s : string) :
  exists u, s = before_first sep s ++ u.
Proof.
  induction s as [|c s [u IH]].
  - exists "". destruct sep; reflexivity.
  - cbn [before_first]. destruct (prefix sep (String c s)).
    + exists (String c s). reflexivity.
    + exists u. simpl. rewrite <- IH. reflexivity.
Qed.

Lemma prefix_before_first (sep sep' s : string) (c : ascii) :
  prefix sep (String c s) = false ->
  prefix sep (String c (before_first sep' s)) = false.
Proof.
  intros H. destruct (prefix sep (String c (before_first sep' s))) eqn:Hp;
    [|reflexivity].
  destruct (before_first_starts sep' s) as [u Hu].
  apply (prefix_extended _ _ u) in Hp.
  change (String c (before_first sep' s) ++ u)
    with (String c (before_first sep' s ++ u)) in Hp.
  rewrite <- Hu in Hp. congruence.
Qed.

(** The text before the first separator holds no separator. *)
Lemma before_first_twice (sep s : string) :
  before_first sep (before_first sep s) = before_first sep s.
Proof.
  induction s as [|c s IH].
  - destruct sep; reflexivity.
  - cbn [before_first]. destruct (prefix sep (String c s)) eqn:Hp.
    + destruct sep; reflexivity.
    + rewrite before_first_cons, (prefix_before_first _ _ _ _ Hp), IH.
      reflexivity.
Qed.

Lemma before_first_of_partition (sep s pre after : string) :
  partition_first sep s = Some (pre, after) -> before_first sep s = pre.
Proof.
  revert pre after. induction s as [|c s IH]; intros pre after H.
  - destruct sep; [|discriminate]. injection H as <- _. reflexivity.
  - cbn [partition_first] in H. cbn [before_first].
    destruct (prefix sep (String c s)); [injection H as <- _; reflexivity|].
    destruct (partition_first sep s) as [[a b]|]; [|discriminate].
    injection H as <- <-. rewrite (IH a b eq_refl). reflexivity.
Qed.

Lemma before_first_absent (sep s : string) :
  contains sep s = false -> before_first sep s = s.
Proof.
  induction s as [|c s IH]; cbn [contains before_first]; intros H;
    apply orb_false_iff in H as [Hp H]; rewrite Hp; [reflexivity|].
  rewrite (IH H). reflexivity.
Qed.

(** A text that starts with [sep] is [sep] followed by what
    [partition] gives as the text after it. *)
Lemma prefix_partition (sep s : string) :
  prefix sep s = true ->
  s = sep ++ substring (String.length sep) (String.length s - String.length sep) s.
Proof.
  revert s. induction sep as [|c sep IH]; intros s H.
  - simpl. rewrite Nat.sub_0_r, substring_all. reflexivity.
  - destruct s as [|d s]; [discriminate|].
    cbn [prefix] in H. destruct (ascii_dec c d) as [<-|]; [|discriminate].
    simpl. f_equal. exact (IH _ H).
Qed.

(** Scanning for the tagged fence from a closing fence: either the tag is
    there, or the scan passes the fence, unless the tagged fence starts
    one or two backticks further. *)
Lemma before_tag_at_closing_fence (rest : string) :
  prefix "`json" rest = false ->
  prefix "``json" rest = false ->
  before_first "```json" ("```" ++ rest)
  = if prefix "json" rest then EmptyString
    else "```" ++ before_first "```json" rest.
Proof.
  intros H1 H2.
  change ("```" ++ rest) with (String "`" (String "`" (String "`" rest))).
  rewrite before_first_cons, !prefix_cons_same.
  destruct (prefix "json" rest); [reflexivity|].
  change ("```" ++ before_first "```json" rest)
    with (String "`" (String "`" (String "`" (before_first "```json" rest)))).
  f_equal.
  rewrite before_first_cons, !prefix_cons_same, H1.
  f_equal.
  rewrite before_first_cons, !prefix_cons_same, H2.
  reflexivity.
Qed.

(** Cutting at the next tagged fence and then at the next fence is
    cutting at the next fence, unless that fence is the start of four or
    five backticks that the tag follows. *)
Lemma before_fence_before_tag (after body rest : string) :
  partition_first "```" after = Some (body, rest) ->
  prefix "`json" rest = false ->
  prefix "``json" rest = false ->
  before_first "```" (before_first "```json" after) = body.
Proof.
  revert body. induction after as [|c s IH]; intros body Hpart H1 H2.
  - discriminate.
  - cbn [partition_first] in Hpart.
    destruct (prefix "```" (String c s)) eqn:Hp.
    + injection Hpart as <- Hrest.
      assert (Hs : String c s = "```" ++ rest).
      { rewrite <- Hrest. exact (prefix_partition _ _ Hp). }
      rewrite Hs, (before_tag_at_closing_fence _ H1 H2).
      destruct (prefix "json" rest); [reflexivity|].
      apply before_first_at_separator.
    + destruct (partition_first "```" s) as [[a b]|] eqn:Hps; [|discriminate].
      injection Hpart as <- <-.
      assert (Htag : prefix "```json" (String c s) = false).
      { destruct (prefix "```json" (String c s)) eqn:Ht; [|reflexivity].
        rewrite (prefix_shorter "```" "json" _ Ht) in Hp. discriminate. }
      rewrite before_first_cons, Htag.
      rewrite before_first_cons, (prefix_before_first _ _ _ _ Hp).
      rewrite (IH a eq_refl H1 H2). reflexivity.
Qed.

(** The text [clean_content] cuts out of a reply that holds the fence
    [sep]. *)
Lemma fence_body_partition (sep content prose after : string) :
  sep <> EmptyString ->
  partition_first sep content = Some (prose, after) ->
  fence_body sep content = before_first "```" (before_first sep after).
Proof.
  intros Hsep Hpart. unfold fence_body.
  rewrite (split_at_partition sep _ _ _ Hsep Hpart).
  cbn [nth]. rewrite !nth_split_head. reflexivity.
Qed.

Lemma contains_shorter (a b s : string) :
  contains (a ++ b) s = true -> contains a s = true.
Proof.
  induction s as [|c s IH]; cbn [contains]; intros H.
  - apply orb_true_iff in H as [H|H]; [|discriminate].
    rewrite (prefix_shorter _ _ _ H). reflexivity.
  - apply orb_true_iff in H as [H|H].
    + rewrite (prefix_shorter _ _ _ H). reflexivity.
    + rewrite (IH H). apply orb_true_r.
Qed.

Lemma no_fence_no_tag (s : string) :
  contains "```" s = false -> contains "```json" s = false.
Proof.
  intros H. destruct (contains "```json" s) eqn:Htag; [|reflexivity].
  rewrite (contains_shorter "```" "json" s Htag) in H. discriminate.
Qed.

Lemma rstrip_cons (c : ascii) (s : string) :
  isspace c = false -> exists r, rstrip (String c s) = String c r.
Proof.
  intros Hc. cbn [rstrip]. rewrite Hc.
  destruct (rstrip s); eexists; reflexivity.
Qed.

Lemma lstrip_rstrip_lstrip (s : string) :
  lstrip (rstrip (lstrip s)) = rstrip (lstrip s).
Proof.
  induction s as [|c s IH]; [reflexivity|].
  cbn [lstrip]. destruct (isspace c) eqn:Hc; [exact IH|].
  destruct (rstrip_cons c s Hc) as [r ->].
  cbn [lstrip]. rewrite Hc. reflexivity.
Qed.

Lemma rstrip_rstrip (s : string) : rstrip (rstrip s) = rstrip s.
Proof.
  induction s as [|c s IH]; [reflexivity|].
  cbn [rstrip]. destruct (rstrip s) as [|d r] eqn:Hr.
  - destruct (isspace c) eqn:Hc; [reflexivity|].
    cbn [rstrip]. rewrite Hc. reflexivity.
  - cbn [rstrip]. cbn [rstrip] in IH. rewrite IH. reflexivity.
Qed.

(** Stripping twice is stripping once. *)
Lemma strip_strip (s : string) : strip (strip s) = strip s.
Proof.
  unfold strip. rewrite lstrip_rstrip_lstrip. apply rstrip_rstrip.
Qed.

End StringFacts.

Section JsonFacts.
Context {rt : PyRuntime}.

(** Cleaning a reply never raises: the pieces it indexes exist. *)
Lemma clean_content_returns (raw : string) (w : World) :
  clean_content raw w = (Ret (cleaned raw), w).
Proof.
  unfold clean_content, cleaned, fence_body.
  destruct (contains "```json" (strip raw)) eqn:Htag.
  - destruct (contains_split "```json" _ ltac:(discriminate) Htag)
      as (a & b & rest & ->).
    unfold bind, getitem. cbn [nth_error nth ret].
    destruct (split_head "```" b) as [rest' ->]. reflexivity.
  - destruct (contains "```" (strip raw)) eqn:Hfence; [|reflexivity].
    destruct (contains_split "```" _ ltac:(discriminate) Hfence)
      as (a & b & rest & ->).
    unfold bind, getitem. cbn [nth_error nth ret].
    destruct (split_head "```" b) as [rest' ->]. reflexivity.
Qed.

Lemma generate_json_cases (self : AIEngine.t) (prompt : string)
    (schema : json) (system_prompt : option string) (w : World) :
  generate_json self prompt schema system_prompt w =
  match generate self (json_prompt prompt schema) system_prompt None w with
  | (Raise e, w1) => (Raise e, w1)
  | (Ret r, w1) =>
      if negb (AIResponse.success r)
      then (Ret (JObject [("error", json_of_optional (AIResponse.error r))]), w1)
      else (decoded_or_failure (AIResponse.content r),
            emitted (JsonLoads (strip (cleaned (AIResponse.content r)))) w1)
  end.
Proof.
  unfold generate_json. unfold bind at 1.
  destruct (generate _ _ _ _ w) as [[r|e] w1]; [|reflexivity].
  destruct (negb (AIResponse.success r)); [reflexivity|].
  unfold try_except_class, bind. rewrite clean_content_returns.
  unfold json_loads_call, bind, emit, lift_outcome, decoded_or_failure, emitted.
  destruct (json_loads _) as [v|e]; [reflexivity|].
  destruct (ExnClass_eqb (exn_class e) JSONDecodeError); reflexivity.
Qed.

Lemma decoder_inputs_app (es es' : list Event) :
  decoder_inputs (es ++ es') = (decoder_inputs es ++ decoder_inputs es')%list.
Proof.
  induction es as [|[r|r|t] es IH]; simpl; [reflexivity| | |];
    rewrite IH; reflexivity.
Qed.

Lemma check_limits_events (estimated_tokens : Z) (w w1 : World)
    (o : Outcome (bool * string)) :
  check_limits estimated_tokens w = (o, w1) -> events w1 = events w.
Proof.
  rewrite check_limits_cases. cbv zeta.
  destruct (_ >=? _).
  - destruct (minute_requests (after_reset w)); intros [= _ <-]; reflexivity.
  - destruct (_ >? _).
    + destruct (printable _); intros [= _ <-]; reflexivity.
    + destruct (cost_estimable _); [|intros [= _ <-]; reflexivity].
      destruct (over_cost _ _); intros [= _ <-]; reflexivity.
Qed.

Lemma provider_generate_decodes_nothing (self : AIEngine.t) (prompt : string)
    (system_prompt : option string) (max_tokens : Z) (w w' : World)
    (o : Outcome AIResponse.t) :
  provider_generate self prompt system_prompt max_tokens w = (o, w') ->
  decoder_inputs (events w') = decoder_inputs (events w).
Proof.
  unfold provider_generate. destruct (AIEngine.provider self).
  - rewrite openai_generate_cases.
    destruct (AIEngine.openai_client self) as [client|];
      [|intros [= _ <-]; reflexivity].
    cbv zeta. destruct (client _) as [response|e].
    + destruct (openai_priced _);
        [destruct (nth_error _ 0)|]; intros [= _ <-]; cbn;
        rewrite decoder_inputs_app; simpl; apply app_nil_r.
    + intros [= _ <-]. cbn. rewrite decoder_inputs_app. simpl. apply app_nil_r.
  - rewrite anthropic_generate_cases.
    destruct (AIEngine.anthropic_client self) as [client|];
      [|intros [= _ <-]; reflexivity].
    cbv zeta. destruct (client _) as [response|e].
    + destruct (anthropic_priced _);
        [destruct (nth_error _ 0)|]; intros [= _ <-]; cbn;
        rewrite decoder_inputs_app; simpl; apply app_nil_r.
    + intros [= _ <-]. cbn. rewrite decoder_inputs_app. simpl. apply app_nil_r.
Qed.

Lemma generate_decodes_nothing (self : AIEngine.t) (prompt : string)
    (system_prompt : option string) (max_tokens : option Z) (w w' : World)
    (o : Outcome AIResponse.t) :
  generate self prompt system_prompt max_tokens w = (o, w') ->
  decoder_inputs (events w') = decoder_inputs (events w).
Proof.
  rewrite generate_cases.
  destruct (check_limits _ w) as [[[[|] message]|e] w1] eqn:Hcheck;
    pose proof (check_limits_events _ _ _ _ Hcheck) as Hev.
  - destruct (provider_generate _ _ _ _ w1) as [[r|e] w2] eqn:Hgen;
      pose proof (provider_generate_decodes_nothing _ _ _ _ _ _ _ Hgen) as Hd;
      intros [= _ <-]; rewrite Hd, Hev; reflexivity.
  - intros [= _ <-]. rewrite Hev. reflexivity.
  - intros [= _ <-]. rewrite Hev. reflexivity.
Qed.

Lemma failed_response_has_error (self : AIEngine.t) (prompt : string)
    (system_prompt : option string) (max_tokens : option Z) (w w' : World)
    (r : AIResponse.t) :
  generate self prompt system_prompt max_tokens w = (Ret r, w') ->
  AIResponse.success r = false ->
  exists reason, AIResponse.error r = Some reason.
Proof.
  rewrite generate_cases.
  destruct (check_limits _ w) as [[[[|] message]|e] w1]; [| |discriminate].
  - destruct (provider_generate _ _ _ _ w1) as [[r'|e] w2] eqn:Hgen.
    + intros [= <- _] Hs.
      destruct (provider_generate_returns _ _ _ _ _ _ _ Hgen) as (Hs' & _).
      congruence.
    + intros [= <- _] _. eexists; reflexivity.
  - intros [= <- _] _. eexists; reflexivity.
Qed.

(** C10: when the underlying [generate] returns a failure, [generate_json]
    returns the mapping whose only key is "error", bound to the error text
    of that failure, without "raw", and hands nothing to the JSON decoder;
    when [generate] succeeds and the reply does not decode, the mapping
    returned has the key "raw", bound to the reply. *)
Theorem generate_json_reports_engine_failure (self : AIEngine.t)
    (prompt : string) (schema : json) (system_prompt : option string)
    (w w1 : World) (r : AIResponse.t) :
  generate self (json_prompt prompt schema) system_prompt None w = (Ret r, w1) ->
  (AIResponse.success r = false ->
   exists reason,
     AIResponse.error r = Some reason
     /\ generate_json self prompt schema system_prompt w
        = (Ret (JObject [("error", JString reason)]), w1)
     /\ dict_get "error" [("error", JString reason)] = Some (JString reason)
     /\ dict_has "raw" [("error", JString reason)] = false
     /\ decoder_inputs (events w1) = decoder_inputs (events w))
  /\ (AIResponse.success r = true ->
      forall msg,
        json_loads (strip (cleaned (AIResponse.content r)))
        = Raise (mkExn JSONDecodeError msg) ->
        exists items w2,
          generate_json self prompt schema system_prompt w
          = (Ret (JObject items), w2)
          /\ dict_has "error" items = true
          /\ dict_get "raw" items = Some (JString (AIResponse.content r))).
Proof.
  intros Hgen. split.
  - intros Hfail.
    destruct (failed_response_has_error _ _ _ _ _ _ _ Hgen Hfail)
      as [reason Hreason].
    exists reason. split; [exact Hreason|].
    rewrite generate_json_cases, Hgen, Hfail, Hreason. cbn [negb json_of_optional].
    split; [reflexivity|]. split; [reflexivity|]. split; [reflexivity|].
    exact (generate_decodes_nothing _ _ _ _ _ _ _ Hgen).
  - intros Hok msg Hmsg.
    rewrite generate_json_cases, Hgen, Hok. cbn [negb].
    unfold decoded_or_failure. rewrite Hmsg.
    eexists _, _. split; [reflexivity|]. split; reflexivity.
Qed.

(** C6, as amended: for a reply [generate] returned with success, the
    text [generate_json] hands to the decoder is the reply stripped, cut
    to a fenced block and stripped again; what the decoder returns is
    returned, and a JSONDecodeError gives the mapping with "error" and,
    under "raw", the reply unchanged. The block is the one opened by the
    first fence tagged [json] when the stripped reply has one, else the
    one opened by the first fence, else the whole stripped reply; it ends
    at the next fence, or with the reply when no fence follows. For the
    tagged block this holds when the closing fence is not directly
    followed by a backtick or two and then [json]; in every case the
    tagged block is the text before the next fence in the text before the
    next tagged fence. *)
Theorem generate_json_decodes_fenced_reply (self : AIEngine.t)
    (prompt : string) (schema : json) (system_prompt : option string)
    (w w1 : World) (r : AIResponse.t) :
  generate self (json_prompt prompt schema) system_prompt None w = (Ret r, w1) ->
  AIResponse.success r = true ->
  let raw := AIResponse.content r in
  let text := strip (cleaned raw) in
  (forall v,
     json_loads text = Ret v ->
     generate_json self prompt schema system_prompt w
     = (Ret v, emitted (JsonLoads text) w1))
  /\ (forall msg,
        json_loads text = Raise (mkExn JSONDecodeError msg) ->
        generate_json self prompt schema system_prompt w
        = (Ret (JObject [("error", JString ("Invalid JSON: " ++ msg));
                         ("raw", JString raw)]),
           emitted (JsonLoads text) w1))
  /\ (forall prose after,
        partition_first "```json" (strip raw) = Some (prose, after) ->
        text = strip (before_first "```" (before_first "```json" after))
        /\ (forall body rest,
              partition_first "```" after = Some (body, rest) ->
              prefix "`json" rest = false ->
              prefix "``json" rest = false ->
              text = strip body)
        /\ (contains "```" after = false -> text = strip after))
  /\ (forall prose after,
        contains "```json" (strip raw) = false ->
        partition_first "```" (strip raw) = Some (prose, after) ->
        (forall body rest,
           partition_first "```" after = Some (body, rest) ->
           text = strip body)
        /\ (contains "```" after = false -> text = strip after))
  /\ (contains "```" (strip raw) = false -> text = strip raw).
Proof.
  intros Hgen Hok. cbv zeta. split; [|split; [|split; [|split]]].
  - intros v Hv. rewrite generate_json_cases, Hgen, Hok. cbn [negb].
    unfold decoded_or_failure. rewrite Hv. reflexivity.
  - intros msg Hmsg. rewrite generate_json_cases, Hgen, Hok. cbn [negb].
    unfold decoded_or_failure. rewrite Hmsg. reflexivity.
  - intros prose after Hpart. unfold cleaned.
    rewrite (contains_of_partition _ _ _ _ Hpart).
    rewrite (fence_body_partition "```json" _ _ _ ltac:(discriminate) Hpart).
    split; [reflexivity|]. split.
    + intros body rest Hclose H1 H2.
      rewrite (before_fence_before_tag _ _ _ Hclose H1 H2). reflexivity.
    + intros Hopen.
      rewrite (before_first_absent _ _ (no_fence_no_tag _ Hopen)).
      rewrite (before_first_absent _ _ Hopen). reflexivity.
  - intros prose after Htag Hpart. unfold cleaned.
    rewrite Htag, (contains_of_partition _ _ _ _ Hpart).
    rewrite (fence_body_partition "```" _ _ _ ltac:(discriminate) Hpart).
    rewrite before_first_twice. split.
    + intros body rest Hclose.
      rewrite (before_first_of_partition _ _ _ _ Hclose). reflexivity.
    + intros Hopen. rewrite (before_first_absent _ _ Hopen). reflexivity.
  - intros Hfence. unfold cleaned.
    rewrite (no_fence_no_tag _ Hfence), Hfence. apply strip_strip.
Qed.

End JsonFacts.


(** ** The theorems above on concrete engines *)

(** C1, the claim as stated fails: the call to a provider that reports
    [10**400] prompt tokens succeeds, and no usage is recorded for it:
    [generate], admitted by [check_limits], sends the request and returns
    the failure response of the OverflowError that the computation of the
    cost raised; the tracker is left as [check_limits] left it. *)
Lemma unpriced_usage_is_not_recorded :
  let w := world_at 0 default_tracker in
  let self := lavish_engine "{}" in
  let request := openai_request self "hi" None 2000 in
  check_limits (rt := small_runtime) 2000 w
  = (Ret (true, "OK"), tick 1 default_tracker w)
  /\ lavish_openai "{}" request
     = Ret (OpenAI.mkResponse (OpenAI.mkUsage (10 ^ 400) 30 (10 ^ 400 + 30))
              ["{}"])
  /\ generate (rt := small_runtime) self "hi" None None w
     = (Ret (AIResponse.mk "" "gpt-4o-mini" 0 0%float "openai" false
               (Some "integer division result too large for a float")),
        emitted (OpenAICall request) (tick 1 default_tracker w))
  /\ total_requests
       (tracker (snd (generate (rt := small_runtime) self "hi" None None w)))
     = 0
  /\ minute_requests
       (tracker (snd (generate (rt := small_runtime) self "hi" None None w)))
     = [].
Proof. vm_compute. repeat split. Qed.

Lemma generate_admits_before_and_records_after_witness :
  generate (rt := small_runtime) (openai_engine "{}") "hi" None None
    (world_at (seconds 30) busy_tracker)
  = (Ret (AIResponse.mk "" "gpt-4o-mini" 0 0%float "openai" false
            (Some "Resource limit: Rate limit reached. Wait 30s")),
     tick 2 busy_tracker (world_at (seconds 30) busy_tracker))
  /\ generate (rt := small_runtime) (openai_engine "{}") "hi" None None
       (world_at 0 default_tracker)
     = (Ret (AIResponse.mk "{}" "gpt-4o-mini" 42
               (openai_cost (OpenAI.mkUsage 12 30 42)) "openai" true None),
        recorded 42 (openai_cost (OpenAI.mkUsage 12 30 42))
          (emitted (OpenAICall (openai_request (openai_engine "{}") "hi" None
                                  2000))
             (tick 1 default_tracker (world_at 0 default_tracker))))
  /\ generate (rt := small_runtime) (anthropic_engine "{}") "hi" None None
       (world_at 0 default_tracker)
     = (Ret (AIResponse.mk "{}" "claude-3-5-sonnet-20241022" 42
               (anthropic_cost (Anthropic.mkUsage 12 30)) "anthropic" true
               None),
        recorded 42 (anthropic_cost (Anthropic.mkUsage 12 30))
          (emitted (AnthropicCall (anthropic_request (anthropic_engine "{}")
                                     "hi" None 2000))
             (tick 1 default_tracker (world_at 0 default_tracker)))).
Proof.
  split; [|split].
  - destruct (generate_admits_before_and_records_after (rt := small_runtime)
                (openai_engine "{}") "hi" None None
                (world_at (seconds 30) busy_tracker)) as [Hreject _].
    apply (Hreject "Rate limit reached. Wait 30s"
             (tick 2 busy_tracker (world_at (seconds 30) busy_tracker))).
    vm_compute. reflexivity.
  - destruct (generate_admits_before_and_records_after (rt := small_runtime)
                (openai_engine "{}") "hi" None None
                (world_at 0 default_tracker)) as (_ & Hopenai & _).
    apply (Hopenai "OK" (tick 1 default_tracker (world_at 0 default_tracker))
             (constant_openai "{}")
             (OpenAI.mkResponse (OpenAI.mkUsage 12 30 42) ["{}"]));
      vm_compute; reflexivity.
  - destruct (generate_admits_before_and_records_after (rt := small_runtime)
                (anthropic_engine "{}") "hi" None None
                (world_at 0 default_tracker)) as (_ & _ & Hanthropic).
    apply (Hanthropic "OK"
             (tick 1 default_tracker (world_at 0 default_tracker))
             (constant_anthropic "{}")
             (Anthropic.mkResponse (Anthropic.mkUsage 12 30) ["{}"]));
      vm_compute; reflexivity.
Defined.

(** C5, the claim as stated fails: when the provider returns an empty
    completion, [generate] returns a success whose content is empty; the
    response has neither of the two shapes of the claim. *)
Lemma empty_completion_has_neither_shape :
  let r := AIResponse.mk "" "gpt-4o-mini" 42
             (openai_cost (OpenAI.mkUsage 12 30 42)) "openai" true None in
  fst (generate (rt := small_runtime) (openai_engine "") "hi" None None
         (world_at 0 default_tracker)) = Ret r
  /\ claimed_success_shape r = false
  /\ claimed_failure_shape r = false.
Proof. vm_compute. repeat split. Qed.

Lemma generate_response_has_one_shape_witness :
  let r := AIResponse.mk "{}" "gpt-4o-mini" 42
             (openai_cost (OpenAI.mkUsage 12 30 42)) "openai" true None in
  xorb (success_shape r) (failure_shape r) = true
  /\ (success_shape r = true ->
      provider_text (openai_engine "{}") "hi" None
        (requested_tokens None (tracker (world_at 0 default_tracker)))
      = Some (AIResponse.content r))
  /\ (failure_shape r = true ->
      AIResponse.content r = "" /\ AIResponse.error r <> None).
Proof.
  cbv zeta.
  apply (generate_response_has_one_shape (rt := small_runtime)
           (openai_engine "{}") "hi" None None (world_at 0 default_tracker)
           (snd (generate (rt := small_runtime) (openai_engine "{}") "hi" None
                   None (world_at 0 default_tracker)))).
  vm_compute. reflexivity.
Defined.

(** C6, the claim as stated fails: in a reply whose first fenced block
    holds 1 and whose second block, tagged [json], holds 2, the contents of
    the first fenced block are not what is decoded; [generate_json]
    decodes the tagged block and returns 2. And in a reply whose tagged
    block holds 1 and is closed by four backticks that [json] follows,
    the text handed to the decoder is not the contents of the block: it
    keeps a backtick. *)
Lemma tagged_block_preferred_to_first_block :
  first_fenced_block (strip two_blocks_reply) = Some (nl ++ "1" ++ nl)
  /\ json_loads (PyRuntime := small_runtime) (strip (nl ++ "1" ++ nl))
     = Ret (JInt 1)
  /\ cleaned two_blocks_reply = nl ++ "2" ++ nl
  /\ fst (generate_json (rt := small_runtime) (openai_engine two_blocks_reply)
            "p" (JObject []) None (world_at 0 default_tracker))
     = Ret (JInt 2)
  /\ first_fenced_block (strip straddling_reply) = Some (nl ++ "1" ++ nl)
  /\ decoder_inputs
       (events
          (snd (generate_json (rt := small_runtime)
                  (openai_engine straddling_reply) "p" (JObject []) None
                  (world_at 0 default_tracker))))
     = ["1" ++ nl ++ "`"].
Proof. vm_compute. repeat split. Qed.

Lemma generate_json_decodes_fenced_reply_witness :
  let w := world_at 0 default_tracker in
  let sent (reply : string) :=
    snd (generate (rt := small_runtime) (openai_engine reply)
           (json_prompt (rt := small_runtime) "p" (JObject [])) None None w) in
  generate_json (rt := small_runtime) (openai_engine two_blocks_reply) "p"
    (JObject []) None w
  = (Ret (JInt 2), emitted (JsonLoads "2") (sent two_blocks_reply))
  /\ generate_json (rt := small_runtime) (openai_engine "  nothing ") "p"
       (JObject []) None w
     = (Ret (JObject
               [("error",
                 JString
                   "Invalid JSON: Expecting value: line 1 column 1 (char 0)");
                ("raw", JString "  nothing ")]),
        emitted (JsonLoads "nothing") (sent "  nothing "))
  /\ strip (cleaned two_blocks_reply) = strip (nl ++ "2" ++ nl)
  /\ strip (cleaned fenced_reply) = strip (nl ++ "{}" ++ nl)
  /\ strip (cleaned ("```" ++ nl ++ "7")) = strip (nl ++ "7")
  /\ strip (cleaned "  7 ") = strip "  7 ".
Proof.
  cbv zeta.
  pose (w := world_at 0 default_tracker).
  pose (reply_of := fun text : string =>
          AIResponse.mk text "gpt-4o-mini" 42
            (openai_cost (OpenAI.mkUsage 12 30 42)) "openai" true None).
  pose (sent := fun reply : string =>
          snd (generate (rt := small_runtime) (openai_engine reply)
                 (json_prompt (rt := small_runtime) "p" (JObject []))
                 None None w)).
  split; [|split; [|split; [|split; [|split]]]].
  - destruct (generate_json_decodes_fenced_reply (rt := small_runtime)
                (openai_engine two_blocks_reply) "p" (JObject []) None w
                (sent two_blocks_reply) (reply_of two_blocks_reply))
      as (Hdecoded & _); [vm_compute; reflexivity | reflexivity |].
    apply (Hdecoded (JInt 2)). vm_compute. reflexivity.
  - destruct (generate_json_decodes_fenced_reply (rt := small_runtime)
                (openai_engine "  nothing ") "p" (JObject []) None w
                (sent "  nothing ") (reply_of "  nothing "))
      as (_ & Hfailed & _); [vm_compute; reflexivity | reflexivity |].
    apply (Hfailed "Expecting value: line 1 column 1 (char 0)").
    vm_compute. reflexivity.
  - destruct (generate_json_decodes_fenced_reply (rt := small_runtime)
                (openai_engine two_blocks_reply) "p" (JObject []) None w
                (sent two_blocks_reply) (reply_of two_blocks_reply))
      as (_ & _ & Htagged & _); [vm_compute; reflexivity | reflexivity |].
    destruct (Htagged ("```" ++ nl ++ "1" ++ nl ++ "```" ++ nl)
                (nl ++ "2" ++ nl ++ "```")) as (_ & Hclosed & _);
      [vm_compute; reflexivity|].
    apply (Hclosed (nl ++ "2" ++ nl) ""); vm_compute; reflexivity.
  - destruct (generate_json_decodes_fenced_reply (rt := small_runtime)
                (openai_engine fenced_reply) "p" (JObject []) None w
                (sent fenced_reply) (reply_of fenced_reply))
      as (_ & _ & Htagged & _); [vm_compute; reflexivity | reflexivity |].
    destruct (Htagged ("Here you go:" ++ nl)
                (nl ++ "{}" ++ nl ++ "```" ++ nl ++ "Anything else?"))
      as (_ & Hclosed & _); [vm_compute; reflexivity|].
    apply (Hclosed (nl ++ "{}" ++ nl) (nl ++ "Anything else?"));
      vm_compute; reflexivity.
  - destruct (generate_json_decodes_fenced_reply (rt := small_runtime)
                (openai_engine ("```" ++ nl ++ "7")) "p" (JObject []) None w
                (sent ("```" ++ nl ++ "7")) (reply_of ("```" ++ nl ++ "7")))
      as (_ & _ & _ & Hfirst & _); [vm_compute; reflexivity | reflexivity |].
    destruct (Hfirst "" (nl ++ "7")) as (_ & Hopen);
      [vm_compute; reflexivity | vm_compute; reflexivity |].
    apply Hopen. vm_compute. reflexivity.
  - destruct (generate_json_decodes_fenced_reply (rt := small_runtime)
                (openai_engine "  7 ") "p" (JObject []) None w
                (sent "  7 ") (reply_of "  7 "))
      as (_ & _ & _ & _ & Hplain); [vm_compute; reflexivity | reflexivity |].
    apply Hplain. vm_compute. reflexivity.
Defined.

Lemma generate_json_reports_engine_failure_witness :
  exists reason,
    generate_json (rt := small_runtime) unconfigured_engine "p" (JObject [])
      None (world_at 0 default_tracker)
    = (Ret (JObject [("error", JString reason)]),
       tick 1 default_tracker (world_at 0 default_tracker))
    /\ dict_has "raw" [("error", JString reason)] = false.
Proof.
  destruct (generate_json_reports_engine_failure (rt := small_runtime)
              unconfigured_engine "p" (JObject []) None
              (world_at 0 default_tracker)
              (tick 1 default_tracker (world_at 0 default_tracker))
              (failure_response unconfigured_engine
                 "OpenAI client not initialized"))
    as [Hfail _]; [vm_compute; reflexivity|].
  destruct (Hfail eq_refl) as (reason & _ & Hjson & _ & Hraw & _).
  exists reason. split; assumption.
Defined.

(* ================================================================== *)
(** * Properties of workers and of the dispatcher *)
(* ================================================================== *)

Section DictFacts.
Context {V : Type}.

Lemma dict_get_set_same (k : string) (v : V) (l : list (string * V)) :
  dict_get k (dict_set k v l) = Some v.
Proof.
  induction l as [|[k' x] l IH]; simpl.
  - rewrite String.eqb_refl. reflexivity.
  - destruct (String.eqb k' k) eqn:E; simpl; rewrite E; [reflexivity|exact IH].
Qed.

Lemma dict_get_set_other (k k' : string) (v : V) (l : list (string * V)) :
  k <> k' -> dict_get k' (dict_set k v l) = dict_get k' l.
Proof.
  intros Hk. induction l as [|[k0 x] l IH]; simpl.
  - destruct (String.eqb k k') eqn:E; [|reflexivity].
    apply String.eqb_eq in E. contradiction.
  - destruct (String.eqb k0 k) eqn:E; simpl.
    + apply String.eqb_eq in E. subst k0.
      destruct (String.eqb k k') eqn:E'; [|reflexivity].
      apply String.eqb_eq in E'. contradiction.
    + destruct (String.eqb k0 k'); [reflexivity|exact IH].
Qed.

End DictFacts.

Lemma roles_set (k : string) (info info' : BeeInfo.t)
    (l : list (string * BeeInfo.t)) :
  dict_get k l = Some info ->
  BeeInfo.role info' = BeeInfo.role info ->
  roles (dict_set k info' l) = roles l.
Proof.
  intros Hget Hrole. induction l as [|[k0 x] l IH]; [discriminate|].
  simpl in *. destruct (String.eqb k0 k) eqn:E; simpl.
  - injection Hget as ->. rewrite Hrole. reflexivity.
  - rewrite (IH Hget). reflexivity.
Qed.

Lemma find_role_by_roles (role : AgentRole) (l l' : list (string * BeeInfo.t)) :
  roles l = roles l' -> find_role role l = find_role role l'.
Proof.
  revert l'. induction l as [|[k x] l IH]; intros [|[k' x'] l'] H;
    try discriminate; [reflexivity|].
  simpl in *. injection H as -> -> H.
  destruct (AgentRole_eqb (BeeInfo.role x') role); [reflexivity|].
  exact (IH _ H).
Qed.

Lemma hive_frame_refl (h : Hive) : hive_frame h h.
Proof. repeat split. Qed.

Lemma hive_frame_trans (h1 h2 h3 : Hive) :
  hive_frame h1 h2 -> hive_frame h2 h3 -> hive_frame h1 h3.
Proof.
  unfold hive_frame. intros (A1 & A2 & A3 & A4 & A5 & A6 & A7 & A8)
    (B1 & B2 & B3 & B4 & B5 & B6 & B7 & B8).
  repeat split; congruence.
Qed.

Lemma queen_frame_refl (h : Hive) : queen_frame h h.
Proof. repeat split. Qed.

Lemma queen_frame_trans (h1 h2 h3 : Hive) :
  queen_frame h1 h2 -> queen_frame h2 h3 -> queen_frame h1 h3.
Proof.
  unfold queen_frame. intros (A1 & A2 & A3 & A4) (B1 & B2 & B3 & B4).
  repeat split; congruence.
Qed.

Lemma hive_frame_queen_frame (h h' : Hive) : hive_frame h h' -> queen_frame h h'.
Proof.
  intros (A1 & A2 & A3 & A4 & A5 & A6 & A7 & A8). repeat split; assumption.
Qed.

Section Preservation.
Context {S : Type} (R : S -> S -> Prop).
Hypothesis R_refl : forall s, R s s.
Hypothesis R_trans : forall s1 s2 s3, R s1 s2 -> R s2 s3 -> R s1 s3.

Lemma preserves_ret {A} (a : A) : preserves R (ret a).
Proof. intros s o s' [= _ <-]. apply R_refl. Qed.

Lemma preserves_raise {A} (e : exn) : preserves R (@raise S A e).
Proof. intros s o s' [= _ <-]. apply R_refl. Qed.

Lemma preserves_get : preserves R (@get S).
Proof. intros s o s' [= _ <-]. apply R_refl. Qed.

Lemma preserves_bind {A B} (m : M S A) (k : A -> M S B) :
  preserves R m -> (forall a, preserves R (k a)) -> preserves R (bind m k).
Proof.
  intros Hm Hk s o s'. unfold bind.
  destruct (m s) as [[a|e] s1] eqn:E.
  - intros H. exact (R_trans _ _ _ (Hm _ _ _ E) (Hk a _ _ _ H)).
  - intros [= _ <-]. exact (Hm _ _ _ E).
Qed.

End Preservation.

Ltac frame_bind :=
  first [ apply (preserves_bind hive_frame hive_frame_trans)
        | apply (preserves_bind queen_frame queen_frame_trans) ].
Ltac frame_ret :=
  first [ apply (preserves_ret hive_frame hive_frame_refl)
        | apply (preserves_ret queen_frame queen_frame_refl) ].
Ltac frame_raise :=
  first [ apply (preserves_raise hive_frame hive_frame_refl)
        | apply (preserves_raise queen_frame queen_frame_refl) ].
Ltac frame_get :=
  first [ apply (preserves_get hive_frame hive_frame_refl)
        | apply (preserves_get queen_frame queen_frame_refl) ].

Lemma preserves_update_bee (bee_id : string) (f : HiveAgent.t -> HiveAgent.t) :
  preserves hive_frame (update_bee bee_id f).
Proof.
  intros s o s' [= _ <-].
  destruct (dict_get bee_id (worker_bees s)) as [info|] eqn:E;
    [|apply hive_frame_refl].
  repeat split. cbn. apply (roles_set _ info); [exact E|reflexivity].
Qed.

Lemma preserves_on_bee {A} (bee_id : string) (default : A)
    (m : AgentClass -> M HiveAgent.t A) :
  preserves hive_frame (on_bee bee_id default m).
Proof.
  intros s o s'. unfold on_bee.
  destruct (dict_get bee_id (worker_bees s)) as [info|] eqn:E.
  - destruct (m _ _) as [o' a']. intros [= _ <-].
    repeat split. cbn. apply (roles_set _ info); [exact E|reflexivity].
  - intros [= _ <-]. apply hive_frame_refl.
Qed.

Lemma preserves_send_message (route : HiveMessage.t -> M Hive unit)
    (bee_id : string) (message : HiveMessage.t) :
  (forall m, preserves hive_frame (route m)) ->
  preserves hive_frame (send_message route bee_id message).
Proof.
  intros Hroute. unfold send_message.
  frame_bind; [frame_get|]. intros h.
  destruct (dict_get bee_id (worker_bees h)) as [info|];
    [|frame_ret].
  frame_bind; [|intros; apply preserves_update_bee].
  destruct (HiveAgent.on_message_send _) as [[]|];
    [apply Hroute|frame_ret].
Qed.

Lemma preserves_receive_message (route : HiveMessage.t -> M Hive unit)
    (bee_id : string) (message : HiveMessage.t) :
  (forall m, preserves hive_frame (route m)) ->
  preserves hive_frame (receive_message route bee_id message).
Proof.
  intros Hroute. unfold receive_message.
  frame_bind; [apply preserves_update_bee|]. intros _.
  frame_bind; [apply preserves_update_bee|]. intros _.
  frame_bind; [apply preserves_on_bee|]. intros response.
  frame_bind; [|intros; apply preserves_update_bee].
  destruct response; [apply preserves_send_message; exact Hroute
                     |frame_ret].
Qed.

(** Routing a message changes nothing but attributes of workers. *)
Lemma preserves_route_message (depth : nat) (message : HiveMessage.t) :
  preserves hive_frame (route_message depth message).
Proof.
  revert message. induction depth as [|depth IH]; intros message; cbn [route_message].
  - frame_raise.
  - frame_bind; [frame_get|]. intros h.
    destruct (dict_has _ _); [|frame_ret].
    apply preserves_receive_message. exact IH.
Qed.

Lemma update_bee_registered (bee_id : string) (f : HiveAgent.t -> HiveAgent.t)
    (h : Hive) (info : BeeInfo.t) :
  dict_get bee_id (worker_bees h) = Some info ->
  exists h',
    update_bee bee_id f h = (Ret tt, h')
    /\ dict_get bee_id (worker_bees h')
       = Some (BeeInfo.mk (mkBee (bee_class (BeeInfo.bee info))
                                 (f (bee_self (BeeInfo.bee info))))
                          (BeeInfo.role info)).
Proof.
  intros Hget. unfold update_bee, modify. rewrite Hget.
  eexists. split; [reflexivity|]. cbn. apply dict_get_set_same.
Qed.

(** The state in which the handler leaves the worker. *)
Lemma handled_cases (bee_id : string) (message : HiveMessage.t) (h h1 : Hive)
    (info : BeeInfo.t) (o : Outcome (option HiveMessage.t)) :
  dict_get bee_id (worker_bees h) = Some info ->
  handled bee_id message h = (o, h1) ->
  let cls := bee_class (BeeInfo.bee info) in
  let a := bee_self (BeeInfo.bee info) in
  let a1 := HiveAgent.set_state THINKING
              (HiveAgent.set_messages_received
                 (HiveAgent.messages_received a + 1) a) in
  o = fst (process_message cls message a1)
  /\ dict_get bee_id (worker_bees h1)
     = Some (BeeInfo.mk (mkBee cls (snd (process_message cls message a1)))
                        (BeeInfo.role info)).
Proof.
  intros Hget. unfold handled, bind.
  destruct (update_bee_registered bee_id
              (fun a => HiveAgent.set_messages_received
                          (HiveAgent.messages_received a + 1) a) h info Hget)
    as (h0 & -> & Hget0).
  destruct (update_bee_registered bee_id (HiveAgent.set_state THINKING) h0 _ Hget0)
    as (h0' & -> & Hget1).
  unfold on_bee. rewrite Hget1. cbn [BeeInfo.bee bee_class bee_self BeeInfo.role].
  destruct (process_message _ _ _) as [o' a2].
  intros [= <- <-]. cbv zeta. cbn [fst snd]. split; [reflexivity|].
  cbn. apply dict_get_set_same.
Qed.

Lemma receive_message_after_handled (route : HiveMessage.t -> M Hive unit)
    (bee_id : string) (message : HiveMessage.t) (h : Hive) :
  receive_message route bee_id message h =
  match handled bee_id message h with
  | (Ret response, h1) =>
      (match response with
       | Some r => send_message route bee_id r
       | None => ret tt
       end ;;;
       update_bee bee_id (HiveAgent.set_state IDLE)) h1
  | (Raise e, h1) => (Raise e, h1)
  end.
Proof.
  unfold receive_message, handled, bind, update_bee, modify.
  destruct (on_bee _ _ _ _) as [[response|e] h1]; reflexivity.
Qed.



Section WorkflowFacts.
Context {rt : PyRuntime}.

Lemma execute_workflow_cases (depth : nat) (workflow_type : string)
    (data : list (string * json)) (h : Hive) :
  execute_workflow depth workflow_type data h =
  match workflow_of_type depth workflow_type data (workflow_started h) with
  | (Ret result, h3) =>
      (Ret (dict_set "execution_time" (JFloat (elapsed h h3))
              (dict_set "workflow_id" (JString (workflow_id_of h)) result)),
       workflow_counted (json_truthy (dict_get "success" result)) 1 h3)
  | (Raise e, h3) =>
      (Ret [("success", JBool false); ("error", JString (exn_str e));
            ("workflow_id", JString (workflow_id_of h))],
       workflow_counted false 0 h3)
  end.
Proof.
  unfold execute_workflow, try_except.
  unfold bind at 1. unfold hive_now at 1. unfold bind at 1. unfold hive_now at 1.
  cbn [hive_clock hive_ticks queen uuid4 uuid_count].
  fold (workflow_started h). unfold bind at 1.
  destruct (workflow_of_type _ _ _ _) as [[result|e] h3]; [|reflexivity].
  unfold bind at 1. unfold hive_now at 1. unfold bind at 1.
  destruct (json_truthy _); reflexivity.
Qed.

Lemma preserves_new_message (sender receiver : string) (content : json)
    (msg_type : MessageType) :
  preserves queen_frame (HiveMessage_new sender receiver content msg_type).
Proof. intros s o s' [= _ <-]. repeat split. Qed.

Lemma preserves_route_queen (depth : nat) (message : HiveMessage.t) :
  preserves queen_frame (route_message depth message).
Proof.
  intros s o s' H. apply hive_frame_queen_frame.
  exact (preserves_route_message depth message s o s' H).
Qed.

Lemma preserves_tasks_completed (bee_id : string) :
  preserves queen_frame (bee_tasks_completed bee_id).
Proof.
  intros s o s'. unfold bee_tasks_completed, bind, get.
  destruct (dict_get _ _); intros [= _ <-]; apply queen_frame_refl.
Qed.

Lemma preserves_shopper_step (depth : nat) (bee_id : string)
    (data : list (string * json)) :
  preserves queen_frame (shopper_step depth bee_id data).
Proof.
  unfold shopper_step. frame_bind; [frame_get|]. intros h.
  frame_bind; [apply preserves_new_message|]. intros m.
  apply preserves_route_queen.
Qed.

(** The campaign workflow leaves the counters of the queen alone. *)
Lemma preserves_full_campaign (depth : nat) (data : list (string * json)) :
  preserves queen_frame (_full_campaign_workflow depth data).
Proof.
  unfold _full_campaign_workflow, _find_bee_by_role, asyncio_sleep.
  frame_bind; [frame_bind; [frame_get|intros; frame_ret]|]. intros shopper_id.
  destruct (negb (truthy shopper_id)); [frame_ret|].
  frame_bind; [frame_get|]. intros h.
  frame_bind; [apply preserves_new_message|]. intros m.
  frame_bind; [apply preserves_route_queen|]. intros _.
  frame_bind; [frame_ret|]. intros _.
  frame_bind; [apply preserves_tasks_completed|]. intros completed.
  destruct (completed =? 0); [frame_ret|].
  frame_bind; [frame_bind; [frame_get|intros; frame_ret]|]. intros ad_id.
  destruct (negb (truthy ad_id)); [frame_ret|].
  frame_bind; [apply preserves_new_message|]. intros m'.
  frame_bind; [apply preserves_route_queen|]. intros _.
  frame_bind; [frame_ret|]. intros _.
  frame_bind; [apply preserves_tasks_completed|]. intros completed'.
  destruct (completed' =? 0); frame_ret.
Qed.

Lemma preserves_workflow_of_type (depth : nat) (workflow_type : string)
    (data : list (string * json)) :
  preserves queen_frame (workflow_of_type depth workflow_type data).
Proof.
  unfold workflow_of_type.
  destruct (String.eqb _ _); [apply preserves_full_campaign|frame_ret].
Qed.

(** The campaign workflow without shopper. *)
Lemma full_campaign_without_shopper (depth : nat) (data : list (string * json))
    (h : Hive) :
  find_role SHOPPER_BEE (worker_bees h) = None ->
  _full_campaign_workflow depth data h
  = (Ret [("success", JBool false); ("error", JString "Shopper bee not found")],
     h).
Proof.
  intros Hfind. unfold _full_campaign_workflow, _find_bee_by_role.
  unfold bind, get, ret. rewrite Hfind. reflexivity.
Qed.

(** The campaign workflow with a shopper that completes and no ad
    worker. *)
Lemma full_campaign_without_ad (depth : nat) (data : list (string * json))
    (h h3 : Hive) (shopper_bee_id : string) (a : HiveAgent.t) :
  find_role SHOPPER_BEE (worker_bees h) = Some shopper_bee_id ->
  shopper_bee_id <> "" ->
  find_role AD_BEE (worker_bees h) = None ->
  shopper_step depth shopper_bee_id data h = (Ret tt, h3) ->
  worker shopper_bee_id h3 = Some a ->
  HiveAgent.tasks_completed a <> 0 ->
  _full_campaign_workflow depth data h
  = (Ret [("success", JBool false); ("error", JString "Ad bee not found")], h3).
Proof.
  intros Hshopper Hid Had Hstep Hworker Hdone.
  pose proof (preserves_shopper_step _ _ _ _ _ _ Hstep) as (_ & _ & _ & Hroles).
  unfold _full_campaign_workflow, _find_bee_by_role.
  unfold bind at 1. unfold bind at 1. unfold get at 1. unfold ret at 1.
  rewrite Hshopper. cbn [truthy or_empty].
  destruct (String.eqb shopper_bee_id "") eqn:E;
    [apply String.eqb_eq in E; contradiction|].
  cbn [negb].
  unfold shopper_step in Hstep.
  unfold bind at 1. unfold get at 1.
  unfold bind at 1 in Hstep. unfold get at 1 in Hstep.
  unfold bind at 1. unfold bind at 1 in Hstep.
  destruct (HiveMessage_new _ _ _ _ h) as [[m|e] h2]; [|discriminate].
  unfold bind at 1. rewrite Hstep.
  unfold bind at 1. unfold asyncio_sleep at 1. unfold ret at 1.
  unfold bind at 1. unfold bee_tasks_completed at 1.
  unfold bind at 1. unfold get at 1.
  unfold worker in Hworker.
  destruct (dict_get shopper_bee_id (worker_bees h3)) as [info|]; [|discriminate].
  injection Hworker as Ha. rewrite Ha. unfold ret at 1.
  destruct (HiveAgent.tasks_completed a =? 0) eqn:E0;
    [apply Z.eqb_eq in E0; contradiction|].
  unfold bind at 1. unfold bind at 1. unfold get at 1. unfold ret at 1.
  rewrite (find_role_by_roles AD_BEE _ _ Hroles), Had. reflexivity.
Qed.

(** C8, as amended: [execute_workflow] always returns a result that
    carries the workflow identifier, and adds one to exactly one of
    [workflows_completed] and [workflows_failed]; when the workflow proper
    returned, the result also carries the elapsed time. For
    "full_ad_campaign": without shopper the result is the failure
    "Shopper bee not found" and the workers are as they were, no message
    having been built; with a shopper whose step returned with a task
    completed and without ad worker, the result is the failure
    "Ad bee not found" and the hive is as the shopper step left it. *)
Theorem execute_workflow_outcomes (depth : nat) (data : list (string * json))
    (h : Hive) :
  (find_role SHOPPER_BEE (worker_bees h) = None ->
   execute_workflow depth "full_ad_campaign" data h
   = (Ret (failed_result "Shopper bee not found" h (workflow_started h)),
      workflow_counted false 1 (workflow_started h)))
  /\ (forall (shopper_bee_id : string) (h3 : Hive) (a : HiveAgent.t),
       find_role SHOPPER_BEE (worker_bees h) = Some shopper_bee_id ->
       shopper_bee_id <> "" ->
       find_role AD_BEE (worker_bees h) = None ->
       shopper_step depth shopper_bee_id data (workflow_started h)
       = (Ret tt, h3) ->
       worker shopper_bee_id h3 = Some a ->
       HiveAgent.tasks_completed a <> 0 ->
       execute_workflow depth "full_ad_campaign" data h
       = (Ret (failed_result "Ad bee not found" h h3),
          workflow_counted false 1 h3))
  /\ (forall workflow_type : string,
       exists result h',
         execute_workflow depth workflow_type data h = (Ret result, h')
         /\ dict_get "workflow_id" result = Some (JString (workflow_id_of h))
         /\ (QueenBee.workflows_completed (queen h')
             = QueenBee.workflows_completed (queen h) + 1
             /\ QueenBee.workflows_failed (queen h')
                = QueenBee.workflows_failed (queen h)
             \/ QueenBee.workflows_completed (queen h')
                = QueenBee.workflows_completed (queen h)
                /\ QueenBee.workflows_failed (queen h')
                   = QueenBee.workflows_failed (queen h) + 1)
         /\ forall res h3,
              workflow_of_type depth workflow_type data (workflow_started h)
              = (Ret res, h3) ->
              dict_get "execution_time" result = Some (JFloat (elapsed h h3))).
Proof.
  split; [|split].
  - intros Hfind. rewrite execute_workflow_cases. unfold workflow_of_type.
    cbn [String.eqb Ascii.eqb Bool.eqb].
    rewrite full_campaign_without_shopper by exact Hfind. reflexivity.
  - intros shopper_bee_id h3 a Hshopper Hid Had Hstep Hworker Hdone.
    rewrite execute_workflow_cases. unfold workflow_of_type.
    cbn [String.eqb Ascii.eqb Bool.eqb].
    rewrite (full_campaign_without_ad depth data (workflow_started h) h3
               shopper_bee_id a); try assumption.
    reflexivity.
  - intros workflow_type. rewrite execute_workflow_cases.
    destruct (workflow_of_type _ _ _ _) as [[result|e] h3] eqn:Hbody;
      destruct (preserves_workflow_of_type _ _ _ _ _ _ Hbody)
        as (Hcompleted & Hfailed & _ & _);
      cbn in Hcompleted, Hfailed.
    + eexists _, _. split; [reflexivity|]. split.
      { rewrite dict_get_set_other by discriminate. apply dict_get_set_same. }
      split.
      { destruct (json_truthy _); cbn; [left|right]; split; congruence. }
      intros res h4 [= <- <-]. apply dict_get_set_same.
    + eexists _, _. split; [reflexivity|]. split; [reflexivity|]. split.
      { right. cbn. split; congruence. }
      intros res h4 H. discriminate.
Qed.

End WorkflowFacts.

(** ** The theorems above on concrete hives *)

(** C8, the claim as stated fails: with a shopper whose analysis fails and
    no ad worker, the error of the workflow is not that the missing role was
    not found; and when the handler of the shopper raises, the result
    carries no execution time. *)
Lemma missing_ad_reported_as_failed_analysis :
  find_role AD_BEE (worker_bees (hive_of [shopper failing_worker])) = None
  /\ fst (execute_workflow (rt := small_runtime) 10 "full_ad_campaign"
            [("user_id", JString "u1")] (hive_of [shopper failing_worker]))
     = Ret [("success", JBool false);
            ("error", JString "Shopper analysis failed");
            ("workflow_id", JString "workflow_0");
            ("execution_time", JFloat 0%float)]
  /\ fst (execute_workflow (rt := small_runtime) 10 "full_ad_campaign"
            [("user_id", JString "u1")] (hive_of [shopper crashing_worker]))
     = Ret [("success", JBool false);
            ("error", JString "argument of type 'int' is not iterable");
            ("workflow_id", JString "workflow_0")].
Proof. vm_compute. repeat split. Qed.

Lemma execute_workflow_outcomes_witness :
  let data := [("user_id", JString "u1")] in
  let h0 := hive_of [ad completing_worker] in
  let h := hive_of [shopper completing_worker] in
  let h3 :=
    snd (shopper_step (rt := small_runtime) 10 "shopper_bee_001" data
           (workflow_started h)) in
  execute_workflow (rt := small_runtime) 10 "full_ad_campaign" data h0
  = (Ret (failed_result (rt := small_runtime) "Shopper bee not found" h0
            (workflow_started h0)),
     workflow_counted false 1 (workflow_started h0))
  /\ execute_workflow (rt := small_runtime) 10 "full_ad_campaign" data h
     = (Ret (failed_result (rt := small_runtime) "Ad bee not found" h h3),
        workflow_counted false 1 h3).
Proof.
  cbv zeta. split.
  - apply (execute_workflow_outcomes (rt := small_runtime) 10
             [("user_id", JString "u1")] (hive_of [ad completing_worker])).
    vm_compute. reflexivity.
  - apply (proj1 (proj2 (execute_workflow_outcomes (rt := small_runtime) 10
                           [("user_id", JString "u1")]
                           (hive_of [shopper completing_worker])))
             "shopper_bee_001" _
             (HiveAgent.mk "shopper_bee_001" SHOPPER_BEE
                "AI shopping behavior analyst" IDLE false 1 0 1 1
                (Some queen_route_message))).
    + vm_compute. reflexivity.
    + discriminate.
    + vm_compute. reflexivity.
    + vm_compute. reflexivity.
    + vm_compute. reflexivity.
    + vm_compute. discriminate.
Defined.




(* ================================================================== *)
(** * Further properties of the budget tracker *)
(* ================================================================== *)

Section TrackerAccounting.
Context {rt : PyRuntime}.

(** Whatever [check_limits] answers, it leaves the tracker as the window
    advancement made it. *)
Lemma check_limits_tracker (estimated_tokens : Z) (w w1 : World)
    (o : Outcome (bool * string)) :
  check_limits estimated_tokens w = (o, w1) ->
  tracker w1 = after_reset w /\ clock w1 = clock w
  /\ (ticks w < ticks w1 <= ticks w + 2)%nat.
Proof.
  rewrite check_limits_cases. cbv zeta.
  destruct (_ >=? _).
  - destruct (minute_requests (after_reset w)); intros [= _ <-]; cbn;
      repeat split; lia.
  - destruct (_ >? _).
    + destruct (printable _); intros [= _ <-]; cbn; repeat split; lia.
    + destruct (cost_estimable _);
        [destruct (over_cost _ _)|]; intros [= _ <-]; cbn; repeat split; lia.
Qed.

(** X1: over any sequence of [check_limits] and [record_usage] calls that
    runs to its end, the lifetime totals are the totals before plus what
    the [record_usage] calls were given: window resets and rejections never
    touch them. *)
Theorem lifetime_totals_account_for_recorded_usage (ops : list TrackerOp)
    (w w' : World) :
  run_ops ops w = (Ret tt, w') ->
  total_requests (tracker w') = total_requests (tracker w) + recorded_count ops
  /\ total_tokens (tracker w') = total_tokens (tracker w) + recorded_tokens ops
  /\ total_cost (tracker w')
     = fold_left PrimFloat.add (recorded_costs ops) (total_cost (tracker w)).
Proof.
  revert w. induction ops as [|[e|t c] rest IH]; intros w Hrun.
  - injection Hrun as <-. cbn. repeat split; lia.
  - cbn [run_ops] in Hrun. unfold bind at 1 in Hrun.
    destruct (check_limits e w) as [[r|x] w1] eqn:Hcheck; [|discriminate].
    destruct (check_limits_tracker _ _ _ _ Hcheck) as (Htr & _ & _).
    destruct (IH _ Hrun) as (H1 & H2 & H3).
    destruct (reset_at_totals (clock w (ticks w)) (tracker w)) as (R1 & R2 & R3).
    unfold after_reset in Htr. rewrite Htr, R1, R2, R3 in *.
    cbn. repeat split; assumption.
  - cbn [run_ops] in Hrun. unfold bind at 1 in Hrun.
    rewrite record_usage_cases in Hrun.
    destruct (IH _ Hrun) as (H1 & H2 & H3).
    cbn [tracker tick total_requests total_tokens total_cost] in H1, H2, H3.
    cbn [recorded_count recorded_tokens recorded_costs fold_left].
    repeat split; [lia|lia|exact H3].
Qed.

Lemma reset_at_within_the_hour (now : datetime) (tr : ResourceTracker) :
  0 <= now - hour_start tr < 3600000000 ->
  hour_tokens (reset_at now tr) = hour_tokens tr
  /\ hour_cost (reset_at now tr) = hour_cost tr
  /\ hour_start (reset_at now tr) = hour_start tr.
Proof.
  intros H. unfold reset_at. cbn [hour_start set_minute_requests].
  unfold datetime_sub. rewrite td_seconds_within_a_day by lia.
  assert (Hlt : ((now - hour_start tr) / 1000000 >=? 3600) = false).
  { rewrite Z.geb_leb. apply Z.leb_gt. apply Z.div_lt_upper_bound; lia. }
  rewrite Hlt. repeat split.
Qed.

(** X2: while the clock stays within the hour that starts at the anchor,
    the hour accumulators are their values before plus what the
    [record_usage] calls were given, and the anchor does not move. *)
Theorem hour_window_accounts_for_recorded_usage (ops : list TrackerOp)
    (w w' : World) :
  within_the_hour w (hour_start (tracker w)) (2 * List.length ops) ->
  run_ops ops w = (Ret tt, w') ->
  hour_tokens (tracker w') = hour_tokens (tracker w) + recorded_tokens ops
  /\ hour_cost (tracker w')
     = fold_left PrimFloat.add (recorded_costs ops) (hour_cost (tracker w))
  /\ hour_start (tracker w') = hour_start (tracker w).
Proof.
  revert w. induction ops as [|[e|t c] rest IH]; intros w Hhour Hrun.
  - injection Hrun as <-. cbn. repeat split; lia.
  - cbn [run_ops] in Hrun. unfold bind at 1 in Hrun.
    destruct (check_limits e w) as [[r|x] w1] eqn:Hcheck; [|discriminate].
    destruct (check_limits_tracker _ _ _ _ Hcheck) as (Htr & Hclock & Hticks).
    destruct (reset_at_within_the_hour (clock w (ticks w)) (tracker w))
      as (R1 & R2 & R3).
    { apply Hhour. simpl. lia. }
    unfold after_reset in Htr.
    destruct (IH w1) as (H1 & H2 & H3); [|exact Hrun|].
    { intros i Hi. rewrite Hclock, Htr, R3. apply Hhour. simpl. lia. }
    rewrite Htr, R1, R2, R3 in *. cbn. repeat split; assumption.
  - cbn [run_ops] in Hrun. unfold bind at 1 in Hrun.
    rewrite record_usage_cases in Hrun.
    match type of Hrun with
    | run_ops rest ?w1 = _ => destruct (IH w1) as (H1 & H2 & H3)
    end; [|exact Hrun|].
    { intros i Hi. cbn in Hi |- *. apply Hhour. simpl. lia. }
    cbn [tracker tick hour_tokens hour_cost hour_start] in H1, H2, H3.
    cbn [recorded_tokens recorded_costs fold_left].
    repeat split; [lia|exact H2|exact H3].
Qed.

Lemma reset_at_hour_tokens (now : datetime) (tr : ResourceTracker) :
  hour_tokens (reset_at now tr) = hour_tokens tr
  \/ hour_tokens (reset_at now tr) = 0.
Proof.
  unfold reset_at. destruct (td_seconds _ >=? 3600); [right|left]; reflexivity.
Qed.

Lemma check_limits_admits (estimated_tokens : Z) (w w1 : World)
    (message : string) :
  check_limits estimated_tokens w = (Ret (true, message), w1) ->
  hour_tokens (after_reset w) + estimated_tokens
  <= max_tokens_per_hour (after_reset w)
  /\ Z.of_nat (List.length (minute_requests (after_reset w)))
     < max_requests_per_minute (after_reset w)
  /\ over_cost estimated_tokens (after_reset w) = false.
Proof.
  rewrite check_limits_cases. cbv zeta.
  destruct (_ >=? _) eqn:Hrate.
  - destruct (minute_requests (after_reset w)); discriminate.
  - destruct (_ >? _) eqn:Htok;
      [destruct (printable _); discriminate|].
    destruct (cost_estimable _); [|discriminate].
    destruct (over_cost _ _); [discriminate|]. intros _.
    rewrite Z.gtb_ltb in Htok. apply Z.ltb_ge in Htok.
    rewrite Z.geb_leb in Hrate. apply Z.leb_gt in Hrate.
    repeat split; assumption.
Qed.

(** X3: starting within a ceiling that is not negative, when every
    admitted request records no more tokens than it asked to be admitted
    for, the tokens of the hour window never exceed [max_tokens_per_hour],
    however the sequence ends, and the ceiling is never changed. *)
Theorem hour_tokens_stay_within_ceiling (requests : list Request)
    (w w' : World) (o : Outcome (list (bool * string))) :
  Forall (fun q => used_tokens q <= estimate q) requests ->
  0 <= max_tokens_per_hour (tracker w) ->
  hour_tokens (tracker w) <= max_tokens_per_hour (tracker w) ->
  admit_and_record requests w = (o, w') ->
  hour_tokens (tracker w') <= max_tokens_per_hour (tracker w')
  /\ max_tokens_per_hour (tracker w') = max_tokens_per_hour (tracker w).
Proof.
  revert w w' o.
  induction requests as [|q rest IH]; intros w w' o Hused Hmax Hle Hrun.
  - injection Hrun as _ <-. split; [exact Hle|reflexivity].
  - inversion Hused as [|? ? Hq Hrest]; subst.
    pose proof (reset_at_hour_tokens (clock w (ticks w)) (tracker w)) as Hreset.
    pose proof (reset_at_max_tokens (clock w (ticks w)) (tracker w)) as Hsame.
    fold (after_reset w) in Hreset, Hsame.
    assert (Hafter : hour_tokens (after_reset w)
                     <= max_tokens_per_hour (after_reset w)).
    { rewrite Hsame. destruct Hreset as [-> | ->]; assumption. }
    destruct (check_limits (estimate q) w) as [[[[|] message]|e] w1] eqn:Hcheck;
      destruct (check_limits_tracker _ _ _ _ Hcheck) as (Htr & _ & _).
    + destruct (check_limits_admits _ _ _ _ Hcheck) as (Hroom & _ & _).
      rewrite (admit_and_record_admitted _ _ _ _ _ Hcheck) in Hrun.
      rewrite record_usage_cases in Hrun. cbn [snd] in Hrun.
      match type of Hrun with
      | context [admit_and_record rest ?w2] =>
          destruct (admit_and_record rest w2) as [o2 w3] eqn:Hrec;
          destruct (IH w2 w3 o2 Hrest) as [H1 H2];
            [cbn; rewrite Htr, Hsame; exact Hmax
            |cbn; rewrite Htr; lia
            |exact Hrec|]
      end.
      cbn in H2. rewrite Htr, Hsame in H2.
      destruct o2; injection Hrun as _ <-; split; assumption.
    + rewrite (admit_and_record_rejected _ _ _ _ _ Hcheck) in Hrun.
      destruct (admit_and_record rest w1) as [o2 w3] eqn:Hrec.
      destruct (IH w1 w3 o2 Hrest) as [H1 H2];
        [rewrite Htr, Hsame; exact Hmax|rewrite Htr; exact Hafter|exact Hrec|].
      rewrite Htr, Hsame in H2.
      destruct o2; injection Hrun as _ <-; split; assumption.
    + cbn [admit_and_record] in Hrun. unfold bind at 1 in Hrun.
      rewrite Hcheck in Hrun. injection Hrun as _ <-.
      rewrite Htr. split; [exact Hafter|exact Hsame].
Qed.

End TrackerAccounting.

(* ================================================================== *)
(** * Further properties of the request engine *)
(* ================================================================== *)

Section EngineExtras.
Context {rt : PyRuntime}.

(** X4: once the four limits have been read from the environment,
    [AIEngine.__init__] returns an engine for the provider asked for, or
    for OpenAI when none is asked for and [AI_PROVIDER] is unset; the
    engine holds no client for the other provider, and holds a client for
    its own provider exactly when the SDK is installed and the key is a
    non-empty text. Its tracker is empty. *)
Theorem init_configures_only_the_selected_provider (env : Environ)
    (provider : option AIProvider) (model : option string) (w : World) :
  exists self w',
    AIEngine_init env provider model w = (Ret self, w')
    /\ (forall p, provider = Some p -> AIEngine.provider self = p)
    /\ (provider = None -> AI_PROVIDER env = None ->
        AIEngine.provider self = OPENAI)
    /\ match AIEngine.provider self with
       | OPENAI =>
           AIEngine.anthropic_client self = None
           /\ (AIEngine.openai_client self <> None <->
               OPENAI_AVAILABLE env && truthy (OPENAI_API_KEY env) = true)
       | ANTHROPIC =>
           AIEngine.openai_client self = None
           /\ (AIEngine.anthropic_client self <> None <->
               ANTHROPIC_AVAILABLE env && truthy (ANTHROPIC_API_KEY env) = true)
       end
    /\ minute_requests (tracker w') = []
    /\ total_requests (tracker w') = 0
    /\ hour_tokens (tracker w') = 0.
Proof.
  unfold AIEngine_init, bind, ResourceTracker_init, bind, datetime_now,
    set_tracker, ret.
  eexists _, _. split; [reflexivity|]. cbn.
  split; [intros p ->; reflexivity|].
  split; [intros -> ->; reflexivity|].
  split; [|repeat split].
  destruct provider as [[|]|]; cbn.
  - split; [reflexivity|].
    destruct (OPENAI_AVAILABLE env && truthy (OPENAI_API_KEY env));
      split; intros H; try reflexivity; try discriminate; congruence.
  - split; [reflexivity|].
    destruct (ANTHROPIC_AVAILABLE env && truthy (ANTHROPIC_API_KEY env));
      split; intros H; try reflexivity; try discriminate; congruence.
  - destruct (String.eqb _ "openai"); cbn.
    + split; [reflexivity|].
      destruct (OPENAI_AVAILABLE env && truthy (OPENAI_API_KEY env));
        split; intros H; try reflexivity; try discriminate; congruence.
    + split; [reflexivity|].
      destruct (ANTHROPIC_AVAILABLE env && truthy (ANTHROPIC_API_KEY env));
        split; intros H; try reflexivity; try discriminate; congruence.
Qed.

(** The provider call of [generate]: it returns or raises, having sent at
    most one request, to the provider the engine was built for. *)
Lemma provider_generate_events (self : AIEngine.t) (prompt : string)
    (system_prompt : option string) (max_tokens : Z) (w w' : World)
    (o : Outcome AIResponse.t) :
  provider_generate self prompt system_prompt max_tokens w = (o, w') ->
  events w' = events w
  \/ (AIEngine.provider self = OPENAI
      /\ AIEngine.openai_client self <> None
      /\ events w'
         = (events w
            ++ [OpenAICall (openai_request self prompt system_prompt max_tokens)])%list)
  \/ (AIEngine.provider self = ANTHROPIC
      /\ AIEngine.anthropic_client self <> None
      /\ events w'
         = (events w
            ++ [AnthropicCall
                  (anthropic_request self prompt system_prompt max_tokens)])%list).
Proof.
  unfold provider_generate. destruct (AIEngine.provider self) eqn:Hp.
  - rewrite openai_generate_cases.
    destruct (AIEngine.openai_client self) as [client|];
      [|intros [= _ <-]; left; reflexivity].
    cbv zeta. intros H. right. left.
    split; [reflexivity|]. split; [discriminate|].
    destruct (client _) as [response|e];
      [destruct (openai_priced _); [destruct (nth_error _ 0)|]|];
      injection H as _ <-; reflexivity.
  - rewrite anthropic_generate_cases.
    destruct (AIEngine.anthropic_client self) as [client|];
      [|intros [= _ <-]; left; reflexivity].
    cbv zeta. intros H. right. right.
    split; [reflexivity|]. split; [discriminate|].
    destruct (client _) as [response|e];
      [destruct (anthropic_priced _); [destruct (nth_error _ 0)|]|];
      injection H as _ <-; reflexivity.
Qed.

(** X5: [generate] sends at most one request per call, and only to the
    provider the engine was built for: when that provider has no client
    or fails, the other provider is not tried, configured or not. *)
Theorem generate_contacts_only_the_selected_provider (self : AIEngine.t)
    (prompt : string) (system_prompt : option string) (max_tokens : option Z)
    (w w' : World) (o : Outcome AIResponse.t) :
  generate self prompt system_prompt max_tokens w = (o, w') ->
  let est := requested_tokens max_tokens (tracker w) in
  events w' = events w
  \/ (AIEngine.provider self = OPENAI
      /\ AIEngine.openai_client self <> None
      /\ events w'
         = (events w
            ++ [OpenAICall (openai_request self prompt system_prompt est)])%list)
  \/ (AIEngine.provider self = ANTHROPIC
      /\ AIEngine.anthropic_client self <> None
      /\ events w'
         = (events w
            ++ [AnthropicCall
                  (anthropic_request self prompt system_prompt est)])%list).
Proof.
  rewrite generate_cases. cbv zeta.
  destruct (check_limits _ w) as [[[[|] message]|e] w1] eqn:Hcheck;
    pose proof (check_limits_events _ _ _ _ Hcheck) as Hev.
  - destruct (provider_generate _ _ _ _ w1) as [o1 w2] eqn:Hgen.
    pose proof (provider_generate_events _ _ _ _ _ _ _ Hgen) as Hcall.
    rewrite Hev in Hcall.
    destruct o1; intros [= _ <-]; exact Hcall.
  - intros [= _ <-]. left. exact Hev.
  - intros [= _ <-]. left. exact Hev.
Qed.

Lemma provider_generate_usage (self : AIEngine.t) (prompt : string)
    (system_prompt : option string) (max_tokens : Z) (w w' : World)
    (o : Outcome AIResponse.t) :
  provider_generate self prompt system_prompt max_tokens w = (o, w') ->
  (tracker w' = tracker w
   /\ forall r, o = Ret r -> False)
  \/ (exists tokens cost,
        w' = recorded tokens cost
               (mkWorld (clock w) (ticks w) (tracker w) (events w'))
        /\ events w' <> events w
        /\ forall r, o = Ret r ->
             AIResponse.success r = true
             /\ AIResponse.tokens_used r = tokens
             /\ AIResponse.cost_usd r = cost).
Proof.
  unfold provider_generate. destruct (AIEngine.provider self).
  - rewrite openai_generate_cases.
    destruct (AIEngine.openai_client self) as [client|];
      [|intros [= <- <-]; left; split; [reflexivity|discriminate]].
    cbv zeta. destruct (client _) as [response|e].
    + destruct (openai_priced _);
        [|intros [= <- <-]; left; split; [reflexivity|discriminate]].
      intros H. right. eexists _, _.
      destruct (nth_error _ 0); injection H as <- <-;
        (split; [reflexivity|]);
        (split; [cbn; intros E; apply (f_equal (@List.length Event)) in E;
                 rewrite length_app in E; simpl in E; lia|]).
      * intros r [= <-]. repeat split.
      * discriminate.
    + intros [= <- <-]. left. split; [reflexivity|discriminate].
  - rewrite anthropic_generate_cases.
    destruct (AIEngine.anthropic_client self) as [client|];
      [|intros [= <- <-]; left; split; [reflexivity|discriminate]].
    cbv zeta. destruct (client _) as [response|e].
    + destruct (anthropic_priced _);
        [|intros [= <- <-]; left; split; [reflexivity|discriminate]].
      intros H. right. eexists _, _.
      destruct (nth_error _ 0); injection H as <- <-;
        (split; [reflexivity|]);
        (split; [cbn; intros E; apply (f_equal (@List.length Event)) in E;
                 rewrite length_app in E; simpl in E; lia|]).
      * intros r [= <-]. repeat split.
      * discriminate.
    + intros [= <- <-]. left. split; [reflexivity|discriminate].
Qed.

Lemma generate_returns (self : AIEngine.t) (prompt : string)
    (system_prompt : option string) (max_tokens : option Z) (w : World) :
  0 < max_requests_per_minute (tracker w) ->
  printable (max_tokens_per_hour (tracker w)) = true ->
  cost_estimable (requested_tokens max_tokens (tracker w)) = true ->
  exists r w', generate self prompt system_prompt max_tokens w = (Ret r, w').
Proof.
  intros Hmax Hprint Hcost. rewrite generate_cases.
  destruct (check_limits_returns (requested_tokens max_tokens (tracker w)) w
              Hmax Hprint Hcost)
    as (allowed & message & w1 & ->).
  destruct allowed; [|eauto].
  destruct (provider_generate _ _ _ _ w1) as [[r|e] w2]; eauto.
Qed.

(** X6: [generate] returns a response whenever [check_limits] can
    answer, that is when the ceiling of requests per minute is positive,
    the ceiling of tokens per hour has few enough digits to be printed
    (at most 4300) and the tokens asked for are few enough for their
    thousands to be a float (the quotient overflows from about 1.8e311
    tokens on). A provider that raises an [Exception], that is not
    configured, that answers without any choice or whose usage cannot be
    priced then gives a failure response, never an exception; and the
    ceilings of the tracker are as before. *)
Theorem generate_always_returns (self : AIEngine.t) (prompt : string)
    (system_prompt : option string) (max_tokens : option Z) (w : World) :
  0 < max_requests_per_minute (tracker w) ->
  printable (max_tokens_per_hour (tracker w)) = true ->
  cost_estimable (requested_tokens max_tokens (tracker w)) = true ->
  exists r w',
    generate self prompt system_prompt max_tokens w = (Ret r, w')
    /\ max_requests_per_minute (tracker w') = max_requests_per_minute (tracker w).
Proof.
  intros Hmax Hprint Hcost.
  destruct (generate_returns self prompt system_prompt max_tokens w
              Hmax Hprint Hcost)
    as (r & w' & Hgen).
  exists r, w'. split; [exact Hgen|].
  revert Hgen. rewrite generate_cases.
  destruct (check_limits _ w) as [[[[|] message]|e] w1] eqn:Hcheck;
    [| |discriminate];
    destruct (check_limits_tracker _ _ _ _ Hcheck) as (Htr & _ & _).
  - destruct (provider_generate _ _ _ _ w1) as [o1 w2] eqn:Hgen.
    destruct (provider_generate_usage _ _ _ _ _ _ _ Hgen)
      as [[Hsame _] | (tokens & cost & Hw2 & _ & _)].
    + intros H.
      assert (Hw' : w' = w2) by (destruct o1; injection H as _ <-; reflexivity).
      subst w'. rewrite Hsame, Htr. apply reset_at_max_requests.
    + intros H.
      assert (Hw' : w' = w2) by (destruct o1; injection H as _ <-; reflexivity).
      subst w'. rewrite Hw2. unfold recorded. rewrite record_usage_cases.
      cbn [snd tracker tick max_requests_per_minute]. rewrite Htr.
      apply reset_at_max_requests.
  - intros [= _ <-]. rewrite Htr. apply reset_at_max_requests.
Qed.

Lemma ExnClass_eqb_eq (a b : ExnClass) : ExnClass_eqb a b = true <-> a = b.
Proof. destruct a, b; simpl; split; intros H; try reflexivity; discriminate. Qed.

(** X7: [generate_json] catches JSONDecodeError and nothing else: when
    [generate] succeeded and the decoder raises another exception on the
    cleaned reply (RecursionError for a text nested too deeply, ValueError
    for an integer literal of too many digits), [generate_json] raises
    that exception, once the text was handed to the decoder. *)
Theorem generate_json_passes_other_decoder_errors (self : AIEngine.t)
    (prompt : string) (schema : json) (system_prompt : option string)
    (w w1 : World) (r : AIResponse.t) (e : exn) :
  generate self (json_prompt prompt schema) system_prompt None w = (Ret r, w1) ->
  AIResponse.success r = true ->
  json_loads (strip (cleaned (AIResponse.content r))) = Raise e ->
  exn_class e <> JSONDecodeError ->
  generate_json self prompt schema system_prompt w
  = (Raise e, emitted (JsonLoads (strip (cleaned (AIResponse.content r)))) w1).
Proof.
  intros Hgen Hok Hraise Hclass.
  rewrite generate_json_cases, Hgen, Hok. cbn [negb].
  unfold decoded_or_failure. rewrite Hraise.
  destruct (ExnClass_eqb (exn_class e) JSONDecodeError) eqn:E; [|reflexivity].
  apply ExnClass_eqb_eq in E. contradiction.
Qed.

(** X8: a call of [generate] records at most one request; a successful
    response reports exactly the tokens and the cost that were added to the
    lifetime totals; and a call that sent nothing to a provider recorded
    nothing. *)
Theorem generate_reports_what_it_records (self : AIEngine.t) (prompt : string)
    (system_prompt : option string) (max_tokens : option Z) (w w' : World)
    (r : AIResponse.t) :
  generate self prompt system_prompt max_tokens w = (Ret r, w') ->
  (total_requests (tracker w') = total_requests (tracker w)
   \/ total_requests (tracker w') = total_requests (tracker w) + 1)
  /\ (AIResponse.success r = true ->
      total_requests (tracker w') = total_requests (tracker w) + 1
      /\ total_tokens (tracker w')
         = total_tokens (tracker w) + AIResponse.tokens_used r
      /\ total_cost (tracker w')
         = PrimFloat.add (total_cost (tracker w)) (AIResponse.cost_usd r))
  /\ (events w' = events w ->
      total_requests (tracker w') = total_requests (tracker w)
      /\ total_tokens (tracker w') = total_tokens (tracker w)
      /\ total_cost (tracker w') = total_cost (tracker w)).
Proof.
  rewrite generate_cases.
  destruct (check_limits _ w) as [[[[|] message]|e] w1] eqn:Hcheck;
    [| |discriminate];
    destruct (check_limits_tracker _ _ _ _ Hcheck) as (Htr & _ & _);
    pose proof (check_limits_events _ _ _ _ Hcheck) as Hev;
    destruct (reset_at_totals (clock w (ticks w)) (tracker w)) as (R1 & R2 & R3);
    fold (after_reset w) in R1, R2, R3; rewrite <- Htr in R1, R2, R3.
  - destruct (provider_generate _ _ _ _ w1) as [o1 w2] eqn:Hgen.
    destruct (provider_generate_usage _ _ _ _ _ _ _ Hgen)
      as [[Hsame Hnot] | (tokens & cost & Hw2 & Hsent & Hok)].
    + destruct o1 as [r1|e]; [exfalso; exact (Hnot r1 eq_refl)|].
      intros [= <- <-]. rewrite Hsame, R1, R2, R3.
      split; [left; reflexivity|]. split; [discriminate|].
      intros _. repeat split.
    + intros H.
      assert (Hw' : w' = w2) by (destruct o1; injection H as _ <-; reflexivity).
      subst w'. rewrite Hw2. unfold recorded. rewrite record_usage_cases.
      cbn [snd tracker tick total_requests total_tokens total_cost].
      rewrite R1, R2, R3.
      split; [right; reflexivity|]. split.
      * intros Hs. destruct o1 as [r1|e].
        -- injection H as <-. destruct (Hok r1 eq_refl) as (_ & -> & ->).
           repeat split.
        -- injection H as <-. discriminate Hs.
      * intros E. exfalso. apply Hsent. rewrite Hev. exact E.
  - intros [= <- <-]. rewrite R1, R2, R3.
    split; [left; reflexivity|]. split; [discriminate|].
    intros _. repeat split.
Qed.

(** X9: [get_ai_engine] builds the engine once: a later call returns the
    same engine and changes nothing, whatever the environment has become,
    so the usage its tracker recorded is kept. *)
Theorem get_ai_engine_builds_once (env env' : Environ) (p p' : Process)
    (engine : AIEngine.t) :
  get_ai_engine env p = (Ret engine, p') ->
  get_ai_engine env' p' = (Ret engine, p')
  /\ (_engine p <> None -> p' = p).
Proof.
  unfold get_ai_engine, bind, get.
  destruct (_engine p) as [e|] eqn:He.
  - intros [= <- <-]. rewrite He. split; [reflexivity|]. reflexivity.
  - unfold in_world.
    destruct (AIEngine_init env None None (world p)) as [[e|x] w1];
      [|discriminate].
    unfold modify, ret. intros [= <- <-]. cbn. split; [reflexivity|].
    intros H. contradiction.
Qed.

End EngineExtras.

(* ================================================================== *)
(** * Further properties of the dispatcher *)
(* ================================================================== *)

Lemma AgentRole_eqb_eq (a b : AgentRole) : AgentRole_eqb a b = true <-> a = b.
Proof. destruct a, b; simpl; split; intros H; try reflexivity; discriminate. Qed.

Lemma find_role_first_match (role : AgentRole) (l : list (string * BeeInfo.t)) :
  match find_role role l with
  | Some bee_id =>
      exists before info after,
        l = (before ++ (bee_id, info) :: after)%list
        /\ BeeInfo.role info = role
        /\ Forall (fun kv => BeeInfo.role (snd kv) <> role) before
  | None => Forall (fun kv => BeeInfo.role (snd kv) <> role) l
  end.
Proof.
  induction l as [|[k info] l IH]; cbn [find_role]; [constructor|].
  destruct (AgentRole_eqb (BeeInfo.role info) role) eqn:E.
  - apply AgentRole_eqb_eq in E. exists [], info, l. repeat split; [exact E|constructor].
  - assert (Hne : BeeInfo.role info <> role).
    { intros H. apply AgentRole_eqb_eq in H. congruence. }
    destruct (find_role role l) as [bee_id|].
    + destruct IH as (before & info' & after & -> & Hrole & Hbefore).
      exists ((k, info) :: before), info', after.
      repeat split; [exact Hrole|constructor; assumption].
    + constructor; assumption.
Qed.

(** X11: [_find_bee_by_role] changes nothing and returns the identifier
    of the earliest registration that holds the role; it returns [None]
    exactly when no registration holds it. *)
Theorem find_bee_by_role_returns_earliest (role : AgentRole) (h : Hive) :
  exists found,
    _find_bee_by_role role h = (Ret found, h)
    /\ match found with
       | Some bee_id =>
           exists before info after,
             worker_bees h = (before ++ (bee_id, info) :: after)%list
             /\ BeeInfo.role info = role
             /\ Forall (fun kv => BeeInfo.role (snd kv) <> role) before
       | None =>
           Forall (fun kv => BeeInfo.role (snd kv) <> role) (worker_bees h)
       end.
Proof.
  exists (find_role role (worker_bees h)). split; [reflexivity|].
  apply find_role_first_match.
Qed.

Lemma find_role_set_fresh (role : AgentRole) (k : string) (info : BeeInfo.t)
    (l : list (string * BeeInfo.t)) :
  find_role role l = None -> BeeInfo.role info = role ->
  find_role role (dict_set k info l) = Some k.
Proof.
  intros Hnone Hrole. induction l as [|[k0 x] l IH]; cbn [dict_set find_role].
  - rewrite Hrole. destruct role; reflexivity.
  - cbn [find_role] in Hnone.
    destruct (AgentRole_eqb (BeeInfo.role x) role) eqn:E; [discriminate|].
    destruct (String.eqb k0 k) eqn:Ek; cbn [find_role].
    + apply String.eqb_eq in Ek. subst k0. rewrite Hrole.
      destruct role; reflexivity.
    + rewrite E. exact (IH Hnone).
Qed.

(** X12: [register_bee] makes the worker reachable under its identifier,
    with [route_message] as its callback and its role recorded; every
    other registration stays as it was, as do the attributes and counters
    of the queen; and when no worker held its role before, the worker is
    the one [_find_bee_by_role] returns for that role afterwards. *)
Theorem register_bee_makes_worker_reachable (b : Bee) (h : Hive) :
  exists h',
    register_bee b h = (Ret tt, h')
    /\ dict_get (HiveAgent.agent_id (bee_self b)) (worker_bees h')
       = Some (BeeInfo.mk
                 (mkBee (bee_class b)
                    (HiveAgent.set_on_message_send (Some queen_route_message)
                       (bee_self b)))
                 (HiveAgent.role (bee_self b)))
    /\ others_kept (HiveAgent.agent_id (bee_self b)) h h'
    /\ (find_role (HiveAgent.role (bee_self b)) (worker_bees h) = None ->
        _find_bee_by_role (HiveAgent.role (bee_self b)) h'
        = (Ret (Some (HiveAgent.agent_id (bee_self b))), h'))
    /\ QueenBee.self (queen h') = QueenBee.self (queen h)
    /\ QueenBee.workflows_completed (queen h')
       = QueenBee.workflows_completed (queen h)
    /\ QueenBee.workflows_failed (queen h') = QueenBee.workflows_failed (queen h).
Proof.
  eexists. split; [reflexivity|]. cbn.
  split; [apply dict_get_set_same|].
  split; [intros k Hk; apply dict_get_set_other; congruence|].
  split; [|repeat split].
  intros Hnone. unfold _find_bee_by_role, bind, get, ret. cbn.
  rewrite (find_role_set_fresh _ (HiveAgent.agent_id (bee_self b))
             (BeeInfo.mk
                (mkBee (bee_class b)
                   (HiveAgent.set_on_message_send (Some queen_route_message)
                      (bee_self b)))
                (HiveAgent.role (bee_self b))) _ Hnone eq_refl).
  reflexivity.
Qed.

(** X13: routing a message, also when it ends in an exception, leaves
    the queen and her registry as they were, for handlers that change
    nothing in the hive but the attributes of their own worker, as those
    of the repository: the attributes and the workflow counters of the
    queen, and the identifiers registered with the role recorded for
    each, are as before. *)
Theorem route_message_changes_workers_only (depth : nat)
    (message : HiveMessage.t) (h h' : Hive) (o : Outcome unit) :
  route_message depth message h = (o, h') ->
  QueenBee.self (queen h') = QueenBee.self (queen h)
  /\ QueenBee.workflows_completed (queen h')
     = QueenBee.workflows_completed (queen h)
  /\ QueenBee.workflows_failed (queen h') = QueenBee.workflows_failed (queen h)
  /\ roles (worker_bees h') = roles (worker_bees h).
Proof.
  intros Hrun.
  destruct (preserves_route_message depth message h o h' Hrun)
    as (Hself & Hcompleted & Hfailed & _ & _ & _ & _ & Hroles).
  repeat split; assumption.
Qed.

Lemma others_kept_refl (bee_id : string) (h : Hive) : others_kept bee_id h h.
Proof. intros k _. reflexivity. Qed.

Lemma others_kept_trans (bee_id : string) (h1 h2 h3 : Hive) :
  others_kept bee_id h1 h2 -> others_kept bee_id h2 h3 ->
  others_kept bee_id h1 h3.
Proof. intros H12 H23 k Hk. rewrite (H23 k Hk). exact (H12 k Hk). Qed.

Lemma others_kept_update_bee (bee_id : string) (f : HiveAgent.t -> HiveAgent.t) :
  preserves (others_kept bee_id) (update_bee bee_id f).
Proof.
  intros s o s' [= _ <-] k Hk.
  destruct (dict_get bee_id (worker_bees s)); [|reflexivity].
  cbn. apply dict_get_set_other. congruence.
Qed.

Lemma others_kept_on_bee {A} (bee_id : string) (default : A)
    (m : AgentClass -> M HiveAgent.t A) :
  preserves (others_kept bee_id) (on_bee bee_id default m).
Proof.
  intros s o s'. unfold on_bee.
  destruct (dict_get bee_id (worker_bees s)) as [info|].
  - destruct (m _ _) as [o' a']. intros [= _ <-] k Hk.
    cbn. apply dict_get_set_other. congruence.
  - intros [= _ <-]. apply others_kept_refl.
Qed.

Lemma others_kept_handled (bee_id : string) (message : HiveMessage.t) :
  preserves (others_kept bee_id) (handled bee_id message).
Proof.
  unfold handled.
  apply (preserves_bind _ (others_kept_trans bee_id));
    [apply others_kept_update_bee|intros _].
  apply (preserves_bind _ (others_kept_trans bee_id));
    [apply others_kept_update_bee|intros _].
  apply others_kept_on_bee.
Qed.

Lemma route_message_unregistered (depth : nat) (message : HiveMessage.t)
    (h : Hive) :
  dict_has (HiveMessage.receiver message) (worker_bees h) = false ->
  route_message (S depth) message h = (Ret tt, h).
Proof.
  intros Hhas. cbn [route_message]. unfold bind, get. rewrite Hhas. reflexivity.
Qed.

Lemma route_message_registered (depth : nat) (message : HiveMessage.t)
    (h : Hive) :
  dict_has (HiveMessage.receiver message) (worker_bees h) = true ->
  route_message (S depth) message h
  = receive_message (route_message depth) (HiveMessage.receiver message)
      message h.
Proof.
  intros Hhas. cbn [route_message]. unfold bind, get. rewrite Hhas. reflexivity.
Qed.

(** X14: a message routed to a registered worker whose handler returns,
    with no response or with a response for a receiver that is not
    registered (as the replies to the queen are), is delivered to that
    worker only: it ends idle, as its handler left it but for one more
    message sent when there was a response; every other registration is
    untouched, and the response reaches no one. *)
Theorem route_message_delivers_to_receiver (depth : nat)
    (message : HiveMessage.t) (h : Hive) (info : BeeInfo.t)
    (response : option HiveMessage.t) (a2 : HiveAgent.t) :
  dict_get (HiveMessage.receiver message) (worker_bees h) = Some info ->
  process_message (bee_class (BeeInfo.bee info)) message
    (HiveAgent.set_state THINKING
       (HiveAgent.set_messages_received
          (HiveAgent.messages_received (bee_self (BeeInfo.bee info)) + 1)
          (bee_self (BeeInfo.bee info))))
  = (Ret response, a2) ->
  (forall r, response = Some r ->
     dict_has (HiveMessage.receiver r) (worker_bees h) = false) ->
  exists h',
    route_message (S (S depth)) message h = (Ret tt, h')
    /\ dict_get (HiveMessage.receiver message) (worker_bees h')
       = Some (BeeInfo.mk
                 (mkBee (bee_class (BeeInfo.bee info))
                    (after_receive response a2))
                 (BeeInfo.role info))
    /\ others_kept (HiveMessage.receiver message) h h'.
Proof.
  intros Hget Hproc Hreply.
  rewrite route_message_registered by (unfold dict_has; rewrite Hget; reflexivity).
  set (bee_id := HiveMessage.receiver message) in *.
  rewrite receive_message_after_handled.
  destruct (handled bee_id message h) as [o h1] eqn:Hhandled.
  destruct (handled_cases _ _ _ _ _ _ Hget Hhandled) as [Ho Hget1].
  cbv zeta in Ho, Hget1. rewrite Hproc in Ho, Hget1. cbn [fst snd] in Ho, Hget1.
  subst o.
  pose proof (others_kept_handled bee_id message _ _ _ Hhandled) as Hkept1.
  assert (Hfinish : forall h2 a3,
            dict_get bee_id (worker_bees h2)
            = Some (BeeInfo.mk (mkBee (bee_class (BeeInfo.bee info)) a3)
                               (BeeInfo.role info)) ->
            others_kept bee_id h h2 ->
            exists h',
              update_bee bee_id (HiveAgent.set_state IDLE) h2 = (Ret tt, h')
              /\ dict_get bee_id (worker_bees h')
                 = Some (BeeInfo.mk
                           (mkBee (bee_class (BeeInfo.bee info))
                              (HiveAgent.set_state IDLE a3))
                           (BeeInfo.role info))
              /\ others_kept bee_id h h').
  { intros h2 a3 Hget2 Hkept2.
    destruct (update_bee_registered bee_id (HiveAgent.set_state IDLE) h2 _ Hget2)
      as (h3 & Hupd & Hget3).
    exists h3. split; [exact Hupd|]. split; [exact Hget3|].
    apply (others_kept_trans _ _ _ _ Hkept2).
    exact (others_kept_update_bee _ _ _ _ _ Hupd). }
  destruct response as [r|].
  - assert (Hr : bee_id <> HiveMessage.receiver r).
    { intros E. specialize (Hreply r eq_refl). unfold dict_has in Hreply.
      rewrite <- E, Hget in Hreply. discriminate. }
    assert (Hr1 : dict_has (HiveMessage.receiver r) (worker_bees h1) = false).
    { unfold dict_has. rewrite (Hkept1 _ (not_eq_sym Hr)).
      exact (Hreply r eq_refl). }
    unfold bind at 1. unfold send_message. unfold bind at 1. unfold get at 1.
    rewrite Hget1. cbn [BeeInfo.bee bee_self].
    assert (Hrouted :
              (match HiveAgent.on_message_send a2 with
               | Some queen_route_message =>
                   route_message (S depth)
                     (HiveMessage.set_sender (HiveAgent.agent_id a2) r)
               | None => ret tt
               end) h1 = (Ret tt, h1)).
    { destruct (HiveAgent.on_message_send a2) as [[]|]; [|reflexivity].
      apply route_message_unregistered. exact Hr1. }
    unfold bind at 1. rewrite Hrouted.
    destruct (update_bee_registered bee_id
                (fun a => HiveAgent.set_messages_sent
                            (HiveAgent.messages_sent a + 1) a) h1 _ Hget1)
      as (h2 & Hupd & Hget2).
    rewrite Hupd. cbn [BeeInfo.bee bee_class bee_self BeeInfo.role] in Hget2.
    apply (Hfinish h2 _ Hget2).
    apply (others_kept_trans _ _ _ _ Hkept1).
    exact (others_kept_update_bee _ _ _ _ _ Hupd).
  - unfold bind at 1. unfold ret at 1.
    exact (Hfinish h1 a2 Hget1 Hkept1).
Qed.

Section WorkflowExtras.
Context {rt : PyRuntime}.

Lemma shopper_step_queen_self (depth : nat) (bee_id : string)
    (data : list (string * json)) (h h3 : Hive) (o : Outcome unit) :
  shopper_step depth bee_id data h = (o, h3) ->
  QueenBee.self (queen h3) = QueenBee.self (queen h).
Proof.
  unfold shopper_step. unfold bind at 1. unfold get at 1. unfold bind at 1.
  destruct (HiveMessage_new _ _ _ _ h) as [[m|e] h2] eqn:Hnew.
  - injection Hnew as _ <-. intros Hroute.
    exact (proj1 (preserves_route_message _ _ _ _ _ Hroute)).
  - discriminate Hnew.
Qed.

(** The campaign workflow with both workers, once the shopper has a task
    completed. *)
Lemma full_campaign_with_both (depth : nat) (data : list (string * json))
    (h h3 h5 : Hive) (shopper_bee_id ad_bee_id : string) (a1 a2 : HiveAgent.t) :
  find_role SHOPPER_BEE (worker_bees h) = Some shopper_bee_id ->
  shopper_bee_id <> "" ->
  shopper_step depth shopper_bee_id data h = (Ret tt, h3) ->
  worker shopper_bee_id h3 = Some a1 ->
  HiveAgent.tasks_completed a1 <> 0 ->
  find_role AD_BEE (worker_bees h) = Some ad_bee_id ->
  ad_bee_id <> "" ->
  ad_step depth ad_bee_id data h3 = (Ret tt, h5) ->
  worker ad_bee_id h5 = Some a2 ->
  _full_campaign_workflow depth data h
  = (Ret (if HiveAgent.tasks_completed a2 =? 0
          then [("success", JBool false);
                ("error", JString "Campaign creation failed")]
          else [("success", JBool true);
                ("message", JString "Complete workflow executed");
                ("bees_involved",
                 JArray [JString shopper_bee_id; JString ad_bee_id])]),
     h5).
Proof.
  intros Hshopper Hid Hstep Hworker Hdone Had Hadid Hadstep Hadworker.
  pose proof (preserves_shopper_step _ _ _ _ _ _ Hstep) as (_ & _ & _ & Hroles).
  pose proof (shopper_step_queen_self _ _ _ _ _ _ Hstep) as Hself.
  unfold _full_campaign_workflow, _find_bee_by_role.
  unfold bind at 1. unfold bind at 1. unfold get at 1. unfold ret at 1.
  rewrite Hshopper. cbn [truthy or_empty].
  destruct (String.eqb shopper_bee_id "") eqn:E;
    [apply String.eqb_eq in E; contradiction|].
  cbn [negb].
  unfold shopper_step in Hstep.
  unfold bind at 1. unfold get at 1.
  unfold bind at 1 in Hstep. unfold get at 1 in Hstep.
  unfold bind at 1. unfold bind at 1 in Hstep.
  destruct (HiveMessage_new _ _ _ _ h) as [[m|e] h2]; [|discriminate].
  unfold bind at 1. rewrite Hstep.
  unfold bind at 1. unfold asyncio_sleep at 1. unfold ret at 1.
  unfold bind at 1. unfold bee_tasks_completed at 1.
  unfold bind at 1. unfold get at 1.
  unfold worker in Hworker.
  destruct (dict_get shopper_bee_id (worker_bees h3)) as [info|]; [|discriminate].
  injection Hworker as Ha. rewrite Ha. unfold ret at 1.
  destruct (HiveAgent.tasks_completed a1 =? 0) eqn:E0;
    [apply Z.eqb_eq in E0; contradiction|].
  unfold bind at 1. unfold bind at 1. unfold get at 1. unfold ret at 1.
  rewrite (find_role_by_roles AD_BEE _ _ Hroles), Had. cbn [truthy or_empty].
  destruct (String.eqb ad_bee_id "") eqn:E1;
    [apply String.eqb_eq in E1; contradiction|].
  cbn [negb].
  unfold ad_step in Hadstep.
  unfold bind at 1 in Hadstep. unfold get at 1 in Hadstep.
  rewrite Hself in Hadstep.
  unfold bind at 1. unfold bind at 1 in Hadstep.
  destruct (HiveMessage_new _ _ _ _ h3) as [[m'|e] h4]; [|discriminate].
  unfold bind at 1. rewrite Hadstep.
  unfold bind at 1. unfold asyncio_sleep at 1. unfold ret at 1.
  unfold bind at 1. unfold bee_tasks_completed at 1.
  unfold bind at 1. unfold get at 1.
  unfold worker in Hadworker.
  destruct (dict_get ad_bee_id (worker_bees h5)) as [info'|]; [|discriminate].
  injection Hadworker as Ha'. rewrite Ha'. unfold ret at 1.
  destruct (HiveAgent.tasks_completed a2 =? 0); reflexivity.
Qed.

(** X15: a campaign whose two steps return is judged by the lifetime
    counters of the two workers, not by what the steps did: when, after
    its step, the shopper has some task completed, the campaign succeeds
    exactly when the ad worker has some task completed after its own step.
    It then names both workers and counts as a completed workflow;
    otherwise it fails with "Campaign creation failed" and counts as a
    failed one. Either way the result carries the identifier and the
    elapsed time, and the hive is as the second step left it. *)
Theorem campaign_judged_by_completed_counters (depth : nat)
    (data : list (string * json)) (h h3 h5 : Hive)
    (shopper_bee_id ad_bee_id : string) (a1 a2 : HiveAgent.t) :
  find_role SHOPPER_BEE (worker_bees h) = Some shopper_bee_id ->
  shopper_bee_id <> "" ->
  shopper_step depth shopper_bee_id data (workflow_started h) = (Ret tt, h3) ->
  worker shopper_bee_id h3 = Some a1 ->
  HiveAgent.tasks_completed a1 <> 0 ->
  find_role AD_BEE (worker_bees h) = Some ad_bee_id ->
  ad_bee_id <> "" ->
  ad_step depth ad_bee_id data h3 = (Ret tt, h5) ->
  worker ad_bee_id h5 = Some a2 ->
  execute_workflow depth "full_ad_campaign" data h
  = if HiveAgent.tasks_completed a2 =? 0
    then (Ret (failed_result "Campaign creation failed" h h5),
          workflow_counted false 1 h5)
    else (Ret (campaign_result shopper_bee_id ad_bee_id h h5),
          workflow_counted true 1 h5).
Proof.
  intros Hshopper Hid Hstep Hworker Hdone Had Hadid Hadstep Hadworker.
  rewrite execute_workflow_cases. unfold workflow_of_type.
  cbn [String.eqb Ascii.eqb Bool.eqb].
  rewrite (full_campaign_with_both depth data (workflow_started h) h3 h5
             shopper_bee_id ad_bee_id a1 a2); try assumption.
  destruct (HiveAgent.tasks_completed a2 =? 0); reflexivity.
Qed.

(** X16: a workflow type other than "full_ad_campaign" builds no message
    and reaches no worker: the result is the failure "Unknown workflow"
    with the identifier and the elapsed time, and the hive differs only by
    one more failed workflow and three readings of the clock. *)
Theorem unknown_workflow_reaches_no_worker (depth : nat)
    (workflow_type : string) (data : list (string * json)) (h : Hive) :
  workflow_type <> "full_ad_campaign" ->
  execute_workflow depth workflow_type data h
  = (Ret (failed_result "Unknown workflow" h (workflow_started h)),
     workflow_counted false 1 (workflow_started h))
  /\ worker_bees (workflow_counted false 1 (workflow_started h)) = worker_bees h
  /\ uuid_count (workflow_counted false 1 (workflow_started h)) = uuid_count h
  /\ hive_ticks (workflow_counted false 1 (workflow_started h))
     = (3 + hive_ticks h)%nat.
Proof.
  intros Htype. rewrite execute_workflow_cases. unfold workflow_of_type.
  destruct (String.eqb workflow_type "full_ad_campaign") eqn:E;
    [apply String.eqb_eq in E; contradiction|].
  repeat split.
Qed.

End WorkflowExtras.

(* ================================================================== *)
(** * Properties of the engine with memory *)
(* ================================================================== *)

Section DequeFacts.
Context {A : Type}.

Lemma last_n_all (n : nat) (l : list A) :
  (List.length l <= n)%nat -> last_n n l = l.
Proof.
  intros H. unfold last_n. replace (List.length l - n)%nat with 0%nat by lia.
  reflexivity.
Qed.

Lemma last_n_length (n : nat) (l : list A) :
  List.length (last_n n l) = Nat.min n (List.length l).
Proof. unfold last_n. rewrite length_skipn. lia. Qed.

Lemma last_n_app (n : nat) (l r : list A) :
  last_n n (last_n n l ++ r) = last_n n (l ++ r).
Proof.
  unfold last_n. rewrite !length_app, !skipn_app, !length_skipn, skipn_skipn.
  f_equal; f_equal; lia.
Qed.

Lemma tl_skipn (l : list A) : tl l = skipn 1 l.
Proof. destruct l; reflexivity. Qed.

(** One [append]: the deque holds the last items its bound allows. *)
Lemma deque_append_window (x : A) (d : deque A) :
  within_bound d ->
  deque_items (deque_append x d)
  = last_n (Z.to_nat (deque_maxlen d)) (deque_items d ++ [x])
  /\ within_bound (deque_append x d).
Proof.
  intros [Hmax Hlen]. unfold deque_append, within_bound.
  cbn [deque_items deque_maxlen]. unfold last_n.
  rewrite length_app. cbn [List.length].
  destruct (deque_maxlen d <? _) eqn:E.
  - apply Z.ltb_lt in E. rewrite tl_skipn.
    replace (List.length (deque_items d) + 1 - Z.to_nat (deque_maxlen d))%nat
      with 1%nat by lia.
    split; [reflexivity|]. split; [exact Hmax|].
    rewrite length_skipn, length_app. cbn [List.length]. lia.
  - apply Z.ltb_ge in E.
    replace (List.length (deque_items d) + 1 - Z.to_nat (deque_maxlen d))%nat
      with 0%nat by lia.
    split; [reflexivity|]. split; [exact Hmax|].
    rewrite length_app. cbn [List.length]. exact E.
Qed.

Lemma deque_extend_window (l : list A) (d : deque A) :
  within_bound d ->
  deque_items (fold_left (fun d x => deque_append x d) l d)
  = last_n (Z.to_nat (deque_maxlen d)) (deque_items d ++ l)
  /\ deque_maxlen (fold_left (fun d x => deque_append x d) l d)
     = deque_maxlen d.
Proof.
  revert d. induction l as [|x l IH]; intros d Hb.
  - cbn [fold_left]. rewrite app_nil_r. split; [|reflexivity].
    symmetry. apply last_n_all. destruct Hb. lia.
  - cbn [fold_left].
    destruct (deque_append_window x d Hb) as [Hitems Hb'].
    destruct (IH _ Hb') as [-> ->]. cbn [deque_append deque_maxlen].
    split; [|reflexivity].
    rewrite Hitems, last_n_app, <- app_assoc. reflexivity.
Qed.

Lemma deque_append_maxlen (x : A) (d : deque A) :
  deque_maxlen (deque_append x d) = deque_maxlen d.
Proof. reflexivity. Qed.

End DequeFacts.

Section MemoryFacts.
Context {rt : PyRuntime}.

Lemma add_turn_said (role content : json) (metadata : option json)
    (now : datetime) (c : ConversationMemory.t) :
  within_bound (ConversationMemory.turns c) ->
  said (add_turn role content metadata now c)
  = last_n (Z.to_nat (deque_maxlen (ConversationMemory.turns c)))
      (said c ++ [(role, content)])
  /\ within_bound (ConversationMemory.turns (add_turn role content metadata now c))
  /\ deque_maxlen (ConversationMemory.turns (add_turn role content metadata now c))
     = deque_maxlen (ConversationMemory.turns c).
Proof.
  intros Hb. unfold add_turn, said.
  cbn [ConversationMemory.set_turns ConversationMemory.turns].
  destruct (deque_append_window
              (ConversationTurn.mk role content (JString (isoformat now))
                 (if json_truthy metadata
                  then match metadata with Some m => m | None => JObject [] end
                  else JObject []))
              (ConversationMemory.turns c) Hb) as [-> Hb'].
  split; [|split; [exact Hb'|reflexivity]].
  unfold last_n. rewrite <- skipn_map, map_app, !length_app, length_map.
  reflexivity.
Qed.

(** X17: a conversation is a sliding window: after any sequence of
    [add_turn] calls it holds, in order, the latest turns that fit its
    bound, the older ones having been dropped, and never more than the
    bound allows. *)
Theorem memory_keeps_latest_turns (entries : list (json * json * datetime))
    (c : ConversationMemory.t) :
  within_bound (ConversationMemory.turns c) ->
  said (add_turns entries c)
  = last_n (Z.to_nat (deque_maxlen (ConversationMemory.turns c)))
      (said c ++ map fst entries)
  /\ within_bound (ConversationMemory.turns (add_turns entries c)).
Proof.
  revert c. induction entries as [|[[role content] now] entries IH]; intros c Hb.
  - cbn [add_turns fold_left map]. rewrite app_nil_r. split; [|exact Hb].
    symmetry. apply last_n_all. unfold said. rewrite length_map.
    destruct Hb. lia.
  - change (add_turns (((role, content), now) :: entries) c)
      with (add_turns entries (add_turn role content None now c)).
    destruct (add_turn_said role content None now c Hb) as (Hsaid & Hb' & Hmax).
    destruct (IH _ Hb') as [-> Hb''].
    split; [|exact Hb''].
    rewrite Hmax, Hsaid, last_n_app, <- app_assoc. reflexivity.
Qed.

Lemma slice_from_last (n : Z) (l : list ConversationTurn.t) :
  0 < n -> slice_from (- n) l = last_n (Z.to_nat n) l.
Proof.
  intros Hn. unfold slice_from, last_n.
  destruct (- n <? 0) eqn:E; [|apply Z.ltb_ge in E; lia].
  f_equal. lia.
Qed.

(** X18: [get_recent_context(n)] returns the last [n] turns, or all of
    them when there are fewer, for a positive [n]; for [n = 0] it returns
    every turn, not none. *)
Theorem recent_context_is_a_suffix (n : Z) (c : ConversationMemory.t) :
  (0 < n ->
   get_recent_context n c
   = last_n (Z.to_nat n) (deque_items (ConversationMemory.turns c)))
  /\ get_recent_context 0 c = deque_items (ConversationMemory.turns c).
Proof.
  split.
  - intros Hn. apply slice_from_last. exact Hn.
  - unfold get_recent_context, slice_from. cbn.
    destruct (List.length _); reflexivity.
Qed.

End MemoryFacts.

Section ChatFacts.
Context {rt : PyRuntime}.

Lemma session_add_turn_registered (session_id : string) (role content : json)
    (s : Enhanced) (c : ConversationMemory.t) :
  dict_get session_id (conversations s) = Some c ->
  session_add_turn session_id role content s
  = (Ret tt,
     mkEnhanced (base_world s)
       (dict_set session_id
          (add_turn role content None (utc_clock s (utc_ticks s)) c)
          (conversations s))
       (utc_clock s) (S (utc_ticks s)) (db_updates s)).
Proof.
  intros Hget. unfold session_add_turn, bind, datetime_utcnow, get.
  cbn [conversations]. rewrite Hget. reflexivity.
Qed.

(** Saving a conversation returns whatever the collection does. *)
Lemma save_conversation_returns (db : AgentMemory) (session_id : string)
    (c : ConversationMemory.t) (s : Enhanced) :
  _save_conversation db session_id c s
  = (Ret tt,
     mkEnhanced (base_world s) (conversations s) (utc_clock s)
       (S (utc_ticks s))
       (db_updates s
        ++ [mkUpdateOne session_id (to_dict c) (utc_clock s (utc_ticks s))])).
Proof.
  unfold _save_conversation, try_except, bind, datetime_utcnow, get,
    log_update, modify, lift_outcome, ret.
  cbn [db_updates base_world conversations utc_clock utc_ticks].
  destruct (update_one db _ _) as [[]|e]; reflexivity.
Qed.

Lemma session_opened_conversation (session_id : string) (s : Enhanced) :
  dict_get session_id (conversations (session_opened session_id s))
  = Some (session_conversation session_id s).
Proof.
  unfold session_opened, session_conversation.
  destruct (dict_get session_id (conversations s)) as [c|] eqn:E.
  - exact E.
  - cbn [conversations]. apply dict_get_set_same.
Qed.

Lemma session_opened_base (session_id : string) (s : Enhanced) :
  base_world (session_opened session_id s) = base_world s.
Proof.
  unfold session_opened. destruct (dict_get _ _); reflexivity.
Qed.

Lemma generate_default_tokens (self : AIEngine.t) (prompt : string)
    (system_prompt : option string) (w : World) :
  generate self prompt system_prompt (Some (max_tokens_per_request (tracker w))) w
  = generate self prompt system_prompt None w.
Proof. reflexivity. Qed.

Lemma chat_cases (db : AgentMemory) (self : AIEngine.t) (prompt : string)
    (session_id : string) (system_prompt : option string) (save_to_db : bool)
    (s : Enhanced) :
  chat db self prompt session_id system_prompt save_to_db s =
  let s1 := session_opened session_id s in
  match generate self prompt system_prompt None (base_world s) with
  | (Ret r, w) =>
      if AIResponse.success r
      then (Ret r,
            exchange_recorded session_id prompt (AIResponse.content r)
              save_to_db w (session_conversation session_id s) s1)
      else (Ret r,
            mkEnhanced w (conversations s1) (utc_clock s1) (utc_ticks s1)
              (db_updates s1))
  | (Raise e, w) =>
      (Raise e,
       mkEnhanced w (conversations s1) (utc_clock s1) (utc_ticks s1)
         (db_updates s1))
  end.
Proof.
  cbv zeta. unfold chat.
  unfold bind at 1. unfold get at 1.
  assert (Hopen :
    (if negb (dict_has session_id (conversations s))
     then
       c <- ConversationMemory_new ;;
       set_conversations (dict_set session_id c (conversations s))
     else ret tt) s = (Ret tt, session_opened session_id s)).
  { unfold dict_has, session_opened.
    destruct (dict_get session_id (conversations s)); reflexivity. }
  unfold bind at 1. rewrite Hopen.
  unfold bind at 1. unfold get at 1.
  unfold bind at 1. rewrite session_opened_conversation. unfold ret at 1.
  unfold bind at 1. unfold in_base at 1. unfold get_tracker at 1.
  cbn [base_world conversations utc_clock utc_ticks db_updates fst snd].
  unfold bind at 1. unfold in_base at 1.
  cbn [base_world conversations utc_clock utc_ticks db_updates].
  rewrite generate_default_tokens, session_opened_base.
  set (s1 := session_opened session_id s).
  destruct (generate self prompt system_prompt None (base_world s))
    as [[r|e] w]; [|reflexivity].
  unfold bind at 1.
  destruct (AIResponse.success r); [|reflexivity].
  unfold bind at 1.
  rewrite (session_add_turn_registered session_id _ _ _
             (session_conversation session_id s))
    by (cbn [conversations]; apply session_opened_conversation).
  cbn [base_world conversations utc_clock utc_ticks db_updates].
  unfold bind at 1.
  rewrite (session_add_turn_registered session_id _ _ _
             (add_turn (JString "user") (JString prompt) None
                (utc_clock s1 (utc_ticks s1))
                (session_conversation session_id s)))
    by (cbn [conversations]; apply dict_get_set_same).
  cbn [base_world conversations utc_clock utc_ticks db_updates].
  unfold exchange_recorded. cbv zeta.
  destruct save_to_db; [|reflexivity].
  unfold bind at 1. unfold get at 1.
  cbn [conversations]. rewrite dict_get_set_same.
  rewrite save_conversation_returns. reflexivity.
Qed.

(** X19: [chat] asks the model exactly what [generate] would be asked
    with the prompt alone: the history of the session is collected but not
    sent, so the response, the request that reaches the provider and the
    usage recorded do not depend on what was said before. *)
Theorem chat_sends_the_prompt_alone (db : AgentMemory) (self : AIEngine.t)
    (prompt : string) (session_id : string) (system_prompt : option string)
    (save_to_db : bool) (s : Enhanced) :
  (fst (chat db self prompt session_id system_prompt save_to_db s),
   base_world (snd (chat db self prompt session_id system_prompt save_to_db s)))
  = generate self prompt system_prompt None (base_world s).
Proof.
  rewrite chat_cases. cbv zeta.
  destruct (generate self prompt system_prompt None (base_world s))
    as [[r|e] w]; [|reflexivity].
  destruct (AIResponse.success r); [|reflexivity].
  unfold exchange_recorded. destruct save_to_db; reflexivity.
Qed.

Lemma other_sessions_kept_opened (session_id : string) (s : Enhanced) :
  other_sessions_kept session_id s (session_opened session_id s).
Proof.
  intros k Hk. unfold session_opened.
  destruct (dict_get session_id (conversations s)); [reflexivity|].
  cbn [conversations]. apply dict_get_set_other. congruence.
Qed.

Lemma session_opened_clock (session_id : string) (s : Enhanced) :
  utc_clock (session_opened session_id s) = utc_clock s
  /\ db_updates (session_opened session_id s) = db_updates s.
Proof.
  unfold session_opened. destruct (dict_get _ _); split; reflexivity.
Qed.

(** X20: a [chat] that returns a successful response adds to the session
    the prompt as a turn of the user and then the reply as a turn of the
    assistant; one that returns a failure leaves the session as it was, or
    creates it empty. No other session changes, and at most one update is
    sent to the collection, only after a success with [save_to_db]. *)
Theorem chat_records_successful_exchanges (db : AgentMemory)
    (self : AIEngine.t) (prompt : string) (session_id : string)
    (system_prompt : option string) (save_to_db : bool) (s s' : Enhanced)
    (r : AIResponse.t) :
  chat db self prompt session_id system_prompt save_to_db s = (Ret r, s') ->
  let c0 := session_conversation session_id s in
  let t := utc_ticks (session_opened session_id s) in
  let c' :=
    if AIResponse.success r
    then with_exchange prompt (AIResponse.content r) (utc_clock s) t c0
    else c0 in
  dict_get session_id (conversations s') = Some c'
  /\ other_sessions_kept session_id s s'
  /\ db_updates s'
     = (db_updates s
        ++ if AIResponse.success r && save_to_db
           then [mkUpdateOne session_id (to_dict c') (utc_clock s (2 + t)%nat)]
           else [])%list.
Proof.
  rewrite chat_cases. cbv zeta.
  pose proof (other_sessions_kept_opened session_id s) as Hkept.
  pose proof (session_opened_conversation session_id s) as Hget.
  pose proof (session_opened_clock session_id s) as [Hclock Hupd].
  destruct (generate self prompt system_prompt None (base_world s))
    as [[r0|e] w]; [|discriminate].
  destruct (AIResponse.success r0) eqn:Hs.
  - intros [= <- <-]. rewrite Hs. unfold exchange_recorded, with_exchange.
    cbv zeta. rewrite Hclock, Hupd.
    destruct save_to_db; cbn [conversations db_updates andb];
      (split; [apply dict_get_set_same|]);
      (split; [|try rewrite app_nil_r; reflexivity]);
      intros k Hk; cbn [conversations];
      rewrite !dict_get_set_other by congruence;
      exact (Hkept k Hk).
  - intros [= <- <-]. rewrite Hs. cbn [conversations db_updates andb].
    rewrite Hupd, app_nil_r.
    split; [exact Hget|]. split; [exact Hkept|reflexivity].
Qed.

(** X21: [chat] returns a response whenever [check_limits] can answer,
    also when the collection raises an [Exception] as the conversation is
    saved: the ceiling of requests per minute is positive, the ceiling of tokens per
    hour has few enough digits to be printed (at most 4300) and the
    per-request limit, which [chat] asks for, is small enough for its
    thousands to be a float (the quotient overflows from about 1.8e311
    tokens on). *)
Theorem chat_always_returns (db : AgentMemory) (self : AIEngine.t)
    (prompt : string) (session_id : string) (system_prompt : option string)
    (save_to_db : bool) (s : Enhanced) :
  0 < max_requests_per_minute (tracker (base_world s)) ->
  printable (max_tokens_per_hour (tracker (base_world s))) = true ->
  cost_estimable (max_tokens_per_request (tracker (base_world s))) = true ->
  exists r s',
    chat db self prompt session_id system_prompt save_to_db s = (Ret r, s').
Proof.
  intros Hmax Hprint Hcost. rewrite chat_cases. cbv zeta.
  destruct (generate_returns self prompt system_prompt None (base_world s)
              Hmax Hprint Hcost)
    as (r & w & ->).
  destruct (AIResponse.success r); eauto.
Qed.

Lemma fresh_conversation_within_bound (now : datetime) :
  within_bound (ConversationMemory.turns (fresh_conversation now)).
Proof. split; cbn; lia. Qed.

(** X22: [chat] keeps the memory bounded: when every conversation of the
    engine is within the bound of its deque, so is every conversation
    after the call, however it ends. *)
Theorem chat_keeps_sessions_within_bound (db : AgentMemory)
    (self : AIEngine.t) (prompt : string) (session_id : string)
    (system_prompt : option string) (save_to_db : bool) (s s' : Enhanced)
    (o : Outcome AIResponse.t) :
  sessions_within_bound s ->
  chat db self prompt session_id system_prompt save_to_db s = (o, s') ->
  sessions_within_bound s'.
Proof.
  intros Hb. rewrite chat_cases. cbv zeta.
  assert (Hc0 : within_bound
                  (ConversationMemory.turns (session_conversation session_id s))).
  { unfold session_conversation.
    destruct (dict_get session_id (conversations s)) as [c|] eqn:E.
    - exact (Hb _ _ E).
    - apply fresh_conversation_within_bound. }
  assert (Hopened : sessions_within_bound (session_opened session_id s)).
  { intros k c Hget.
    destruct (String.eqb k session_id) eqn:E.
    - apply String.eqb_eq in E. subst k.
      rewrite session_opened_conversation in Hget. injection Hget as <-.
      exact Hc0.
    - apply String.eqb_neq in E.
      rewrite (other_sessions_kept_opened session_id s k E) in Hget.
      exact (Hb _ _ Hget). }
  assert (Hframe : forall w s2,
            s2 = mkEnhanced w (conversations (session_opened session_id s))
                   (utc_clock (session_opened session_id s))
                   (utc_ticks (session_opened session_id s))
                   (db_updates (session_opened session_id s)) ->
            sessions_within_bound s2).
  { intros w s2 ->. exact Hopened. }
  destruct (generate self prompt system_prompt None (base_world s))
    as [[r|e] w]; [|intros [= _ <-]; exact (Hframe _ _ eq_refl)].
  destruct (AIResponse.success r);
    [|intros [= _ <-]; exact (Hframe _ _ eq_refl)].
  intros [= _ <-] k c.
  destruct (add_turn_said (JString "user") (JString prompt) None
              (utc_clock (session_opened session_id s)
                 (utc_ticks (session_opened session_id s)))
              _ Hc0) as (_ & Hc1 & _).
  destruct (add_turn_said (JString "assistant")
              (JString (AIResponse.content r)) None
              (utc_clock (session_opened session_id s)
                 (S (utc_ticks (session_opened session_id s))))
              _ Hc1) as (_ & Hc2 & _).
  assert (Hl : dict_get k
                 (dict_set session_id
                    (add_turn (JString "assistant")
                       (JString (AIResponse.content r)) None
                       (utc_clock (session_opened session_id s)
                          (S (utc_ticks (session_opened session_id s))))
                       (add_turn (JString "user") (JString prompt) None
                          (utc_clock (session_opened session_id s)
                             (utc_ticks (session_opened session_id s)))
                          (session_conversation session_id s)))
                    (dict_set session_id
                       (add_turn (JString "user") (JString prompt) None
                          (utc_clock (session_opened session_id s)
                             (utc_ticks (session_opened session_id s)))
                          (session_conversation session_id s))
                       (conversations (session_opened session_id s))))
               = Some c ->
               within_bound (ConversationMemory.turns c)).
  { destruct (String.eqb k session_id) eqn:E.
    - apply String.eqb_eq in E. subst k. rewrite dict_get_set_same.
      intros [= <-]. exact Hc2.
    - apply String.eqb_neq in E.
      rewrite !dict_get_set_other by congruence. apply Hopened. }
  unfold exchange_recorded. cbv zeta. destruct save_to_db; exact Hl.
Qed.

Lemma restore_turns_stored (l : list ConversationTurn.t)
    (c : ConversationMemory.t) (s : Enhanced) :
  restore_turns (map turn_to_dict l) c s
  = (Ret (ConversationMemory.set_turns
            (fold_left (fun d x => deque_append x d) l
               (ConversationMemory.turns c)) c),
     s).
Proof.
  revert c. induction l as [|turn l IH]; intros c.
  - destruct c as [a b d e f]. reflexivity.
  - cbn [map restore_turns]. unfold turn_to_dict at 1. cbn [as_dict].
    unfold dict_getitem, get_or.
    cbn [dict_get String.eqb Ascii.eqb Bool.eqb].
    unfold bind at 1. unfold ret at 1.
    unfold bind at 1. unfold ret at 1.
    unfold bind at 1. unfold ret at 1.
    rewrite IH. destruct turn, c. reflexivity.
Qed.

(** X23: [load_conversation] restores what [to_dict] stored: when the
    collection finds a document whose conversation is the dictionary of
    [c], the call returns a conversation with the identifier and the
    metadata of [c] and with its turns, all of them when [c] held at most
    ten and the last ten otherwise, and puts it under the session; no
    other session changes. *)
Theorem load_restores_stored_conversation (db : AgentMemory)
    (session_id : string) (s : Enhanced) (doc : list (string * json))
    (c : ConversationMemory.t) :
  find_one db (db_updates s) session_id = Ret (Some doc) ->
  dict_get "conversation" doc = Some (to_dict c) ->
  exists c' s',
    load_conversation db session_id s = (Ret (Some c'), s')
    /\ ConversationMemory.conversation_id c' = ConversationMemory.conversation_id c
    /\ ConversationMemory.metadata c' = ConversationMemory.metadata c
    /\ deque_items (ConversationMemory.turns c')
       = last_n 10 (deque_items (ConversationMemory.turns c))
    /\ dict_get session_id (conversations s') = Some c'
    /\ other_sessions_kept session_id s s'
    /\ base_world s' = base_world s.
Proof.
  intros Hfind Hdoc.
  unfold load_conversation, try_except.
  unfold bind at 1. unfold get at 1.
  unfold bind at 1. unfold lift_outcome at 1. rewrite Hfind.
  unfold dict_has. rewrite Hdoc.
  unfold bind at 1. unfold ConversationMemory_new at 1.
  unfold bind at 1. unfold datetime_utcnow at 1. unfold ret at 1.
  unfold bind at 1. unfold dict_getitem at 1. rewrite Hdoc. unfold ret at 1.
  unfold to_dict, json_getitem, dict_getitem. cbn [as_dict].
  cbn [dict_get String.eqb Ascii.eqb Bool.eqb].
  unfold bind at 1. unfold ret at 1.
  unfold bind at 1. unfold ret at 1.
  unfold bind at 1. unfold ret at 1.
  unfold bind at 1. unfold json_iter at 1. unfold ret at 1.
  unfold bind at 1. rewrite restore_turns_stored.
  unfold bind at 1. unfold get at 1.
  unfold bind at 1. unfold set_conversations, modify, ret.
  cbn [ConversationMemory.turns ConversationMemory.max_turns
       ConversationMemory.max_tokens conversations base_world].
  eexists _, _. split; [reflexivity|].
  cbn [ConversationMemory.set_turns ConversationMemory.conversation_id
       ConversationMemory.metadata ConversationMemory.turns conversations
       base_world].
  split; [reflexivity|]. split; [reflexivity|]. split.
  { destruct (deque_extend_window
                (deque_items (ConversationMemory.turns c))
                (mkDeque 10 (@nil ConversationTurn.t))) as [-> _].
    - split; cbn; lia.
    - reflexivity. }
  split; [apply dict_get_set_same|].
  split; [|reflexivity].
  intros k Hk. cbn [conversations]. apply dict_get_set_other. congruence.
Qed.

Lemma restore_turns_state (data : list json) (c : ConversationMemory.t)
    (s : Enhanced) :
  snd (restore_turns data c s) = s.
Proof.
  revert c. induction data as [|turn_data data IH]; intros c; [reflexivity|].
  cbn [restore_turns]. destruct (as_dict turn_data) as [d|e]; [|reflexivity].
  unfold dict_getitem, bind, ret, raise.
  destruct (dict_get "role" d); [|reflexivity].
  destruct (dict_get "content" d); [|reflexivity].
  destruct (dict_get "timestamp" d); [|reflexivity].
  apply IH.
Qed.

(** X24: [load_conversation] never raises, whatever the collection
    returns or raises and whatever the document holds: it returns the
    conversation it put under the session, or [None] with every
    conversation as it was. It sends no update and does not touch what the
    base engine holds. *)
Theorem load_conversation_never_raises (db : AgentMemory)
    (session_id : string) (s : Enhanced) :
  exists found s',
    load_conversation db session_id s = (Ret found, s')
    /\ base_world s' = base_world s
    /\ db_updates s' = db_updates s
    /\ match found with
       | Some c' =>
           dict_get session_id (conversations s') = Some c'
           /\ other_sessions_kept session_id s s'
       | None => conversations s' = conversations s
       end.
Proof.
  unfold load_conversation, try_except.
  unfold bind at 1. unfold get at 1.
  unfold bind at 1. unfold lift_outcome at 1.
  destruct (find_one db (db_updates s) session_id) as [[doc|]|e];
    [|eexists _, _; split; [reflexivity|repeat split]..].
  destruct (dict_has "conversation" doc);
    [|eexists _, _; split; [reflexivity|repeat split]].
  unfold bind at 1. unfold ConversationMemory_new at 1.
  unfold bind at 1. unfold datetime_utcnow at 1. unfold ret at 1.
  set (s1 := mkEnhanced (base_world s) (conversations s) (utc_clock s)
               (S (utc_ticks s)) (db_updates s)).
  unfold bind at 1. unfold dict_getitem at 1.
  destruct (dict_get "conversation" doc) as [stored|];
    [|eexists _, _; split; [reflexivity|repeat split]].
  unfold ret at 1. unfold json_getitem.
  destruct (as_dict stored) as [d|e];
    [|eexists _, _; split; [reflexivity|repeat split]].
  unfold dict_getitem.
  unfold bind at 1.
  destruct (dict_get "conversation_id" d) as [conversation_id|];
    [|eexists _, _; split; [reflexivity|repeat split]].
  unfold ret at 1. unfold bind at 1.
  destruct (dict_get "metadata" d) as [metadata|];
    [|eexists _, _; split; [reflexivity|repeat split]].
  unfold ret at 1. unfold bind at 1.
  destruct (dict_get "turns" d) as [stored_turns|];
    [|eexists _, _; split; [reflexivity|repeat split]].
  unfold ret at 1. unfold bind at 1.
  assert (Hiter : exists o, json_iter stored_turns s1 = (o, s1)).
  { destruct stored_turns; eexists; reflexivity. }
  destruct Hiter as [[data|e] ->];
    [|eexists _, _; split; [reflexivity|repeat split]].
  unfold bind at 1.
  match goal with
  | |- context [restore_turns data ?c s1] =>
      pose proof (restore_turns_state data c s1) as Hstate;
      destruct (restore_turns data c s1) as [[c'|e] s2]
  end; cbn [snd] in Hstate; subst s2;
    [|eexists _, _; split; [reflexivity|repeat split]].
  unfold bind at 1. unfold get at 1.
  unfold bind at 1. unfold set_conversations, modify, ret.
  eexists _, _. split; [reflexivity|].
  cbn [base_world db_updates conversations s1].
  split; [reflexivity|]. split; [reflexivity|].
  split; [apply dict_get_set_same|].
  intros k Hk. cbn [conversations]. apply dict_get_set_other. congruence.
Qed.

End ChatFacts.

(* ================================================================== *)
(** * Properties of the module-level engine *)
(* ================================================================== *)

Section ProcessFacts.
Context {rt : PyRuntime}.



End ProcessFacts.

(* ================================================================== *)
(** * The further properties on concrete instances *)
(* ================================================================== *)

Lemma lifetime_totals_account_for_recorded_usage_witness :
  let w := world_at 0 default_tracker in
  let ops :=
    [CheckOp 100; RecordOp 80 0.5%float; CheckOp 100; RecordOp 70 0.25%float] in
  let w' := snd (run_ops (rt := small_runtime) ops w) in
  total_requests (tracker w') = total_requests (tracker w) + recorded_count ops
  /\ total_tokens (tracker w') = total_tokens (tracker w) + recorded_tokens ops
  /\ total_cost (tracker w')
     = fold_left PrimFloat.add (recorded_costs ops) (total_cost (tracker w)).
Proof.
  cbv zeta.
  apply (lifetime_totals_account_for_recorded_usage (rt := small_runtime)).
  vm_compute. reflexivity.
Defined.

Lemma hour_window_accounts_for_recorded_usage_witness :
  let w := world_at (seconds 10) default_tracker in
  let ops :=
    [CheckOp 100; RecordOp 80 0.5%float; CheckOp 100; RecordOp 70 0.25%float] in
  let w' := snd (run_ops (rt := small_runtime) ops w) in
  hour_tokens (tracker w') = hour_tokens (tracker w) + recorded_tokens ops
  /\ hour_cost (tracker w')
     = fold_left PrimFloat.add (recorded_costs ops) (hour_cost (tracker w))
  /\ hour_start (tracker w') = hour_start (tracker w).
Proof.
  cbv zeta.
  apply (hour_window_accounts_for_recorded_usage (rt := small_runtime)).
  - intros i _. vm_compute. split; [discriminate|reflexivity].
  - vm_compute. reflexivity.
Defined.

Lemma hour_tokens_stay_within_ceiling_witness :
  let w := world_at 0 stale_tracker in
  let requests := [mkRequest 600 550 0.5%float; mkRequest 600 580 0.5%float] in
  let w' := snd (admit_and_record (rt := small_runtime) requests w) in
  hour_tokens (tracker w') <= max_tokens_per_hour (tracker w')
  /\ max_tokens_per_hour (tracker w') = max_tokens_per_hour (tracker w).
Proof.
  cbv zeta.
  apply (hour_tokens_stay_within_ceiling (rt := small_runtime)
           [mkRequest 600 550 0.5%float; mkRequest 600 580 0.5%float]
           (world_at 0 stale_tracker) _
           (fst (admit_and_record (rt := small_runtime)
                   [mkRequest 600 550 0.5%float; mkRequest 600 580 0.5%float]
                   (world_at 0 stale_tracker)))).
  - repeat constructor; vm_compute; discriminate.
  - vm_compute. discriminate.
  - vm_compute. discriminate.
  - vm_compute. reflexivity.
Defined.

(** An engine built for OpenAI without its client does not turn to the
    client of Anthropic it was given. *)
Lemma generate_contacts_only_the_selected_provider_witness :
  let self :=
    AIEngine.mk OPENAI "gpt-4o-mini" None (Some (constant_anthropic "{}")) in
  let w := world_at 0 default_tracker in
  let w' := snd (generate (rt := small_runtime) self "hi" None None w) in
  events w' = events w
  \/ (AIEngine.provider self = OPENAI
      /\ AIEngine.openai_client self <> None
      /\ events w'
         = (events w
            ++ [OpenAICall
                  (openai_request self "hi" None
                     (requested_tokens None (tracker w)))])%list)
  \/ (AIEngine.provider self = ANTHROPIC
      /\ AIEngine.anthropic_client self <> None
      /\ events w'
         = (events w
            ++ [AnthropicCall
                  (anthropic_request self "hi" None
                     (requested_tokens None (tracker w)))])%list).
Proof.
  cbv zeta.
  apply (generate_contacts_only_the_selected_provider (rt := small_runtime)
           (AIEngine.mk OPENAI "gpt-4o-mini" None
              (Some (constant_anthropic "{}")))
           "hi" None None (world_at 0 default_tracker) _
           (fst (generate (rt := small_runtime)
                   (AIEngine.mk OPENAI "gpt-4o-mini" None
                      (Some (constant_anthropic "{}")))
                   "hi" None None (world_at 0 default_tracker)))).
  vm_compute. reflexivity.
Defined.

(** A provider whose usage cannot be priced gives a failure response. *)
Lemma generate_always_returns_witness :
  exists r w',
    generate (rt := small_runtime) (lavish_engine "{}") "hi" None None
      (world_at 0 default_tracker) = (Ret r, w')
    /\ max_requests_per_minute (tracker w')
       = max_requests_per_minute (tracker (world_at 0 default_tracker)).
Proof.
  apply (generate_always_returns (rt := small_runtime) (lavish_engine "{}")
           "hi" None None (world_at 0 default_tracker));
    vm_compute; reflexivity.
Defined.

(** A reply of two thousand opening brackets: the RecursionError of the
    decoder leaves [generate_json]. *)
Lemma generate_json_passes_other_decoder_errors_witness :
  fst (generate_json (rt := small_runtime) (openai_engine deep_reply) "hi"
         (JObject []) None (world_at 0 default_tracker))
  = Raise (mkExn RecursionError
             ("maximum recursion depth exceeded while decoding "
              ++ "a JSON array from a unicode string")).
Proof.
  rewrite (generate_json_passes_other_decoder_errors (rt := small_runtime)
             (openai_engine deep_reply) "hi" (JObject []) None
             (world_at 0 default_tracker)
             (snd (generate (rt := small_runtime) (openai_engine deep_reply)
                     (json_prompt (rt := small_runtime) "hi" (JObject []))
                     None None (world_at 0 default_tracker)))
             (AIResponse.mk deep_reply "gpt-4o-mini" 42
                (openai_cost (OpenAI.mkUsage 12 30 42)) "openai" true None)
             (mkExn RecursionError
                ("maximum recursion depth exceeded while decoding "
                 ++ "a JSON array from a unicode string"))
             ltac:(vm_compute; reflexivity)
             ltac:(reflexivity)
             ltac:(vm_compute; reflexivity)
             ltac:(discriminate)).
  reflexivity.
Defined.

Lemma generate_reports_what_it_records_witness :
  let w := world_at 0 default_tracker in
  let run := generate (rt := small_runtime) (openai_engine "{}") "hi" None None w in
  exists r,
    fst run = Ret r
    /\ AIResponse.success r = true
    /\ total_requests (tracker (snd run)) = total_requests (tracker w) + 1
    /\ total_tokens (tracker (snd run))
       = total_tokens (tracker w) + AIResponse.tokens_used r.
Proof.
  cbv zeta.
  exists (AIResponse.mk "{}" "gpt-4o-mini" 42
            (openai_cost (OpenAI.mkUsage 12 30 42)) "openai" true None).
  split; [vm_compute; reflexivity|]. split; [reflexivity|].
  destruct (generate_reports_what_it_records (rt := small_runtime)
              (openai_engine "{}") "hi" None None (world_at 0 default_tracker)
              (snd (generate (rt := small_runtime) (openai_engine "{}") "hi"
                      None None (world_at 0 default_tracker)))
              (AIResponse.mk "{}" "gpt-4o-mini" 42
                 (openai_cost (OpenAI.mkUsage 12 30 42)) "openai" true None)
              ltac:(vm_compute; reflexivity)) as (_ & Hsuccess & _).
  destruct (Hsuccess eq_refl) as (Hrequests & Htokens & _).
  split; [exact Hrequests|exact Htokens].
Defined.

(** The engine built without a key stays the engine of the process when
    the key is set afterwards. *)
Lemma get_ai_engine_builds_once_witness :
  let run := get_ai_engine keyless_environ new_process in
  exists engine,
    fst run = Ret engine
    /\ get_ai_engine openai_environ (snd run) = (Ret engine, snd run)
    /\ AIEngine.openai_client engine = None.
Proof.
  cbv zeta. exists unconfigured_engine.
  split; [vm_compute; reflexivity|]. split; [|reflexivity].
  apply (get_ai_engine_builds_once keyless_environ openai_environ new_process
           (snd (get_ai_engine keyless_environ new_process))
           unconfigured_engine).
  vm_compute. reflexivity.
Defined.


(** A routing that ends in an exception, the handler of the receiver
    having raised, has changed that worker and nothing else. *)
Lemma route_message_changes_workers_only_witness :
  let h := hive_of [shopper crashing_worker; ad completing_worker] in
  let run := route_message 5 (task_for "shopper_bee_001") h in
  fst run = Raise (mkExn TypeError "argument of type 'int' is not iterable")
  /\ QueenBee.self (queen (snd run)) = QueenBee.self (queen h)
  /\ QueenBee.workflows_completed (queen (snd run))
     = QueenBee.workflows_completed (queen h)
  /\ QueenBee.workflows_failed (queen (snd run))
     = QueenBee.workflows_failed (queen h)
  /\ roles (worker_bees (snd run)) = roles (worker_bees h).
Proof.
  cbv zeta. split; [vm_compute; reflexivity|].
  apply (route_message_changes_workers_only 5 (task_for "shopper_bee_001")
           (hive_of [shopper crashing_worker; ad completing_worker]) _
           (fst (route_message 5 (task_for "shopper_bee_001")
                   (hive_of [shopper crashing_worker; ad completing_worker])))).
  vm_compute. reflexivity.
Defined.

Lemma route_message_delivers_to_receiver_witness :
  let h := hive_of [shopper completing_worker; ad completing_worker] in
  let message := task_for "shopper_bee_001" in
  exists h',
    route_message 2 message h = (Ret tt, h')
    /\ dict_get "shopper_bee_001" (worker_bees h')
       = Some (BeeInfo.mk
                 (mkBee completing_worker
                    (HiveAgent.mk "shopper_bee_001" SHOPPER_BEE
                       "AI shopping behavior analyst" IDLE false 1 0 1 1
                       (Some queen_route_message)))
                 SHOPPER_BEE)
    /\ others_kept "shopper_bee_001" h h'.
Proof.
  cbv zeta.
  apply (route_message_delivers_to_receiver 0 (task_for "shopper_bee_001")
           (hive_of [shopper completing_worker; ad completing_worker])
           (BeeInfo.mk
              (mkBee completing_worker
                 (HiveAgent.set_on_message_send (Some queen_route_message)
                    (bee_self (shopper completing_worker))))
              SHOPPER_BEE)
           (Some (reply_to (task_for "shopper_bee_001")
                    (JObject [("success", JBool true)])))
           (HiveAgent.mk "shopper_bee_001" SHOPPER_BEE
              "AI shopping behavior analyst" THINKING false 1 0 0 1
              (Some queen_route_message))).
  - vm_compute. reflexivity.
  - vm_compute. reflexivity.
  - intros r [= <-]. vm_compute. reflexivity.
Defined.

(** Two workers whose tasks fail, each with a task completed earlier:
    the campaign is reported as a success. *)
Lemma campaign_judged_by_completed_counters_witness :
  let data := [("user_id", JString "u1")] in
  let h := hive_of [seasoned (shopper failing_worker);
                    seasoned (ad failing_worker)] in
  let h3 := snd (shopper_step (rt := small_runtime) 10 "shopper_bee_001" data
                   (workflow_started h)) in
  let h5 := snd (ad_step (rt := small_runtime) 10 "ad_bee_001" data h3) in
  option_map HiveAgent.tasks_failed (worker "shopper_bee_001" h5) = Some 1
  /\ option_map HiveAgent.tasks_failed (worker "ad_bee_001" h5) = Some 1
  /\ execute_workflow (rt := small_runtime) 10 "full_ad_campaign" data h
     = (Ret (campaign_result (rt := small_runtime) "shopper_bee_001"
               "ad_bee_001" h h5),
        workflow_counted true 1 h5).
Proof.
  cbv zeta. split; [vm_compute; reflexivity|].
  split; [vm_compute; reflexivity|].
  apply (campaign_judged_by_completed_counters (rt := small_runtime) 10
           [("user_id", JString "u1")]
           (hive_of [seasoned (shopper failing_worker);
                     seasoned (ad failing_worker)])
           (snd (shopper_step (rt := small_runtime) 10 "shopper_bee_001"
                   [("user_id", JString "u1")]
                   (workflow_started
                      (hive_of [seasoned (shopper failing_worker);
                                seasoned (ad failing_worker)]))))
           (snd (ad_step (rt := small_runtime) 10 "ad_bee_001"
                   [("user_id", JString "u1")]
                   (snd (shopper_step (rt := small_runtime) 10
                           "shopper_bee_001" [("user_id", JString "u1")]
                           (workflow_started
                              (hive_of [seasoned (shopper failing_worker);
                                        seasoned (ad failing_worker)]))))))
           "shopper_bee_001" "ad_bee_001"
           (HiveAgent.mk "shopper_bee_001" SHOPPER_BEE
              "AI shopping behavior analyst" IDLE false 1 1 1 1
              (Some queen_route_message))
           (HiveAgent.mk "ad_bee_001" AD_BEE "AI advertising strategist"
              IDLE false 1 1 1 1 (Some queen_route_message))).
  - vm_compute. reflexivity.
  - discriminate.
  - vm_compute. reflexivity.
  - vm_compute. reflexivity.
  - vm_compute. discriminate.
  - vm_compute. reflexivity.
  - discriminate.
  - vm_compute. reflexivity.
  - vm_compute. reflexivity.
Defined.

Lemma unknown_workflow_reaches_no_worker_witness :
  let h := hive_of [shopper completing_worker; ad completing_worker] in
  execute_workflow (rt := small_runtime) 10 "full_campaign" [] h
  = (Ret (failed_result (rt := small_runtime) "Unknown workflow" h
            (workflow_started h)),
     workflow_counted false 1 (workflow_started h))
  /\ worker_bees (workflow_counted false 1 (workflow_started h)) = worker_bees h
  /\ uuid_count (workflow_counted false 1 (workflow_started h)) = uuid_count h
  /\ hive_ticks (workflow_counted false 1 (workflow_started h))
     = (3 + hive_ticks h)%nat.
Proof.
  cbv zeta.
  apply (unknown_workflow_reaches_no_worker (rt := small_runtime) 10
           "full_campaign" []
           (hive_of [shopper completing_worker; ad completing_worker])).
  discriminate.
Defined.

(** Twelve turns added to a fresh conversation: the first two are gone. *)
Lemma memory_keeps_latest_turns_witness :
  let entries :=
    map (fun n => (JString "user", JInt n, seconds n))
      [1; 2; 3; 4; 5; 6; 7; 8; 9; 10; 11; 12] in
  let c := fresh_conversation (rt := small_runtime) 0 in
  said (add_turns (rt := small_runtime) entries c)
  = map (fun n => (JString "user", JInt n)) [3; 4; 5; 6; 7; 8; 9; 10; 11; 12]
  /\ within_bound
       (ConversationMemory.turns (add_turns (rt := small_runtime) entries c)).
Proof.
  cbv zeta.
  apply (memory_keeps_latest_turns (rt := small_runtime)
           (map (fun n => (JString "user", JInt n, seconds n))
              [1; 2; 3; 4; 5; 6; 7; 8; 9; 10; 11; 12])
           (fresh_conversation (rt := small_runtime) 0)).
  split; vm_compute; discriminate.
Defined.

Lemma chat_records_successful_exchanges_witness :
  let s := enhanced_at (world_at 0 default_tracker) in
  let run := chat (rt := small_runtime) unreachable_db (openai_engine "{}")
               "hi" "s1" None true s in
  let r := AIResponse.mk "{}" "gpt-4o-mini" 42
             (openai_cost (OpenAI.mkUsage 12 30 42)) "openai" true None in
  let c' := with_exchange (rt := small_runtime) "hi" "{}" (utc_clock s) 1
              (fresh_conversation (rt := small_runtime) 0) in
  fst run = Ret r
  /\ dict_get "s1" (conversations (snd run)) = Some c'
  /\ other_sessions_kept "s1" s (snd run)
  /\ db_updates (snd run)
     = [mkUpdateOne "s1" (to_dict c') (seconds 3)].
Proof.
  cbv zeta. split; [vm_compute; reflexivity|].
  apply (chat_records_successful_exchanges (rt := small_runtime)
           unreachable_db (openai_engine "{}") "hi" "s1" None true
           (enhanced_at (world_at 0 default_tracker))
           (snd (chat (rt := small_runtime) unreachable_db (openai_engine "{}")
                   "hi" "s1" None true
                   (enhanced_at (world_at 0 default_tracker))))
           (AIResponse.mk "{}" "gpt-4o-mini" 42
              (openai_cost (OpenAI.mkUsage 12 30 42)) "openai" true None)).
  vm_compute. reflexivity.
Defined.

Lemma chat_always_returns_witness :
  exists r s',
    chat (rt := small_runtime) unreachable_db (openai_engine "{}") "hi" "s1"
      None true (enhanced_at (world_at 0 default_tracker)) = (Ret r, s').
Proof.
  apply (chat_always_returns (rt := small_runtime) unreachable_db
           (openai_engine "{}") "hi" "s1" None true
           (enhanced_at (world_at 0 default_tracker)));
    vm_compute; reflexivity.
Defined.

Lemma chat_keeps_sessions_within_bound_witness :
  sessions_within_bound
    (snd (chat (rt := small_runtime) unreachable_db (openai_engine "{}") "hi"
            "s1" None true (enhanced_at (world_at 0 default_tracker)))).
Proof.
  apply (chat_keeps_sessions_within_bound (rt := small_runtime) unreachable_db
           (openai_engine "{}") "hi" "s1" None true
           (enhanced_at (world_at 0 default_tracker)) _
           (fst (chat (rt := small_runtime) unreachable_db (openai_engine "{}")
                   "hi" "s1" None true
                   (enhanced_at (world_at 0 default_tracker))))).
  - intros k c H. vm_compute in H. discriminate H.
  - vm_compute. reflexivity.
Defined.

(** A conversation of twelve turns, saved and loaded again: the last ten
    turns come back. *)
Lemma load_restores_stored_conversation_witness :
  let s0 := enhanced_at (world_at 0 default_tracker) in
  let s := snd (_save_conversation echo_db "s1"
                  long_conversation s0) in
  exists c' s',
    load_conversation (rt := small_runtime) echo_db "s1" s = (Ret (Some c'), s')
    /\ ConversationMemory.conversation_id c'
       = ConversationMemory.conversation_id long_conversation
    /\ ConversationMemory.metadata c'
       = ConversationMemory.metadata long_conversation
    /\ deque_items (ConversationMemory.turns c')
       = last_n 10 (deque_items (ConversationMemory.turns long_conversation))
    /\ dict_get "s1" (conversations s') = Some c'
    /\ other_sessions_kept "s1" s s'
    /\ base_world s' = base_world s.
Proof.
  cbv zeta.
  apply (load_restores_stored_conversation (rt := small_runtime) echo_db "s1"
           (snd (_save_conversation echo_db "s1"
                   long_conversation
                   (enhanced_at (world_at 0 default_tracker))))
           [("session_id", JString "s1");
            ("conversation", to_dict long_conversation)]
           long_conversation).
  - vm_compute. reflexivity.
  - vm_compute. reflexivity.
Defined.
